(** * timestomp.py: the Windows timestamp accessor client and its driver

    A shallow embedding of [src/timestomp.py]: the tick/datetime codec
    ([ticks_to_datetime], [datetime_to_ticks]), the line protocol spoken
    with the child process ([_get_some_time], [_set_some_time], [close])
    and the command-line driver ([usage], [main]).

    Python library functions the program calls are modelled next to it:
    [str] methods, [float] arithmetic (IEEE binary64 through the standard
    library's [SpecFloat]), and the parts of [datetime] that are used. *)

From Stdlib Require Import ZArith List String Ascii Bool Lia.
From Stdlib Require Import QArith Qpower Qabs Lqa.
From Stdlib Require Import Floats.SpecFloat.
Import ListNotations.

Local Open Scope string_scope.
Local Open Scope Z_scope.

(* ===================================================================== *)
(** * Python text *)
(* ===================================================================== *)

Definition TAB : ascii := Ascii.ascii_of_nat 9.
Definition LF : ascii := Ascii.ascii_of_nat 10.
Definition CR : ascii := Ascii.ascii_of_nat 13.

Definition tab : string := String TAB "".
Definition newline : string := String LF "".

(** [s.rstrip("\r\n")]: drop every trailing carriage return and line feed. *)
Fixpoint rstrip_crlf (s : string) : string :=
  match s with
  | EmptyString => EmptyString
  | String c r =>
      match rstrip_crlf r with
      | EmptyString =>
          if (Ascii.eqb c CR || Ascii.eqb c LF)%bool then EmptyString
          else String c EmptyString
      | r' => String c r'
      end
  end.

(** [s.split(sep)] for a one-character separator: never the empty list. *)
Fixpoint split (sep : ascii) (s : string) : list string :=
  match s with
  | EmptyString => [EmptyString]
  | String c r =>
      if Ascii.eqb c sep then EmptyString :: split sep r
      else match split sep r with
           | h :: t => String c h :: t
           | [] => [String c EmptyString]
           end
  end.

(** [s.startswith("-")]. *)
Definition startswith_dash (s : string) : bool :=
  match s with
  | String c _ => Ascii.eqb c "-"
  | EmptyString => false
  end.

(** [c in l] on characters. *)
Definition char_in (c : ascii) (l : list ascii) : bool :=
  existsb (Ascii.eqb c) l.

(** Decimal digits of a natural number, most significant first. *)
Definition digit_char (d : Z) : ascii := Ascii.ascii_of_nat (48 + Z.to_nat d).

Fixpoint digits_fuel (fuel : nat) (n : Z) (acc : string) : string :=
  match fuel with
  | O => acc
  | S f =>
      let acc' := String (digit_char (n mod 10)) acc in
      if n / 10 =? 0 then acc' else digits_fuel f (n / 10) acc'
  end.

Definition digits_of (n : Z) : string :=
  digits_fuel (S (Z.to_nat (Z.log2 n))) n EmptyString.

(** [str(n)] for an [int]. *)
Definition str_int (n : Z) : string :=
  if n <? 0 then String "-" (digits_of (- n)) else digits_of n.

Fixpoint zeros (k : nat) : string :=
  match k with
  | O => EmptyString
  | S k' => String "0" (zeros k')
  end.

(** ["%0wd" % n] for [0 <= n]. *)
Definition pad0 (w : nat) (n : Z) : string :=
  let d := digits_of n in
  zeros (w - String.length d) ++ d.

(** [int(s)] on ASCII text: optional blanks around an optional sign and
    decimal digits, where single underscores may separate digits. *)
Definition is_space (c : ascii) : bool :=
  let n := Z.of_nat (Ascii.nat_of_ascii c) in
  (n =? 32) || ((9 <=? n) && (n <=? 13)).

Definition digit_val (c : ascii) : option Z :=
  let n := Z.of_nat (Ascii.nat_of_ascii c) in
  if (48 <=? n) && (n <=? 57) then Some (n - 48) else None.

Fixpoint lstrip_space (s : string) : string :=
  match s with
  | String c r => if is_space c then lstrip_space r else s
  | EmptyString => EmptyString
  end.

(** Digits after the first one: [acc] is the value read so far and
    [us] tells that the previous character was an underscore. *)
Fixpoint int_digits (s : string) (acc : Z) (us : bool) : option Z :=
  match s with
  | EmptyString => if us then None else Some acc
  | String c r =>
      match digit_val c with
      | Some d => int_digits r (acc * 10 + d) false
      | None =>
          if Ascii.eqb c "_" then (if us then None else int_digits r acc true)
          else if is_space c then
                 (if us then None
                  else match lstrip_space s with
                       | EmptyString => Some acc
                       | _ => None
                       end)
               else None
      end
  end.

Definition int_unsigned (s : string) : option Z :=
  match s with
  | String c r =>
      match digit_val c with
      | Some d => int_digits r d false
      | None => None
      end
  | EmptyString => None
  end.

Definition int_of_str (s : string) : option Z :=
  match lstrip_space s with
  | String "-" r => option_map Z.opp (int_unsigned r)
  | String "+" r => int_unsigned r
  | r => int_unsigned r
  end.

(* ===================================================================== *)
(** * Exceptions, results and the world the program runs in *)
(* ===================================================================== *)

(** The exceptions that can leave the program.  [Exception_ msg] is the
    plain [Exception(msg)] the accessor class raises. *)
Inductive exn : Type :=
| Exception_ (msg : string)
| ValueError (msg : string)
| TypeError
| OverflowError
| OSError
| IndexError
| CalledProcessError (returncode : Z)
| SystemExit (code : Z).

Inductive result (A : Type) : Type :=
| Ok (a : A)
| Raise (e : exn).
Arguments Ok {A} a.
Arguments Raise {A} e.

Definition rbind {A B} (r : result A) (f : A -> result B) : result B :=
  match r with
  | Ok a => f a
  | Raise e => Raise e
  end.

(** What an observer of one run sees, in order. *)
Inductive event : Type :=
| Popen (exe : string)        (* the child process is launched *)
| Write (line : string)       (* a request line is written and flushed *)
| Print (line : string)       (* a line on standard output *)
| Close                       (* both pipes are closed and the child is awaited *).

(** The state a run threads: the events so far (oldest first) and the
    lines the child process has still to answer with. *)
Record world : Type := mkWorld {
  trace : list event;
  child_stdout : list string
}.

Definition M (A : Type) : Type := world -> result A * world.

Definition ret {A} (a : A) : M A := fun w => (Ok a, w).
Definition raise {A} (e : exn) : M A := fun w => (Raise e, w).
Definition bind {A B} (m : M A) (f : A -> M B) : M B :=
  fun w => match m w with
           | (Ok a, w') => f a w'
           | (Raise e, w') => (Raise e, w')
           end.
Definition lift {A} (r : result A) : M A := fun w => (r, w).

Declare Scope py_scope.
Delimit Scope py_scope with py.
Notation "x <- m ;; k" := (bind m (fun x => k))
  (at level 61, m at next level, right associativity) : py_scope.
Notation "m ;; k" := (bind m (fun _ => k))
  (at level 61, right associativity) : py_scope.
Local Open Scope py_scope.

(** An event takes place.  For [Write] this is [write] followed by
    [flush] on the pipe to the child: the runs described are those in
    which the child keeps its end of the pipe open for as long as the
    program writes to it, so that no write ends in [BrokenPipeError]. *)
Definition emit (e : event) : M unit :=
  fun w => (Ok tt, mkWorld (trace w ++ [e])%list (child_stdout w)).

(** [print(s)]. *)
Definition print (s : string) : M unit := emit (Print s).

(** [self.response.readline().decode("UTF-8")]: the next line of the
    child as text, the empty text at end of file.  (Bytes that are not
    UTF-8 would make [decode] raise; the lines here are text already.
    A child that neither answers nor exits would make the call wait for
    ever; here it has answered or is at end of file.) *)
Definition readline : M string :=
  fun w => match child_stdout w with
           | l :: rest => (Ok l, mkWorld (trace w) rest)
           | [] => (Ok EmptyString, w)
           end.

(** [if c: m]. *)
Definition when (c : bool) (m : M unit) : M unit :=
  if c then m else ret tt.

(** [for x in l: body(x)]. *)
Fixpoint for_each {A} (l : list A) (body : A -> M unit) : M unit :=
  match l with
  | [] => ret tt
  | x :: rest => body x ;; for_each rest body
  end.

(* ===================================================================== *)
(** * Python floats: IEEE binary64 *)
(* ===================================================================== *)

Definition prec : Z := 53.
Definition emax : Z := 1024.

Definition float : Type := spec_float.

(** [float(n)] as the division operator applies it to an [int] operand:
    correctly rounded, and an error when the integer is too large. *)
Definition float_of_int (n : Z) : result float :=
  match binary_normalize prec emax n 0 false with
  | S754_infinity _ => Raise OverflowError
  | f => Ok f
  end.

(** The literals [1e7] and [1e6] (both are exact). *)
Definition f_1e7 : float := binary_normalize prec emax 10000000 0 false.
Definition f_1e6 : float := binary_normalize prec emax 1000000 0 false.

(** [n / d] for an [int] numerator and a non-zero [float] denominator. *)
Definition int_truediv_float (n : Z) (d : float) : result float :=
  rbind (float_of_int n) (fun f => Ok (SFdiv prec emax f d)).

(** C's [modf] on a finite float: the integral part, kept as an integer,
    and the fractional part, which carries the sign of the argument.
    Both are exact. *)
Definition modf (f : float) : Z * float :=
  match f with
  | S754_finite s m e =>
      if 0 <=? e then (cond_Zopp s (Z.shiftl (Zpos m) e), S754_zero s)
      else
        let q := Z.shiftr (Zpos m) (- e) in
        let r := Zpos m - Z.shiftl q (- e) in
        (cond_Zopp s q, binary_normalize prec emax (cond_Zopp s r) e s)
  | _ => (0, f)
  end.

(** Rounding a finite float to the nearest integer, ties to even. *)
Definition round_half_even (f : float) : Z :=
  match f with
  | S754_finite s m e =>
      if 0 <=? e then cond_Zopp s (Z.shiftl (Zpos m) e)
      else
        let q := Z.shiftr (Zpos m) (- e) in
        let r := Zpos m - Z.shiftl q (- e) in
        let half := Z.shiftl 1 (- e - 1) in
        let q' := match r ?= half with
                  | Lt => q
                  | Gt => q + 1
                  | Eq => if Z.even q then q else q + 1
                  end in
        cond_Zopp s q'
  | _ => 0
  end.

(* ===================================================================== *)
(** * Python datetime *)
(* ===================================================================== *)

(** A [timedelta], normalised by its constructor:
    [0 <= seconds < 86400] and [0 <= microseconds < 1000000]. *)
Record timedelta : Type := mkTimedelta {
  days : Z;
  seconds : Z;
  microseconds : Z
}.

Definition timedelta_new (d s us : Z) : timedelta :=
  let s1 := s + us / 1000000 in
  mkTimedelta (d + s1 / 86400) (s1 mod 86400) (us mod 1000000).

(** A [datetime].  [tzinfo] is [None] for a naive value and otherwise a
    fixed-offset [timezone], kept as its offset east of UTC in
    microseconds. *)
Record datetime : Type := mkDatetime {
  year : Z;
  month : Z;
  day : Z;
  hour : Z;
  minute : Z;
  second : Z;
  microsecond : Z;
  tzinfo : option Z
}.

Definition MINYEAR : Z := 1.
Definition MAXYEAR : Z := 9999.

Definition _is_leap (y : Z) : bool :=
  (y mod 4 =? 0) && (negb (y mod 100 =? 0) || (y mod 400 =? 0)).

Definition _days_before_year (y : Z) : Z :=
  let y1 := y - 1 in
  y1 * 365 + y1 / 4 - y1 / 100 + y1 / 400.

Definition _DAYS_IN_MONTH (m : Z) : Z :=
  match m with
  | 1 => 31 | 2 => 28 | 3 => 31 | 4 => 30 | 5 => 31 | 6 => 30
  | 7 => 31 | 8 => 31 | 9 => 30 | 10 => 31 | 11 => 30 | 12 => 31
  | _ => 0
  end.

Definition _DAYS_BEFORE_MONTH (m : Z) : Z :=
  match m with
  | 1 => 0 | 2 => 31 | 3 => 59 | 4 => 90 | 5 => 120 | 6 => 151
  | 7 => 181 | 8 => 212 | 9 => 243 | 10 => 273 | 11 => 304 | 12 => 334
  | _ => 0
  end.

Definition _days_in_month (y m : Z) : Z :=
  if (m =? 2) && _is_leap y then 29 else _DAYS_IN_MONTH m.

Definition _days_before_month (y m : Z) : Z :=
  _DAYS_BEFORE_MONTH m + (if (2 <? m) && _is_leap y then 1 else 0).

(** Proleptic Gregorian ordinal of a date: 0001-01-01 is day 1. *)
Definition _ymd2ord (y m d : Z) : Z :=
  _days_before_year y + _days_before_month y m + d.

Definition _DI400Y : Z := 146097.
Definition _DI100Y : Z := 36524.
Definition _DI4Y : Z := 1461.

(** The date of an ordinal. *)
Definition _ord2ymd (n : Z) : Z * Z * Z :=
  let n := n - 1 in
  let n400 := n / _DI400Y in
  let n := n mod _DI400Y in
  let y := n400 * 400 + 1 in
  let n100 := n / _DI100Y in
  let n := n mod _DI100Y in
  let n4 := n / _DI4Y in
  let n := n mod _DI4Y in
  let n1 := n / 365 in
  let n := n mod 365 in
  let y := y + n100 * 100 + n4 * 4 + n1 in
  if (n1 =? 4) || (n100 =? 4) then (y - 1, 12, 31)
  else
    let leapyear := (n1 =? 3) && (negb (n4 =? 24) || (n100 =? 3)) in
    let m := Z.shiftr (n + 50) 5 in
    let preceding :=
      _DAYS_BEFORE_MONTH m + (if (2 <? m) && leapyear then 1 else 0) in
    if n <? preceding then
      let m' := m - 1 in
      let preceding' :=
        preceding - (_DAYS_IN_MONTH m'
                     + (if (m' =? 2) && leapyear then 1 else 0)) in
      (y, m', n - preceding' + 1)
    else (y, m, n - preceding + 1).

Definition toordinal (dt : datetime) : Z :=
  _ymd2ord (year dt) (month dt) (day dt).

Definition EPOCH_ORDINAL : Z := 719163.

(** [time.gmtime(t)] followed by the [datetime] constructor, as
    [utcfromtimestamp] uses them: the calendar fields of [t] seconds
    after 1970-01-01 with [us] microseconds, or the error the library
    raises when the instant cannot be held (a [time_t] of 64 bits, a C
    [int] for the year, and years 1 to 9999 for [datetime]).  This is
    the behaviour on a 64-bit POSIX platform, where [gmtime] accepts
    negative values. *)
Definition datetime_from_timet_and_us (t us : Z) : result datetime :=
  if (t <? - 2 ^ 63) || (2 ^ 63 <=? t) then Raise OverflowError
  else
    let '(y, m, d) := _ord2ymd (EPOCH_ORDINAL + t / 86400) in
    let r := t mod 86400 in
    if (y - 1900 <? - 2 ^ 31) || (2 ^ 31 <=? y - 1900) then Raise OSError
    else if (y <? MINYEAR) || (MAXYEAR <? y) then
           Raise (ValueError "year is out of range")
         else Ok (mkDatetime y m d (r / 3600) (r mod 3600 / 60) (r mod 60)
                             us None).

(** The argument of [utcfromtimestamp]: an [int] or a [float]. *)
Inductive timestamp : Type :=
| TsInt (n : Z)
| TsFloat (f : float).

(** The whole seconds of a float timestamp as a [time_t].  The library
    compares the bounds as doubles, so [2^63] itself passes the range
    check, and the C cast that follows turns it into [-2^63] (x86-64),
    which [gmtime] then refuses. *)
Definition time_t_of_double (intpart : Z) : result Z :=
  if (intpart <? - 2 ^ 63) || (2 ^ 63 <? intpart) then Raise OverflowError
  else if intpart =? 2 ^ 63 then Ok (- 2 ^ 63)
  else Ok intpart.

(** [datetime.datetime.utcfromtimestamp(t)].  A float is split by [modf];
    the fraction, times [1e6], is rounded half to even to give the
    microseconds; a carry out of the microseconds moves into the seconds. *)
Definition utcfromtimestamp (t : timestamp) : result datetime :=
  match t with
  | TsInt n => datetime_from_timet_and_us n 0
  | TsFloat S754_nan => Raise (ValueError "Invalid value NaN (not a number)")
  | TsFloat (S754_infinity _) => Raise OverflowError
  | TsFloat f =>
      let '(intpart, frac) := modf f in
      let floatpart := round_half_even (SFmul prec emax frac f_1e6) in
      if 1000000 <=? floatpart then
        rbind (time_t_of_double (intpart + 1)) (fun t =>
        datetime_from_timet_and_us t (floatpart - 1000000))
      else if floatpart <? 0 then
        rbind (time_t_of_double (intpart - 1)) (fun t =>
        datetime_from_timet_and_us t (floatpart + 1000000))
      else
        rbind (time_t_of_double intpart) (fun t =>
        datetime_from_timet_and_us t floatpart)
  end.

(** [a - b] on datetimes. *)
Definition datetime_sub (a b : datetime) : result timedelta :=
  let base :=
    timedelta_new (toordinal a - toordinal b)
                  ((second a + minute a * 60 + hour a * 3600)
                   - (second b + minute b * 60 + hour b * 3600))
                  (microsecond a - microsecond b) in
  match tzinfo a, tzinfo b with
  | None, None => Ok base
  | Some oa, Some ob =>
      Ok (timedelta_new (days base) (seconds base)
                        (microseconds base + ob - oa))
  | _, _ => Raise TypeError
  end.

(** [str(dt)], that is [dt.isoformat(sep=' ')]. *)
Definition format_offset (off : Z) : string :=
  let sign := if off <? 0 then "-" else "+" in
  let a := Z.abs off in
  let hh := a / 3600000000 in
  let r := a mod 3600000000 in
  let mm := r / 60000000 in
  let ss := r mod 60000000 in
  sign ++ pad0 2 hh ++ ":" ++ pad0 2 mm
    ++ (if ss =? 0 then ""
        else ":" ++ pad0 2 (ss / 1000000)
             ++ (if ss mod 1000000 =? 0 then ""
                 else "." ++ pad0 6 (ss mod 1000000))).

Definition str_datetime (dt : datetime) : string :=
  pad0 4 (year dt) ++ "-" ++ pad0 2 (month dt) ++ "-" ++ pad0 2 (day dt)
    ++ " " ++ pad0 2 (hour dt) ++ ":" ++ pad0 2 (minute dt) ++ ":"
    ++ pad0 2 (second dt)
    ++ (if microsecond dt =? 0 then "" else "." ++ pad0 6 (microsecond dt))
    ++ match tzinfo dt with
       | None => ""
       | Some off => format_offset off
       end.

(** ** [strptime] for the driver's format

    [datetime.datetime.strptime(s, '%Y/%m/%d %H:%M:%S %z')] on ASCII text.
    The library turns the format into a regular expression, matches it
    at the start of [s] with backtracking, and refuses text left over;
    the parsers below return the matches of a sub-expression in the order
    the regular expression engine tries them. *)

Definition parser (A : Type) : Type := string -> list (A * string).

Definition p_ret {A} (a : A) : parser A := fun s => [(a, s)].

Definition p_bind {A B} (p : parser A) (f : A -> parser B) : parser B :=
  fun s => flat_map (fun '(a, r) => f a r) (p s).

(** [p|q]: every match of [p], then every match of [q]. *)
Definition p_alt {A} (p q : parser A) : parser A :=
  fun s => (p s ++ q s)%list.

(** One character accepted by [ok]. *)
Definition p_char (ok : ascii -> bool) : parser ascii :=
  fun s => match s with
           | String c r => if ok c then [(c, r)] else []
           | EmptyString => []
           end.

Definition p_lit (c : ascii) : parser unit :=
  p_bind (p_char (Ascii.eqb c)) (fun _ => p_ret tt).

(** A decimal digit between [lo] and [hi]. *)
Definition p_digit (lo hi : Z) : parser Z :=
  fun s => match s with
           | String c r =>
               match digit_val c with
               | Some d => if (lo <=? d) && (d <=? hi) then [(d, r)] else []
               | None => []
               end
           | EmptyString => []
           end.

(** Two digits [a b] read as the number [10a + b]. *)
Definition p_two (lo1 hi1 lo2 hi2 : Z) : parser Z :=
  p_bind (p_digit lo1 hi1) (fun a =>
  p_bind (p_digit lo2 hi2) (fun b => p_ret (10 * a + b))).

(** [\s] on ASCII text. *)
Definition re_space (c : ascii) : bool :=
  let n := Z.of_nat (Ascii.nat_of_ascii c) in
  (n =? 32) || ((9 <=? n) && (n <=? 13)) || ((28 <=? n) && (n <=? 31)).

(** [\s+], the longest run first. *)
Fixpoint p_spaces1 (s : string) : list (unit * string) :=
  match s with
  | String c r => if re_space c then (p_spaces1 r ++ [(tt, r)])%list else []
  | EmptyString => []
  end.

(** [p?], the match of [p] first. *)
Definition p_opt {A} (p : parser A) : parser (option A) :=
  p_alt (p_bind p (fun a => p_ret (Some a))) (p_ret None).

Notation "'let*' x ':=' p 'in' k" := (p_bind p (fun x => k))
  (at level 10, x name, p at level 100, k at level 200, only parsing).

Definition re_Y : parser Z :=
  let* a := p_digit 0 9 in
  let* b := p_digit 0 9 in
  let* c := p_digit 0 9 in
  let* d := p_digit 0 9 in
  p_ret (1000 * a + 100 * b + 10 * c + d).

Definition re_m : parser Z :=
  p_alt (p_two 1 1 0 2) (p_alt (p_two 0 0 1 9) (p_digit 1 9)).

Definition re_d : parser Z :=
  p_alt (p_two 3 3 0 1) (p_alt (p_two 1 2 0 9) (p_alt (p_two 0 0 1 9)
  (p_alt (p_digit 1 9) (let* _ := p_lit " " in p_digit 1 9)))).

Definition re_H : parser Z :=
  p_alt (p_two 2 2 0 3) (p_alt (p_two 0 1 0 9) (p_digit 0 9)).

Definition re_M : parser Z :=
  p_alt (p_two 0 5 0 9) (p_digit 0 9).

Definition re_S : parser Z :=
  p_alt (p_two 6 6 0 1) (p_alt (p_two 0 5 0 9) (p_digit 0 9)).

(** Up to [k] more digits of a fraction, as many as there are. *)
Fixpoint p_frac_digits (k : nat) (acc : list Z) : parser (list Z) :=
  match k with
  | O => p_ret acc
  | S k' =>
      p_alt (let* d := p_digit 0 9 in p_frac_digits k' (acc ++ [d])%list)
            (p_ret acc)
  end.

(** The text matched by [%z], taken apart. *)
Record z_match : Type := mkZ {
  z_neg : bool;
  z_hh : Z;
  z_colon1 : bool;
  z_mm : Z;
  z_sec : option (bool * Z * option (list Z))
}.

Definition p_is_some {A} (o : option A) : bool :=
  match o with Some _ => true | None => false end.

(** [(\.\d{1,6})]. *)
Definition re_z_fraction : parser (list Z) :=
  let* _ := p_lit "." in
  let* d := p_digit 0 9 in
  p_frac_digits 5 [d].

(** [(:?[0-5]\d(\.\d{1,6})?)]. *)
Definition re_z_seconds : parser (bool * Z * option (list Z)) :=
  let* c2 := p_opt (p_lit ":") in
  let* ss := p_two 0 5 0 9 in
  let* fr := p_opt re_z_fraction in
  p_ret (p_is_some c2, ss, fr).

(** [[+-]\d\d:?[0-5]\d(:?[0-5]\d(\.\d{1,6})?)?|Z]: [None] stands for [Z]. *)
Definition re_z : parser (option z_match) :=
  p_alt
    (let* sg := p_char (fun c => Ascii.eqb c "+" || Ascii.eqb c "-") in
     let* hh := p_two 0 9 0 9 in
     let* c1 := p_opt (p_lit ":") in
     let* mm := p_two 0 5 0 9 in
     let* sec := p_opt re_z_seconds in
     p_ret (Some (mkZ (Ascii.eqb sg "-") hh (p_is_some c1) mm sec)))
    (let* _ := p_lit "Z" in p_ret None).

(** The whole expression: the fields in the order of the format. *)
Definition re_format : parser (Z * Z * Z * Z * Z * Z * option z_match) :=
  let* y := re_Y in
  let* _ := p_lit "/" in
  let* m := re_m in
  let* _ := p_lit "/" in
  let* d := re_d in
  let* _ := p_spaces1 in
  let* hh := re_H in
  let* _ := p_lit ":" in
  let* mi := re_M in
  let* _ := p_lit ":" in
  let* ss := re_S in
  let* _ := p_spaces1 in
  let* z := re_z in
  p_ret (y, m, d, hh, mi, ss, z).

(** Fraction digits padded on the right to six places. *)
Fixpoint frac_value (ds : list Z) (k : nat) : Z :=
  match k with
  | O => 0
  | S k' =>
      match ds with
      | d :: r => d * 10 ^ Z.of_nat k' + frac_value r k'
      | [] => 0
      end
  end.

(** The offset of a [%z] match in microseconds, when the library's
    post-processing accepts the text. *)
Definition z_offset (z : option z_match) : option Z :=
  match z with
  | None => Some 0
  | Some zm =>
      match z_sec zm with
      | None =>
          Some (cond_Zopp (z_neg zm)
                  ((z_hh zm * 3600 + z_mm zm * 60) * 1000000))
      | Some (c2, ss, fr) =>
          if Bool.eqb (z_colon1 zm) c2 then
            let f := match fr with Some ds => frac_value ds 6 | None => 0 end in
            Some (cond_Zopp (z_neg zm)
                    ((z_hh zm * 3600 + z_mm zm * 60 + ss) * 1000000 + f))
          else None
      end
  end.

Definition strptime_ascii (s : string) : option datetime :=
  match re_format s with
  | ((y, m, d, hh, mi, ss, z), EmptyString) :: _ =>
      match z_offset z with
      | Some off =>
          if (MINYEAR <=? y) && (y <=? MAXYEAR)
             && (d <=? _days_in_month y m) && (ss <=? 59)
             && (- 86400000000 <? off) && (off <? 86400000000)
          then Some (mkDatetime y m d hh mi ss 0 (Some off))
          else None
      | None => None
      end
  | _ => None
  end.

(* ===================================================================== *)
(** * The program *)
(* ===================================================================== *)

(** What a run depends on besides the child's answers: the command line,
    the file system, the two library parsers whose result the program
    branches on, and the child process itself. *)
Record env : Type := mkEnv {
  argv : list string;                   (* sys.argv *)
  isfile : string -> bool;              (* os.path.isfile *)
  abspath : string -> string;           (* os.path.abspath *)
  py_int : string -> option Z;          (* int(s); None: ValueError *)
  strptime : string -> option datetime; (* strptime(s, '%Y/%m/%d %H:%M:%S %z');
                                           None: ValueError *)
  executable_found : bool;              (* Popen can start the accessor *)
  returncode : Z                        (* exit status of the child *)
}.

(** A value passed where the accessor formats its [ticks] argument. *)
Inductive pyobj : Type :=
| PyInt (n : Z)
| PyDatetime (d : datetime).

(** ["{}".format(v)]. *)
Definition str_obj (v : pyobj) : string :=
  match v with
  | PyInt n => str_int n
  | PyDatetime d => str_datetime d
  end.

(** [bool(date)]: a [datetime] is always true. *)
Definition datetime_bool (d : datetime) : bool := true.

(** [l[i]]. *)
Definition index (l : list string) (i : nat) : M string :=
  match nth_error l i with
  | Some x => ret x
  | None => raise IndexError
  end.

Definition _EPOCH : Z := 621355968000000000.

Definition ticks_to_datetime (ticks : Z) : result datetime :=
  rbind (int_truediv_float (ticks - _EPOCH) f_1e7)
        (fun t => utcfromtimestamp (TsFloat t)).

Definition datetime_to_ticks (dt : datetime) : result Z :=
  match tzinfo dt with
  | Some _ => Raise (ValueError "Naive datetime expected")
  | None =>
      rbind (utcfromtimestamp (TsInt 0)) (fun epoch =>
      rbind (datetime_sub dt epoch) (fun delta =>
      Ok (((days delta * 86400 + seconds delta) * 1000000
           + microseconds delta) * 10 + _EPOCH)))
  end.

Definition usage_line1 : string :=
  "usage:   ./timestomp.py path -[pmacb] [%Y/%m/%d %H:%M:%S %z]".
Definition usage_line2 : string :=
  "example: ./timestomp.py test.txt -ma 2000/02/28 13:03:30 UTC".

Definition usage : M unit :=
  print usage_line1 ;;
  print usage_line2 ;;
  raise (SystemExit 1).

Section Program.

Variable E : env.

Definition _EXECUTABLE_PATH : string := "WindowsTimestampAccessor.exe".

(** [WindowsTimestampAccessor.__init__]. *)
Definition __init__ : M unit :=
  if executable_found E then emit (Popen _EXECUTABLE_PATH)
  else raise OSError.

(** [close]: both pipes are closed, the child is awaited and its exit
    status checked.  With every request flushed when it was written,
    [self.query.close()] has nothing left to write; the three calls
    before the check are one event. *)
Definition close : M unit :=
  emit Close ;;
  if returncode E =? 0 then ret tt
  else raise (CalledProcessError (returncode E)).

(** [__exit__] returns [None], so an exception of the body goes on
    unless [close] raises one of its own. *)
Definition __exit__ : M unit := close.

(** [with WindowsTimestampAccessor() as wt: body]. *)
Definition with_accessor {A} (body : M A) : M A :=
  __init__ ;;
  fun w =>
    let '(r, w1) := body w in
    match __exit__ w1 with
    | (Ok _, w2) => (r, w2)
    | (Raise e, w2) => (Raise e, w2)
    end.

Definition _get_some_time (type path : string) : M Z :=
  emit (Write ("Get" ++ type ++ "Time" ++ tab ++ abspath E path ++ newline)) ;;
  line <- readline ;;
  let tokens := split TAB (rstrip_crlf line) in
  if negb (List.length tokens =? 2)%nat
     || negb (String.eqb (nth 0 tokens "") "ok")
  then raise (Exception_ "Invalid data")
  else match py_int E (nth 1 tokens "") with
       | Some n => ret n
       | None => raise (ValueError "invalid literal for int()")
       end.

Definition get_creation_time (path : string) : M Z :=
  _get_some_time "Creation" path.

Definition get_modification_time (path : string) : M Z :=
  _get_some_time "Modification" path.

Definition get_access_time (path : string) : M Z :=
  _get_some_time "Access" path.

Definition _set_some_time (type path : string) (ticks : pyobj) : M unit :=
  emit (Write ("Set" ++ type ++ "Time" ++ tab ++ abspath E path ++ tab
               ++ str_obj ticks ++ newline)) ;;
  line <- readline ;;
  if negb (String.eqb (rstrip_crlf line) "ok")
  then raise (Exception_ "Invalid data")
  else ret tt.

Definition set_creation_time (path : string) (ticks : pyobj) : M unit :=
  _set_some_time "Creation" path ticks.

Definition set_modification_time (path : string) (ticks : pyobj) : M unit :=
  _set_some_time "Modification" path ticks.

Definition set_access_time (path : string) (ticks : pyobj) : M unit :=
  _set_some_time "Access" path ticks.

Definition valid_commands : list ascii := ["p"; "m"; "a"; "c"; "b"]%char.

Definition debug_line : string := "DEBUG: made it here".

(** The loop that checks the flag letters: lines 123-125. *)
Definition check_commands (commands : list ascii) : M unit :=
  for_each commands (fun c => when (negb (char_in c valid_commands)) usage).

(** The three queries and the three printed lines, which [main] has twice
    (lines 128-133 and 154-159). *)
Definition show_times (path : string) : M unit :=
  access_time <- get_access_time path ;;
  modification_time <- get_modification_time path ;;
  creation_time <- get_creation_time path ;;
  a <- lift (ticks_to_datetime access_time) ;;
  print ("access_time:       " ++ str_datetime a) ;;
  m <- lift (ticks_to_datetime modification_time) ;;
  print ("modification_time: " ++ str_datetime m) ;;
  b <- lift (ticks_to_datetime creation_time) ;;
  print ("birth_time:        " ++ str_datetime b).

(** One step of the loop that applies the flags. *)
Definition apply_command (path : string) (date : datetime) (c : ascii)
  : M unit :=
  if Ascii.eqb c "m" then set_modification_time path (PyDatetime date)
  else if Ascii.eqb c "a" then set_access_time path (PyDatetime date)
  else if Ascii.eqb c "c" then print "c (MFT change) not implemented yet"
  else if Ascii.eqb c "b" then set_creation_time path (PyDatetime date)
  else ret tt.

(** What follows the first print block in [main]: lines 138-159. *)
Definition main_mutate (path : string) (commands : list ascii) : M unit :=
  arg <- index (argv E) 3 ;;
  date <- match strptime E arg with
          | Some d => ret d
          | None => raise (ValueError "time data does not match format")
          end ;;
  when (negb (datetime_bool date)) usage ;;
  for_each commands (apply_command path date) ;;
  when (char_in "p" commands)
       (print ("times for " ++ path ++ " changed to: ") ;;
        show_times path).

Definition main_body : M unit :=
  when (List.length (argv E) <? 3)%nat usage ;;
  path <- index (argv E) 1 ;;
  when (negb (isfile E path)) usage ;;
  flags <- index (argv E) 2 ;;
  when (negb (startswith_dash flags)) usage ;;
  print debug_line ;;
  let commands := tl (list_ascii_of_string flags) in
  check_commands commands ;;
  if char_in "p" commands then
    show_times path ;;
    if (List.length commands =? 1)%nat then ret tt
    else main_mutate path commands
  else main_mutate path commands.

Definition main : M unit := with_accessor main_body.

End Program.

(** A run from the start: nothing has happened yet and the child will
    answer with [answers], one line per read. *)
Definition run (E : env) (answers : list string) : result unit * world :=
  main E (mkWorld [] answers).

(** The exit status of the interpreter. *)
Definition exit_status (r : result unit) : Z :=
  match r with
  | Ok _ => 0
  | Raise (SystemExit c) => c
  | Raise _ => 1
  end.

(* ===================================================================== *)
(** * Values used to state the properties *)
(* ===================================================================== *)

(** 1970-01-01 00:00:00, naive. *)
Definition unix_epoch : datetime := mkDatetime 1970 1 1 0 0 0 0 None.

(** Microseconds from the start of ordinal day 0 to a datetime's fields. *)
Definition total_microseconds (dt : datetime) : Z :=
  ((toordinal dt * 86400 + hour dt * 3600 + minute dt * 60 + second dt)
   * 1000000) + microsecond dt.

(** 2000-02-28 13:03:30, naive. *)
Definition ts_2000_02_28 : datetime := mkDatetime 2000 2 28 13 3 30 0 None.


(** The line the next read of the child's output returns. *)
Definition next_line (w : world) : string :=
  match child_stdout w with
  | l :: _ => l
  | [] => EmptyString
  end.

(** [isinstance(e, Exception)]: every exception of the model but
    [SystemExit], which derives from [BaseException] only. *)
Definition isinstance_Exception (e : exn) : bool :=
  match e with
  | SystemExit _ => false
  | _ => true
  end.

(** The request lines of the protocol. *)
Definition get_request (E : env) (kind path : string) : string :=
  "Get" ++ kind ++ "Time" ++ tab ++ abspath E path ++ newline.

Definition set_request (E : env) (kind path : string) (v : pyobj) : string :=
  "Set" ++ kind ++ "Time" ++ tab ++ abspath E path ++ tab ++ str_obj v
    ++ newline.

(** An event that reaches the child process: its launch or a request. *)
Definition contacts_child (e : event) : bool :=
  match e with
  | Popen _ | Write _ => true
  | _ => false
  end.

Definition is_write (e : event) : bool :=
  match e with
  | Write _ => true
  | _ => false
  end.

(** The flag letters that change a timestamp (or are meant to). *)
Definition mutating_commands : list ascii := ["m"; "a"; "c"; "b"]%char.

(** A test environment: the working directory is [/tmp], the only file
    is [test.txt], the library parsers are the ASCII ones above, and the
    accessor starts and exits with status 0. *)
Definition test_env (args : list string) : env :=
  mkEnv args
        (fun p => String.eqb p "test.txt")
        (fun p => "/tmp/" ++ p)
        int_of_str
        strptime_ascii
        true
        0.

(** An event other than the two printed lines of the usage text. *)
Definition not_usage (e : event) : Prop :=
  e <> Print usage_line1 /\ e <> Print usage_line2.

(** A computation that never leaves through [sys.exit] and never prints
    the usage text, whatever the world it starts from. *)
Definition benign {A} (m : M A) : Prop :=
  forall w,
    (forall c, fst (m w) <> Raise (SystemExit c))
    /\ exists evs, trace (snd (m w)) = (trace w ++ evs)%list
                   /\ Forall not_usage evs.

(** The command line of the specification's print-only example and three
    answers of the accessor. *)
Definition argv_print : list string := ["./timestomp.py"; "test.txt"; "-p"].

Definition answers_print : list string :=
  ["ok" ++ tab ++ "637134336000000000" ++ newline;
   "ok" ++ tab ++ "637134336012345670" ++ newline;
   "ok" ++ tab ++ "630873398100000000" ++ newline].

(** Command lines used below. *)
Definition argv_ma_no_date : list string :=
  ["./timestomp.py"; "test.txt"; "-ma"].

Definition argv_ma : list string :=
  ["./timestomp.py"; "test.txt"; "-ma"; "2000/02/28 13:03:30 +0000"].

Definition argv_ma_spec_example : list string :=
  ["./timestomp.py"; "test.txt"; "-ma"; "2000/02/28 13:03:30 UTC"].

Definition argv_ma_unquoted : list string :=
  ["./timestomp.py"; "test.txt"; "-ma"; "2000/02/28"; "13:03:30"; "UTC"].

Definition argv_m_bad_date : list string :=
  ["./timestomp.py"; "test.txt"; "-m"; "yesterday"].

Definition argv_x : list string := ["./timestomp.py"; "test.txt"; "-x"].

Definition ok_line : string := "ok" ++ newline.

(** The tick value of 2000-02-28 13:03:30 UTC. *)
Definition ticks_2000_02_28 : Z := 630873398100000000.

(* ===================================================================== *)
(** * Notions used to reason about the float arithmetic and the calendar *)
(* ===================================================================== *)

(** Shifting with a round bit and a sticky bit.

    A record [(m, r, s)] stands for the position of the exact quotient
    [N / D] between [m] and [m + 1]: the round bit tells whether it has
    reached the middle and the sticky bit whether it lies strictly inside
    a half. *)
Definition rec_rep (mrs : shr_record) (N D : Z) : Prop :=
  0 < D /\ 0 <= shr_m mrs /\
  let rem := N - shr_m mrs * D in
  match shr_r mrs, shr_s mrs with
  | false, false => rem = 0
  | false, true => 0 < 2 * rem < D
  | true, false => 2 * rem = D
  | true, true => D < 2 * rem < 2 * D
  end.


(** [2^e] as a rational number, for any integer [e]. *)
Definition pow2 (e : Z) : Q := Qpower 2 e.

(** The day [n] days after 1970-01-01 has a year the library accepts and
    [_ymd2ord] maps its date back to its ordinal. *)
Definition day_ok (n : Z) : bool :=
  let '(y, m, d) := _ord2ymd (EPOCH_ORDINAL + n) in
  (MINYEAR <=? y) && (y <=? MAXYEAR)
  && (_ymd2ord y m d =? EPOCH_ORDINAL + n).

Fixpoint days_ok (k : nat) (n : Z) : bool :=
  match k with
  | O => true
  | S k' => if day_ok n then days_ok k' (n + 1) else false
  end.


(* ===================================================================== *)
(** * Notions used to state properties of whole runs *)
(* ===================================================================== *)




(** [len(argv) >= 3], the path names a file, and the flag token is a dash
    followed by letters among [p], [m], [a], [c], [b]. *)
Definition command_line_ok (E : env) : bool :=
  match argv E with
  | _ :: path :: flags :: _ =>
      isfile E path && startswith_dash flags
      && forallb (fun c => char_in c valid_commands)
                 (tl (list_ascii_of_string flags))
  | _ => false
  end.

(** The flag letters that send a Set request. *)
Definition is_set_command (c : ascii) : bool :=
  Ascii.eqb c "m" || Ascii.eqb c "a" || Ascii.eqb c "b".

Definition count_sets (commands : list ascii) : nat :=
  List.length (filter is_set_command commands).

(** What one flag letter makes the driver do when the accessor agrees. *)
Definition command_events (E : env) (path : string) (date : datetime)
           (c : ascii) : list event :=
  if Ascii.eqb c "m" then
    [Write (set_request E "Modification" path (PyDatetime date))]
  else if Ascii.eqb c "a" then
    [Write (set_request E "Access" path (PyDatetime date))]
  else if Ascii.eqb c "c" then [Print "c (MFT change) not implemented yet"]
  else if Ascii.eqb c "b" then
    [Write (set_request E "Creation" path (PyDatetime date))]
  else [].

(** The events of one print block. *)
Definition show_events (E : env) (path : string) (d1 d2 d3 : datetime)
  : list event :=
  [Write (get_request E "Access" path);
   Write (get_request E "Modification" path);
   Write (get_request E "Creation" path);
   Print ("access_time:       " ++ str_datetime d1);
   Print ("modification_time: " ++ str_datetime d2);
   Print ("birth_time:        " ++ str_datetime d3)].

(** A line answers a Get request with the integer [t]. *)
Definition answers_get (E : env) (l : string) (t : Z) : Prop :=
  exists s, split TAB (rstrip_crlf l) = ["ok"; s] /\ py_int E s = Some t.

(** A line answers a Set request with [ok]. *)
Definition answers_ok (l : string) : Prop := rstrip_crlf l = "ok".

(** Carriage return or line feed. *)
Definition is_crlf (c : ascii) : bool := Ascii.eqb c CR || Ascii.eqb c LF.

Fixpoint string_forallb (p : ascii -> bool) (s : string) : bool :=
  match s with
  | EmptyString => true
  | String c r => p c && string_forallb p r
  end.

(** A line answers a Get request with a tick count that decodes to [d]. *)
Definition answers_time (E : env) (l : string) (d : datetime) : Prop :=
  exists s t,
    split TAB (rstrip_crlf l) = ["ok"; s]
    /\ py_int E s = Some t
    /\ ticks_to_datetime t = Ok d.

(** The ranges the [datetime] constructor checks on its fields. *)
Definition _check_date_fields (y m d : Z) : bool :=
  (MINYEAR <=? y) && (y <=? MAXYEAR)
  && (1 <=? m) && (m <=? 12)
  && (1 <=? d) && (d <=? _days_in_month y m).

Definition _check_time_fields (h mi s us : Z) : bool :=
  (0 <=? h) && (h <=? 23) && (0 <=? mi) && (mi <=? 59)
  && (0 <=? s) && (s <=? 59) && (0 <=? us) && (us <=? 999999).

(** A value the constructor can have built. *)
Definition constructible (dt : datetime) : bool :=
  _check_date_fields (year dt) (month dt) (day dt)
  && _check_time_fields (hour dt) (minute dt) (second dt) (microsecond dt).

(** [p] holds for the [k] integers from [n] on. *)
Fixpoint forall_range (p : Z -> bool) (k : nat) (n : Z) : bool :=
  match k with
  | O => true
  | S k' => if p n then forall_range p k' (n + 1) else false
  end.

(** The date is one of the 41638 days from 1970-01-01 to 2083-12-31 and
    is the date of its own ordinal. *)
Definition date_ok (y m d : Z) : bool :=
  let n := _ymd2ord y m d in
  (EPOCH_ORDINAL <=? n) && (n <? EPOCH_ORDINAL + 41638)
  && (let '(y', m', d') := _ord2ymd n in
      (y' =? y) && (m' =? m) && (d' =? d)).

Definition dates_ok (y0 : Z) (years : nat) : bool :=
  forall_range
    (fun y =>
       forall_range
         (fun m =>
            forall_range (date_ok y m) (Z.to_nat (_days_in_month y m)) 1)
         12 1)
    years y0.
(* ===================================================================== *)
(** * The tick encoder *)
(* ===================================================================== *)

Lemma utcfromtimestamp_0 : utcfromtimestamp (TsInt 0) = Ok unix_epoch.
Proof. reflexivity. Qed.

Lemma timedelta_new_normal (d s us : Z) :
  let td := timedelta_new d s us in
  0 <= seconds td < 86400 /\ 0 <= microseconds td < 1000000
  /\ (days td * 86400 + seconds td) * 1000000 + microseconds td
     = (d * 86400 + s) * 1000000 + us.
Proof.
  unfold timedelta_new; cbn [days seconds microseconds].
  pose proof (Z.mod_pos_bound us 1000000 ltac:(lia)) as Hus.
  pose proof (Z.mod_pos_bound (s + us / 1000000) 86400 ltac:(lia)) as Hs.
  pose proof (Z.div_mod us 1000000 ltac:(lia)) as Eus.
  pose proof (Z.div_mod (s + us / 1000000) 86400 ltac:(lia)) as Es.
  repeat split; lia.
Qed.

Lemma datetime_sub_naive (a b : datetime) :
  tzinfo a = None -> tzinfo b = None ->
  exists td, datetime_sub a b = Ok td
    /\ 0 <= seconds td < 86400 /\ 0 <= microseconds td < 1000000
    /\ (days td * 86400 + seconds td) * 1000000 + microseconds td
       = total_microseconds a - total_microseconds b.
Proof.
  intros Ha Hb. unfold datetime_sub. rewrite Ha, Hb.
  eexists; split; [reflexivity|].
  match goal with |- context [timedelta_new ?d ?s ?u] =>
    destruct (timedelta_new_normal d s u) as (H1 & H2 & H3) end.
  repeat split; try tauto. rewrite H3. unfold total_microseconds. lia.
Qed.

(** What the encoder returns on a naive timestamp. *)
Lemma datetime_to_ticks_naive (ts : datetime) :
  tzinfo ts = None ->
  exists delta,
    datetime_sub ts unix_epoch = Ok delta
    /\ datetime_to_ticks ts
       = Ok (((days delta * 86400 + seconds delta) * 1000000
              + microseconds delta) * 10 + _EPOCH).
Proof.
  intros Hn.
  destruct (datetime_sub_naive ts unix_epoch Hn eq_refl) as (td & E & _).
  exists td. unfold datetime_to_ticks. rewrite Hn, utcfromtimestamp_0.
  cbn [rbind]. rewrite E. cbn [rbind]. auto.
Qed.

(** C6.  For a naive timestamp [ts] the encoder returns
    [((days*86400 + seconds)*1000000 + microseconds)*10 + 621355968000000000],
    where [days], [seconds] and [microseconds] are the fields of
    [ts - unix_epoch]: the signed decomposition of the difference, in which
    [days] carries the sign and the other two are in their normal ranges. *)
Theorem datetime_to_ticks_formula (ts : datetime) :
  tzinfo ts = None ->
  exists delta,
    datetime_sub ts unix_epoch = Ok delta
    /\ datetime_to_ticks ts
       = Ok (((days delta * 86400 + seconds delta) * 1000000
              + microseconds delta) * 10 + 621355968000000000)
    /\ 0 <= seconds delta < 86400
    /\ 0 <= microseconds delta < 1000000
    /\ (days delta * 86400 + seconds delta) * 1000000 + microseconds delta
       = total_microseconds ts - total_microseconds unix_epoch.
Proof.
  intros Hn.
  destruct (datetime_sub_naive ts unix_epoch Hn eq_refl)
    as (td & E & Hs & Hu & Ht).
  destruct (datetime_to_ticks_naive ts Hn) as (td' & E' & Ev).
  assert (td' = td) by congruence. subst td'.
  exists td. unfold _EPOCH in Ev. tauto.
Qed.

Lemma datetime_to_ticks_formula_witness :
  exists delta,
    datetime_sub ts_2000_02_28 unix_epoch = Ok delta
    /\ datetime_to_ticks ts_2000_02_28
       = Ok (((days delta * 86400 + seconds delta) * 1000000
              + microseconds delta) * 10 + 621355968000000000)
    /\ 0 <= seconds delta < 86400
    /\ 0 <= microseconds delta < 1000000
    /\ (days delta * 86400 + seconds delta) * 1000000 + microseconds delta
       = total_microseconds ts_2000_02_28 - total_microseconds unix_epoch.
Proof. apply (datetime_to_ticks_formula ts_2000_02_28). reflexivity. Defined.

(** C7.  The encoder fails with [ValueError("Naive datetime expected")]
    exactly when its argument carries a [tzinfo], and returns a value
    exactly when the argument is naive. *)
Theorem datetime_to_ticks_rejects_aware (ts : datetime) :
  (datetime_to_ticks ts = Raise (ValueError "Naive datetime expected")
   <-> tzinfo ts <> None)
  /\ ((exists n, datetime_to_ticks ts = Ok n) <-> tzinfo ts = None).
Proof.
  destruct (tzinfo ts) as [off|] eqn:Hz.
  - assert (E : datetime_to_ticks ts
                = Raise (ValueError "Naive datetime expected")).
    { unfold datetime_to_ticks. rewrite Hz. reflexivity. }
    rewrite E. split; split; intros H; try reflexivity; try discriminate.
    destruct H as (n & H). discriminate.
  - destruct (datetime_to_ticks_naive ts Hz) as (td & _ & E).
    rewrite E. split; split; intros H; try congruence; try reflexivity.
    eexists; reflexivity.
Qed.

(** C9.  Whenever the encoder returns, the tick value is a multiple of 10. *)
Theorem datetime_to_ticks_multiple_of_10 (ts : datetime) (n : Z) :
  datetime_to_ticks ts = Ok n -> n mod 10 = 0.
Proof.
  intros H. destruct (tzinfo ts) as [off|] eqn:Hz.
  - unfold datetime_to_ticks in H. rewrite Hz in H. discriminate.
  - destruct (datetime_to_ticks_naive ts Hz) as (td & _ & E).
    rewrite E in H. injection H as <-. unfold _EPOCH.
    rewrite Z.add_comm, Z.mod_add by lia. reflexivity.
Qed.

Lemma datetime_to_ticks_multiple_of_10_witness :
  datetime_to_ticks ts_2000_02_28 = Ok 630873398100000000
  /\ 630873398100000000 mod 10 = 0.
Proof.
  split; [reflexivity|].
  apply (datetime_to_ticks_multiple_of_10 ts_2000_02_28). reflexivity.
Defined.

(* ===================================================================== *)
(** * The channel: Get and Set *)
(* ===================================================================== *)

Lemma _get_some_time_unfold (E : env) (type path : string) (w : world) :
  _get_some_time E type path w
  = let tokens := split TAB (rstrip_crlf (next_line w)) in
    let w' := mkWorld (trace w ++ [Write (get_request E type path)])%list
                      (tl (child_stdout w)) in
    if negb (List.length tokens =? 2)%nat
       || negb (String.eqb (nth 0 tokens "") "ok")
    then (Raise (Exception_ "Invalid data"), w')
    else match py_int E (nth 1 tokens "") with
         | Some n => (Ok n, w')
         | None => (Raise (ValueError "invalid literal for int()"), w')
         end.
Proof.
  unfold _get_some_time, bind, emit, readline, next_line, get_request.
  cbn [trace child_stdout].
  destruct w as [tr [|l rest]]; cbn [trace child_stdout tl];
    match goal with
    | |- context [if ?c then _ else _] => destruct c; try reflexivity
    end;
    match goal with
    | |- context [py_int ?e ?s] => destruct (py_int e s); reflexivity
    end.
Qed.

Lemma two_tokens_ok (tokens : list string) :
  negb (List.length tokens =? 2)%nat
  || negb (String.eqb (nth 0 tokens "") "ok") = false
  <-> exists s, tokens = ["ok"; s].
Proof.
  split.
  - intros H. apply orb_false_iff in H. destruct H as [H1 H2].
    apply negb_false_iff in H1, H2.
    apply Nat.eqb_eq in H1. apply String.eqb_eq in H2.
    destruct tokens as [|a [|b [|c t]]]; try discriminate.
    cbn in H2. subst a. eexists; reflexivity.
  - intros (s & ->). reflexivity.
Qed.

(** C5.  Get reads one line, strips the line terminators and splits on
    tabs.  It returns [n] exactly when there are exactly two tokens, the
    first is ["ok"] and the second parses as the integer [n].  In every
    other shape it fails: with [Exception("Invalid data")] when the token
    count is not two or the first token is not ["ok"], and with the
    [ValueError] of [int] when the second token is not numeric; both
    are instances of [Exception]. *)
Theorem get_result_by_shape (E : env) (type path : string) (w : world) :
  let tokens := split TAB (rstrip_crlf (next_line w)) in
  let r := fst (_get_some_time E type path w) in
  (forall n, r = Ok n <-> exists s, tokens = ["ok"; s] /\ py_int E s = Some n)
  /\ ((forall s, tokens <> ["ok"; s]) -> r = Raise (Exception_ "Invalid data"))
  /\ (forall s, tokens = ["ok"; s] -> py_int E s = None ->
      r = Raise (ValueError "invalid literal for int()"))
  /\ (forall e, r = Raise e -> isinstance_Exception e = true).
Proof.
  intros tokens r. subst r. rewrite _get_some_time_unfold. fold tokens.
  cbv zeta.
  destruct (negb (List.length tokens =? 2)%nat
            || negb (String.eqb (nth 0 tokens "") "ok")) eqn:Hs.
  - assert (Hno : forall s, tokens <> ["ok"; s]).
    { intros s Ht. assert (Hex : exists s, tokens = ["ok"; s]) by eauto.
      apply two_tokens_ok in Hex. congruence. }
    cbn [fst]. split; [|split; [|split]].
    + intros n. split; [discriminate|].
      intros (s & Ht & _). elim (Hno s Ht).
    + reflexivity.
    + intros s Ht. elim (Hno s Ht).
    + intros e He. injection He as <-. reflexivity.
  - apply two_tokens_ok in Hs. destruct Hs as (s & Hs). rewrite Hs.
    cbn [nth]. split; [|split; [|split]].
    + intros n. split.
      * intros H. exists s. split; [reflexivity|].
        destruct (py_int E s); cbn [fst] in H; congruence.
      * intros (s' & Ht & Hn). injection Ht as <-. rewrite Hn. reflexivity.
    + intros H. elim (H s eq_refl).
    + intros s' Ht Hn. injection Ht as <-. rewrite Hn. reflexivity.
    + intros e He. destruct (py_int E s); cbn [fst] in He; [discriminate|].
      injection He as <-. reflexivity.
Qed.

(** The two channel stubs of the specification. *)
Example get_stub_ok :
  fst (_get_some_time (test_env []) "Access" "test.txt"
         (mkWorld [] ["ok" ++ tab ++ "637134336000000000" ++ newline]))
  = Ok 637134336000000000.
Proof. reflexivity. Qed.

Example get_stub_fail :
  fst (_get_some_time (test_env []) "Access" "test.txt"
         (mkWorld [] ["fail" ++ tab ++ "bad path" ++ newline]))
  = Raise (Exception_ "Invalid data").
Proof. reflexivity. Qed.

Lemma get_ok (E : env) (type path : string) (w : world)
      (l : string) (rest : list string) (s : string) (n : Z) :
  child_stdout w = l :: rest ->
  split TAB (rstrip_crlf l) = ["ok"; s] ->
  py_int E s = Some n ->
  _get_some_time E type path w
  = (Ok n, mkWorld (trace w ++ [Write (get_request E type path)])%list rest).
Proof.
  intros Hw Hl Hn. rewrite _get_some_time_unfold. unfold next_line.
  rewrite Hw, Hl. cbn. rewrite Hn. reflexivity.
Qed.

Lemma _set_some_time_unfold (E : env) (type path : string) (v : pyobj)
      (w : world) :
  _set_some_time E type path v w
  = let w' := mkWorld (trace w ++ [Write (set_request E type path v)])%list
                      (tl (child_stdout w)) in
    if String.eqb (rstrip_crlf (next_line w)) "ok" then (Ok tt, w')
    else (Raise (Exception_ "Invalid data"), w').
Proof.
  unfold _set_some_time, bind, emit, readline, next_line, set_request.
  cbn [trace child_stdout].
  destruct w as [tr [|l rest]]; cbn [trace child_stdout tl].
  - reflexivity.
  - destruct (String.eqb (rstrip_crlf l) "ok"); reflexivity.
Qed.

Lemma set_ok (E : env) (type path : string) (v : pyobj) (w : world)
      (l : string) (rest : list string) :
  child_stdout w = l :: rest ->
  rstrip_crlf l = "ok" ->
  _set_some_time E type path v w
  = (Ok tt, mkWorld (trace w ++ [Write (set_request E type path v)])%list rest).
Proof.
  intros Hw Hl. rewrite _set_some_time_unfold. unfold next_line.
  rewrite Hw, Hl. reflexivity.
Qed.

(* ===================================================================== *)
(** * The driver *)
(* ===================================================================== *)

Lemma bind_ok {A B} (m : M A) (f : A -> M B) (w w' : world) (a : A) :
  m w = (Ok a, w') -> bind m f w = f a w'.
Proof. intros H. unfold bind. rewrite H. reflexivity. Qed.

Lemma bind_raise {A B} (m : M A) (f : A -> M B) (w w' : world) (e : exn) :
  m w = (Raise e, w') -> bind m f w = (Raise e, w').
Proof. intros H. unfold bind. rewrite H. reflexivity. Qed.

Lemma usage_run (w : world) :
  usage w = (Raise (SystemExit 1),
             mkWorld (trace w ++ [Print usage_line1; Print usage_line2])%list
                     (child_stdout w)).
Proof.
  unfold usage, bind, print, emit, raise. cbn [trace child_stdout].
  rewrite <- app_assoc. reflexivity.
Qed.

Lemma check_commands_ok (commands : list ascii) (w : world) :
  forallb (fun c => char_in c valid_commands) commands = true ->
  check_commands commands w = (Ok tt, w).
Proof.
  unfold check_commands. induction commands as [|c cs IH]; intros H.
  - reflexivity.
  - cbn [forallb] in H. apply andb_true_iff in H. destruct H as [Hc Hcs].
    cbn [for_each]. unfold bind at 1. rewrite Hc. cbn [negb when ret].
    apply IH, Hcs.
Qed.

Lemma check_commands_bad (commands : list ascii) (w : world) (c : ascii) :
  In c commands -> char_in c valid_commands = false ->
  check_commands commands w
  = (Raise (SystemExit 1),
     mkWorld (trace w ++ [Print usage_line1; Print usage_line2])%list
             (child_stdout w)).
Proof.
  unfold check_commands. induction commands as [|c' cs IH]; intros Hin Hc.
  - contradiction.
  - cbn [for_each]. unfold bind at 1.
    destruct (char_in c' valid_commands) eqn:Hc'.
    + cbn [negb when ret]. apply IH; [|exact Hc].
      destruct Hin as [->|Hin]; [congruence|exact Hin].
    + cbn [negb when]. rewrite usage_run. reflexivity.
Qed.

Lemma with_accessor_run {A} (E : env) (body : M A) (w : world) :
  executable_found E = true ->
  with_accessor E body w
  = let '(r, w1) :=
      body (mkWorld (trace w ++ [Popen _EXECUTABLE_PATH])%list
                    (child_stdout w)) in
    let w2 := mkWorld (trace w1 ++ [Close])%list (child_stdout w1) in
    if returncode E =? 0 then (r, w2)
    else (Raise (CalledProcessError (returncode E)), w2).
Proof.
  intros Hx. unfold with_accessor, __init__, __exit__, close, bind, emit.
  rewrite Hx. cbn [trace child_stdout].
  destruct (body _) as [r w1]. cbn [trace child_stdout].
  destruct (returncode E =? 0); reflexivity.
Qed.

Lemma with_accessor_not_found {A} (E : env) (body : M A) (w : world) :
  executable_found E = false ->
  with_accessor E body w = (Raise OSError, w).
Proof.
  intros Hx. unfold with_accessor, __init__, bind, raise. rewrite Hx.
  reflexivity.
Qed.

(** The driver up to the end of the flag check, for a command line with
    a path that names a file and a flag token that starts with a dash. *)
Lemma main_body_checked (E : env) (w : world)
      (prog path flags : string) (rest : list string) :
  argv E = prog :: path :: flags :: rest ->
  isfile E path = true ->
  startswith_dash flags = true ->
  main_body E w
  = (let commands := tl (list_ascii_of_string flags) in
     check_commands commands ;;
     if char_in "p" commands then
       show_times E path ;;
       if (List.length commands =? 1)%nat then ret tt
       else main_mutate E path commands
     else main_mutate E path commands)%py
      (mkWorld (trace w ++ [Print debug_line])%list (child_stdout w)).
Proof.
  intros Ha Hf Hd. unfold main_body. rewrite Ha.
  cbn [List.length Nat.ltb Nat.leb when index nth_error].
  unfold bind at 1. cbn [ret]. unfold bind at 1. cbn [ret].
  rewrite Hf. cbn [negb when]. unfold bind at 1. cbn [ret].
  unfold bind at 1. cbn [ret]. rewrite Hd. cbn [negb when].
  unfold bind at 1. cbn [ret]. unfold bind at 1. unfold print, emit.
  reflexivity.
Qed.

Lemma show_times_ok (E : env) (path : string) (w : world)
      (l1 l2 l3 : string) (rest : list string) (s1 s2 s3 : string)
      (t1 t2 t3 : Z) (d1 d2 d3 : datetime) :
  child_stdout w = l1 :: l2 :: l3 :: rest ->
  split TAB (rstrip_crlf l1) = ["ok"; s1] -> py_int E s1 = Some t1 ->
  split TAB (rstrip_crlf l2) = ["ok"; s2] -> py_int E s2 = Some t2 ->
  split TAB (rstrip_crlf l3) = ["ok"; s3] -> py_int E s3 = Some t3 ->
  ticks_to_datetime t1 = Ok d1 ->
  ticks_to_datetime t2 = Ok d2 ->
  ticks_to_datetime t3 = Ok d3 ->
  show_times E path w
  = (Ok tt,
     mkWorld (trace w ++ [Write (get_request E "Access" path);
                          Write (get_request E "Modification" path);
                          Write (get_request E "Creation" path);
                          Print ("access_time:       " ++ str_datetime d1);
                          Print ("modification_time: " ++ str_datetime d2);
                          Print ("birth_time:        " ++ str_datetime d3)])%list
             rest).
Proof.
  intros Hw H1 N1 H2 N2 H3 N3 D1 D2 D3. unfold show_times.
  unfold get_access_time, get_modification_time, get_creation_time.
  erewrite bind_ok; [|eapply get_ok; [exact Hw|exact H1|exact N1]].
  erewrite bind_ok; [|eapply get_ok; [reflexivity|exact H2|exact N2]].
  erewrite bind_ok; [|eapply get_ok; [reflexivity|exact H3|exact N3]].
  rewrite D1, D2, D3. unfold bind, lift, print, emit.
  cbn [trace child_stdout]. repeat rewrite <- app_assoc. reflexivity.
Qed.

(** C8.  With the flag token [-p] on an existing file, an accessor that
    starts, answers the three queries with [ok], a tab and ticks that
    convert to a datetime, and exits with status 0: the program sends
    the three Get requests (access, modification, creation), prints the
    three labelled lines (after its debug line), closes the channel and
    returns normally.  No date argument is looked at: the command line
    may end after the flag token. *)
Theorem print_only_run (E : env) (prog path : string) (rest : list string)
        (l1 l2 l3 : string) (more : list string) (s1 s2 s3 : string)
        (t1 t2 t3 : Z) (d1 d2 d3 : datetime) :
  argv E = prog :: path :: "-p" :: rest ->
  isfile E path = true ->
  executable_found E = true ->
  returncode E = 0 ->
  split TAB (rstrip_crlf l1) = ["ok"; s1] -> py_int E s1 = Some t1 ->
  split TAB (rstrip_crlf l2) = ["ok"; s2] -> py_int E s2 = Some t2 ->
  split TAB (rstrip_crlf l3) = ["ok"; s3] -> py_int E s3 = Some t3 ->
  ticks_to_datetime t1 = Ok d1 ->
  ticks_to_datetime t2 = Ok d2 ->
  ticks_to_datetime t3 = Ok d3 ->
  run E (l1 :: l2 :: l3 :: more)
  = (Ok tt,
     mkWorld [Popen _EXECUTABLE_PATH;
              Print debug_line;
              Write (get_request E "Access" path);
              Write (get_request E "Modification" path);
              Write (get_request E "Creation" path);
              Print ("access_time:       " ++ str_datetime d1);
              Print ("modification_time: " ++ str_datetime d2);
              Print ("birth_time:        " ++ str_datetime d3);
              Close]
             more)
  /\ exit_status (fst (run E (l1 :: l2 :: l3 :: more))) = 0.
Proof.
  intros Ha Hf Hx Hrc H1 N1 H2 N2 H3 N3 D1 D2 D3.
  assert (R : run E (l1 :: l2 :: l3 :: more)
              = (Ok tt,
                 mkWorld [Popen _EXECUTABLE_PATH;
                          Print debug_line;
                          Write (get_request E "Access" path);
                          Write (get_request E "Modification" path);
                          Write (get_request E "Creation" path);
                          Print ("access_time:       " ++ str_datetime d1);
                          Print ("modification_time: " ++ str_datetime d2);
                          Print ("birth_time:        " ++ str_datetime d3);
                          Close]
                         more)).
  { unfold run, main. rewrite (with_accessor_run E _ _ Hx).
    cbn [trace child_stdout app].
    rewrite (main_body_checked E _ prog path "-p" rest Ha Hf eq_refl).
    cbn [list_ascii_of_string tl trace child_stdout app].
    erewrite bind_ok; [|apply check_commands_ok; reflexivity].
    change (char_in "p" ["p"%char]) with true. cbv iota.
    erewrite bind_ok;
      [|eapply show_times_ok; [reflexivity|eassumption..]].
    cbn [List.length Nat.eqb ret trace child_stdout app].
    rewrite Hrc. reflexivity. }
  rewrite R. split; reflexivity.
Qed.

Lemma print_only_run_witness :
  run (test_env argv_print) (answers_print ++ [])
  = (Ok tt,
     mkWorld [Popen _EXECUTABLE_PATH;
              Print debug_line;
              Write (get_request (test_env argv_print) "Access" "test.txt");
              Write (get_request (test_env argv_print) "Modification" "test.txt");
              Write (get_request (test_env argv_print) "Creation" "test.txt");
              Print ("access_time:       "
                     ++ str_datetime (mkDatetime 2020 1 1 0 0 0 0 None));
              Print ("modification_time: "
                     ++ str_datetime (mkDatetime 2020 1 1 0 0 1 234567 None));
              Print ("birth_time:        "
                     ++ str_datetime (mkDatetime 2000 2 28 13 3 30 0 None));
              Close]
             [])
  /\ exit_status (fst (run (test_env argv_print) (answers_print ++ []))) = 0.
Proof.
  apply (print_only_run (test_env argv_print) "./timestomp.py" "test.txt" []
           _ _ _ [] "637134336000000000" "637134336012345670"
           "630873398100000000"
           637134336000000000 637134336012345670 630873398100000000);
    vm_compute; reflexivity.
Defined.

(** What the witness prints, as text. *)
Example print_only_output :
  filter (fun e => negb (contacts_child e))
         (trace (snd (run (test_env argv_print) answers_print)))
  = [Print "DEBUG: made it here";
     Print "access_time:       2020-01-01 00:00:00";
     Print "modification_time: 2020-01-01 00:00:01.234567";
     Print "birth_time:        2000-02-28 13:03:30";
     Close].
Proof. vm_compute. reflexivity. Qed.

(** ** Computations that neither exit nor print the usage text *)

Lemma benign_ret {A} (a : A) : benign (ret a).
Proof.
  intros w. split; [discriminate|]. exists []. cbn.
  rewrite app_nil_r. auto.
Qed.

Lemma benign_raise {A} (e : exn) :
  isinstance_Exception e = true -> benign (@raise A e).
Proof.
  intros He w. split.
  - intros c H. cbn in H. injection H as ->. discriminate.
  - exists []. cbn. rewrite app_nil_r. auto.
Qed.

Lemma benign_lift {A} (r : result A) :
  (forall c, r <> Raise (SystemExit c)) -> benign (lift r).
Proof.
  intros Hr w. split; [exact Hr|]. exists []. cbn.
  rewrite app_nil_r. auto.
Qed.

Lemma benign_emit (e : event) : not_usage e -> benign (emit e).
Proof.
  intros He w. split; [discriminate|]. exists [e]. cbn. auto.
Qed.

Lemma benign_readline : benign readline.
Proof.
  intros w. unfold readline. destruct (child_stdout w); cbn;
    (split; [discriminate|]); exists []; rewrite app_nil_r; auto.
Qed.

Lemma benign_bind {A B} (m : M A) (f : A -> M B) :
  benign m -> (forall a, benign (f a)) -> benign (bind m f).
Proof.
  intros Hm Hf w. unfold bind.
  destruct (Hm w) as (Hr & evs & Ht & Hev).
  destruct (m w) as [[a|e] w'] eqn:E; cbn [fst snd] in *.
  - destruct (Hf a w') as (Hr' & evs' & Ht' & Hev').
    split; [exact Hr'|]. exists (evs ++ evs')%list.
    rewrite Ht', Ht, app_assoc. split; [reflexivity|].
    apply Forall_app; auto.
  - split; [|exists evs; auto].
    intros c H. injection H as ->. apply (Hr c). reflexivity.
Qed.

Lemma datetime_from_timet_and_us_no_exit (t us c : Z) :
  datetime_from_timet_and_us t us <> Raise (SystemExit c).
Proof.
  unfold datetime_from_timet_and_us.
  destruct (_ || _); [discriminate|].
  destruct (_ord2ymd _) as [[y m] d].
  destruct (_ || _); [discriminate|].
  destruct (_ || _); discriminate.
Qed.

Lemma time_t_of_double_cases (n : Z) :
  time_t_of_double n = Raise OverflowError
  \/ exists t, time_t_of_double n = Ok t.
Proof.
  unfold time_t_of_double. destruct (_ || _); [left; reflexivity|].
  right. destruct (n =? 2 ^ 63); eexists; reflexivity.
Qed.

Lemma from_double_no_exit (n us c : Z) :
  rbind (time_t_of_double n) (fun t => datetime_from_timet_and_us t us)
  <> Raise (SystemExit c).
Proof.
  destruct (time_t_of_double_cases n) as [-> | [t ->]]; cbn [rbind].
  - discriminate.
  - apply datetime_from_timet_and_us_no_exit.
Qed.

Lemma ticks_to_datetime_no_exit (t c : Z) :
  ticks_to_datetime t <> Raise (SystemExit c).
Proof.
  unfold ticks_to_datetime, int_truediv_float, float_of_int.
  destruct (binary_normalize prec emax (t - _EPOCH) 0 false) as [s|s| |s m e];
    cbn [rbind]; try discriminate;
    match goal with
    | |- utcfromtimestamp (TsFloat ?f) <> _ =>
        generalize f; intros f'; unfold utcfromtimestamp;
        destruct f'; try discriminate;
        destruct (modf _) as [ip fr];
        repeat match goal with
               | |- context [if ?b then _ else _] => destruct b
               end;
        apply from_double_no_exit
    end.
Qed.

Lemma print_not_usage_a (s : string) : not_usage (Print ("access_time:       " ++ s)).
Proof. split; discriminate. Qed.

Lemma print_not_usage_m (s : string) : not_usage (Print ("modification_time: " ++ s)).
Proof. split; discriminate. Qed.

Lemma print_not_usage_b (s : string) : not_usage (Print ("birth_time:        " ++ s)).
Proof. split; discriminate. Qed.

Lemma benign_get (E : env) (type path : string) :
  benign (_get_some_time E type path).
Proof.
  unfold _get_some_time.
  apply benign_bind; [apply benign_emit; split; discriminate|intros _].
  apply benign_bind; [apply benign_readline|intros line].
  cbv zeta. destruct (_ || _); [apply benign_raise; reflexivity|].
  destruct (py_int E _); [apply benign_ret|apply benign_raise; reflexivity].
Qed.

Lemma benign_show_times (E : env) (path : string) :
  benign (show_times E path).
Proof.
  unfold show_times, get_access_time, get_modification_time,
    get_creation_time.
  repeat (apply benign_bind; [apply benign_get|intros ?]).
  apply benign_bind; [apply benign_lift, ticks_to_datetime_no_exit|intros ?].
  apply benign_bind; [apply benign_emit, print_not_usage_a|intros _].
  apply benign_bind; [apply benign_lift, ticks_to_datetime_no_exit|intros ?].
  apply benign_bind; [apply benign_emit, print_not_usage_m|intros _].
  apply benign_bind; [apply benign_lift, ticks_to_datetime_no_exit|intros ?].
  apply benign_emit, print_not_usage_b.
Qed.

Lemma main_mutate_no_argument (E : env) (path : string)
      (commands : list ascii) (w : world) (a b c : string) :
  argv E = [a; b; c] ->
  main_mutate E path commands w = (Raise IndexError, w).
Proof.
  intros Ha. unfold main_mutate. apply bind_raise.
  rewrite Ha. reflexivity.
Qed.

Lemma print_with_mutation_not_alone (commands : list ascii) :
  char_in "p" commands = true ->
  existsb (fun c => char_in c mutating_commands) commands = true ->
  (List.length commands =? 1)%nat = false.
Proof.
  intros Hp Hm. destruct commands as [|a [|b t]]; try reflexivity.
  unfold char_in in Hp. cbn [existsb] in Hp, Hm.
  rewrite orb_false_r in Hp, Hm.
  apply Ascii.eqb_eq in Hp. subst a. vm_compute in Hm. discriminate.
Qed.

Lemma not_usage_in (evs : list event) (e : event) :
  Forall not_usage evs -> In e evs ->
  e <> Print usage_line1 /\ e <> Print usage_line2.
Proof. intros H Hin. rewrite Forall_forall in H. exact (H e Hin). Qed.

(** C10.  With a path that names a file, a flag token made of valid
    letters of which one is [m], [a], [c] or [b], and no fourth
    argument: the run ends with an exception that is not the [sys.exit]
    of [usage], and the usage text is never printed.  When the accessor
    starts and exits with status 0 and the print block (if [p] is among
    the flags) goes through, that exception is the [IndexError] of
    [argv[3]]. *)
Theorem missing_date_argument_uncaught (E : env) (answers : list string)
        (prog path flags : string) :
  argv E = [prog; path; flags] ->
  isfile E path = true ->
  startswith_dash flags = true ->
  forallb (fun c => char_in c valid_commands)
          (tl (list_ascii_of_string flags)) = true ->
  existsb (fun c => char_in c mutating_commands)
          (tl (list_ascii_of_string flags)) = true ->
  (exists e, fst (run E answers) = Raise e /\ isinstance_Exception e = true)
  /\ ~ In (Print usage_line1) (trace (snd (run E answers)))
  /\ ~ In (Print usage_line2) (trace (snd (run E answers)))
  /\ (executable_found E = true -> returncode E = 0 ->
      (char_in "p" (tl (list_ascii_of_string flags)) = true ->
       exists w', show_times E path
                    (mkWorld [Popen _EXECUTABLE_PATH; Print debug_line] answers)
                  = (Ok tt, w')) ->
      fst (run E answers) = Raise IndexError).
Proof.
  intros Ha Hf Hd Hv Hm. unfold run, main.
  destruct (executable_found E) eqn:Hx.
  2:{ rewrite (with_accessor_not_found E _ _ Hx). cbn.
      repeat split; try tauto; try discriminate.
      exists OSError. auto. }
  rewrite (with_accessor_run E _ _ Hx). cbn [trace child_stdout app].
  rewrite (main_body_checked E _ prog path flags [] Ha Hf Hd).
  cbv zeta. cbn [trace child_stdout app].
  set (commands := tl (list_ascii_of_string flags)) in *.
  erewrite bind_ok; [|apply check_commands_ok; exact Hv].
  set (w0 := mkWorld [Popen _EXECUTABLE_PATH; Print debug_line] answers).
  assert (Hbody :
    exists e evs w1,
      (if char_in "p" commands then
         (show_times E path ;;
          if (List.length commands =? 1)%nat then ret tt
          else main_mutate E path commands)%py
       else main_mutate E path commands) w0 = (Raise e, w1)
      /\ isinstance_Exception e = true
      /\ trace w1 = (trace w0 ++ evs)%list /\ Forall not_usage evs
      /\ ((char_in "p" commands = true ->
           exists w', show_times E path w0 = (Ok tt, w')) ->
          e = IndexError)).
  { destruct (char_in "p" commands) eqn:Hp.
    - rewrite (print_with_mutation_not_alone commands Hp Hm).
      destruct (benign_show_times E path w0) as (Hr & evs & Ht & Hev).
      unfold bind. destruct (show_times E path w0) as [[[]|e] w1] eqn:Es;
        cbn [fst snd] in *.
      + rewrite (main_mutate_no_argument E path commands w1 _ _ _ Ha).
        exists IndexError, evs, w1. auto.
      + exists e, evs, w1. repeat split; auto.
        * destruct e; try reflexivity. elim (Hr code). reflexivity.
        * intros H. destruct (H eq_refl) as (w' & Hw'). discriminate.
    - rewrite (main_mutate_no_argument E path commands w0 _ _ _ Ha).
      exists IndexError, [], w0. rewrite app_nil_r. auto. }
  destruct Hbody as (e & evs & w1 & Eb & He & Ht & Hev & Hidx).
  rewrite Eb. cbn [trace child_stdout].
  assert (Hnu : forall u, (u = Print usage_line1 \/ u = Print usage_line2) ->
                          ~ In u (trace w1 ++ [Close])%list).
  { intros u Hu Hin. rewrite Ht in Hin. cbn [trace w0 app] in Hin.
    destruct Hin as [H|[H|Hin]].
    - destruct Hu; subst u; discriminate.
    - destruct Hu; subst u; discriminate.
    - apply in_app_or in Hin. destruct Hin as [Hin|[H|[]]].
      + destruct (not_usage_in evs u Hev Hin). tauto.
      + destruct Hu; subst u; discriminate. }
  destruct (returncode E =? 0) eqn:Hrc; cbn [fst snd trace].
  - split; [exists e; auto|]. repeat split; auto.
    intros _ _ H. rewrite (Hidx H). reflexivity.
  - split; [eexists; split; reflexivity|]. repeat split; auto.
    intros _ H0. apply Z.eqb_neq in Hrc. contradiction.
Qed.

Lemma missing_date_argument_uncaught_witness :
  (exists e, fst (run (test_env argv_ma_no_date) []) = Raise e
             /\ isinstance_Exception e = true)
  /\ ~ In (Print usage_line1) (trace (snd (run (test_env argv_ma_no_date) [])))
  /\ ~ In (Print usage_line2) (trace (snd (run (test_env argv_ma_no_date) [])))
  /\ (executable_found (test_env argv_ma_no_date) = true ->
      returncode (test_env argv_ma_no_date) = 0 ->
      (char_in "p" (tl (list_ascii_of_string "-ma")) = true ->
       exists w', show_times (test_env argv_ma_no_date) "test.txt"
                    (mkWorld [Popen _EXECUTABLE_PATH; Print debug_line] [])
                  = (Ok tt, w')) ->
      fst (run (test_env argv_ma_no_date) []) = Raise IndexError).
Proof.
  apply (missing_date_argument_uncaught (test_env argv_ma_no_date) []
           "./timestomp.py" "test.txt" "-ma"); reflexivity.
Defined.

Example missing_date_argument_run :
  run (test_env argv_ma_no_date) []
  = (Raise IndexError,
     mkWorld [Popen _EXECUTABLE_PATH; Print debug_line; Close] []).
Proof. reflexivity. Qed.

(** ** The date argument *)

Lemma main_body_no_print (E : env) (w : world)
      (prog path flags : string) (rest : list string) :
  argv E = prog :: path :: flags :: rest ->
  isfile E path = true ->
  startswith_dash flags = true ->
  forallb (fun c => char_in c valid_commands)
          (tl (list_ascii_of_string flags)) = true ->
  char_in "p" (tl (list_ascii_of_string flags)) = false ->
  main_body E w
  = main_mutate E path (tl (list_ascii_of_string flags))
      (mkWorld (trace w ++ [Print debug_line])%list (child_stdout w)).
Proof.
  intros Ha Hf Hd Hv Hp.
  rewrite (main_body_checked E w prog path flags rest Ha Hf Hd).
  cbv zeta. erewrite bind_ok; [|apply check_commands_ok; exact Hv].
  rewrite Hp. reflexivity.
Qed.

(** C4 (what the code does).  When the date argument does not parse,
    [strptime] raises and nothing catches it: for flags without [p], an
    accessor that starts and exits with status 0, the run ends with that
    [ValueError] after the debug line; the usage text is not printed. *)
Theorem unparseable_date_uncaught (E : env) (answers : list string)
        (prog path flags arg : string) (rest : list string) :
  argv E = prog :: path :: flags :: arg :: rest ->
  isfile E path = true ->
  startswith_dash flags = true ->
  forallb (fun c => char_in c valid_commands)
          (tl (list_ascii_of_string flags)) = true ->
  char_in "p" (tl (list_ascii_of_string flags)) = false ->
  strptime E arg = None ->
  executable_found E = true ->
  returncode E = 0 ->
  run E answers
  = (Raise (ValueError "time data does not match format"),
     mkWorld [Popen _EXECUTABLE_PATH; Print debug_line; Close] answers).
Proof.
  intros Ha Hf Hd Hv Hp Hs Hx Hrc. unfold run, main.
  rewrite (with_accessor_run E _ _ Hx). cbn [trace child_stdout app].
  rewrite (main_body_no_print E _ prog path flags _ Ha Hf Hd Hv Hp).
  cbn [trace child_stdout app]. unfold main_mutate.
  rewrite Ha. cbn [index nth_error]. unfold bind at 1. cbn [ret].
  rewrite Hs. unfold bind at 1. cbn [raise trace child_stdout app].
  rewrite Hrc. reflexivity.
Qed.

Lemma unparseable_date_uncaught_witness :
  run (test_env argv_m_bad_date) []
  = (Raise (ValueError "time data does not match format"),
     mkWorld [Popen _EXECUTABLE_PATH; Print debug_line; Close] []).
Proof.
  apply (unparseable_date_uncaught (test_env argv_m_bad_date) []
           "./timestomp.py" "test.txt" "-m" "yesterday" []); reflexivity.
Defined.

(** The date of the usage text's own example does not parse: [%z] wants
    an offset or [Z], not a zone name. *)
Example usage_example_date_rejected :
  strptime_ascii "2000/02/28 13:03:30 UTC" = None
  /\ run (test_env argv_ma_spec_example) [ok_line; ok_line]
     = (Raise (ValueError "time data does not match format"),
        mkWorld [Popen _EXECUTABLE_PATH; Print debug_line; Close]
                [ok_line; ok_line]).
Proof. split; reflexivity. Qed.

(** Typed without quotes, as the usage text shows it, the date reaches
    the program as three arguments and [argv[3]] is the day alone. *)
Example unquoted_date_rejected :
  run (test_env argv_ma_unquoted) [ok_line; ok_line]
  = (Raise (ValueError "time data does not match format"),
     mkWorld [Popen _EXECUTABLE_PATH; Print debug_line; Close]
             [ok_line; ok_line]).
Proof. reflexivity. Qed.

(** ** The Set requests of the driver *)

Lemma ma_run (E : env) (prog path arg : string) (rest : list string)
      (date : datetime) (l1 l2 : string) (more : list string) :
  argv E = prog :: path :: "-ma" :: arg :: rest ->
  isfile E path = true ->
  strptime E arg = Some date ->
  executable_found E = true ->
  returncode E = 0 ->
  rstrip_crlf l1 = "ok" ->
  rstrip_crlf l2 = "ok" ->
  run E (l1 :: l2 :: more)
  = (Ok tt,
     mkWorld [Popen _EXECUTABLE_PATH;
              Print debug_line;
              Write (set_request E "Modification" path (PyDatetime date));
              Write (set_request E "Access" path (PyDatetime date));
              Close]
             more).
Proof.
  intros Ha Hf Hs Hx Hrc H1 H2. unfold run, main.
  rewrite (with_accessor_run E _ _ Hx). cbn [trace child_stdout app].
  rewrite (main_body_no_print E _ prog path "-ma" _ Ha Hf eq_refl eq_refl eq_refl).
  cbn [trace child_stdout app list_ascii_of_string tl]. unfold main_mutate.
  rewrite Ha. cbn [index nth_error]. unfold bind at 1. cbn [ret].
  rewrite Hs. unfold bind at 1. cbn [ret].
  unfold bind at 1. cbn [datetime_bool negb when ret].
  cbn [for_each]. unfold apply_command.
  change (Ascii.eqb "m" "m") with true.
  change (Ascii.eqb "a" "m") with false.
  change (Ascii.eqb "a" "a") with true. cbv iota.
  unfold set_modification_time, set_access_time.
  unfold bind at 1. unfold bind at 1.
  erewrite set_ok; [|reflexivity|exact H1].
  unfold bind at 1.
  erewrite set_ok; [|reflexivity|exact H2].
  cbn [ret trace child_stdout app]. rewrite Hrc. reflexivity.
Qed.

(** C1 (what the code does).  On the command line
    [test.txt -ma "2000/02/28 13:03:30 +0000"] with an accessor that
    answers [ok] twice, the driver sends exactly two Set requests,
    modification then access, and returns normally; but the third field
    of each request is the text of the parsed [datetime], not a tick
    value: [main] passes [date] itself to the Set methods and never calls
    [datetime_to_ticks]. *)
Theorem ma_run_writes_datetime_text :
  run (test_env argv_ma) [ok_line; ok_line]
  = (Ok tt,
     mkWorld [Popen "WindowsTimestampAccessor.exe";
              Print "DEBUG: made it here";
              Write ("SetModificationTime" ++ tab ++ "/tmp/test.txt" ++ tab
                     ++ "2000-02-28 13:03:30+00:00" ++ newline);
              Write ("SetAccessTime" ++ tab ++ "/tmp/test.txt" ++ tab
                     ++ "2000-02-28 13:03:30+00:00" ++ newline);
              Close]
             [])
  /\ filter is_write (trace (snd (run (test_env argv_ma) [ok_line; ok_line])))
     <> [Write (set_request (test_env argv_ma) "Modification" "test.txt"
                            (PyInt ticks_2000_02_28));
         Write (set_request (test_env argv_ma) "Access" "test.txt"
                            (PyInt ticks_2000_02_28))].
Proof.
  split; [reflexivity|]. vm_compute. discriminate.
Qed.

(** The request the specification describes for that instant. *)
Example set_request_with_ticks :
  set_request (test_env argv_ma) "Modification" "test.txt"
              (PyInt ticks_2000_02_28)
  = "SetModificationTime" ++ tab ++ "/tmp/test.txt" ++ tab
      ++ "630873398100000000" ++ newline
  /\ datetime_to_ticks ts_2000_02_28 = Ok ticks_2000_02_28.
Proof. split; reflexivity. Qed.

(** A date that [strptime_ascii] returns always carries a [tzinfo], so
    [datetime_to_ticks] would refuse it. *)
Lemma strptime_ascii_aware (s : string) (d : datetime) :
  strptime_ascii s = Some d ->
  datetime_to_ticks d = Raise (ValueError "Naive datetime expected").
Proof.
  unfold strptime_ascii. intros H.
  destruct (re_format s) as [|[[[[[[[y m] dd] hh] mi] ss] z] [|c r]] t];
    try discriminate.
  destruct (z_offset z) as [off|]; try discriminate.
  destruct (_ && _); try discriminate.
  injection H as <-. reflexivity.
Qed.

(** ** Unknown flag letters *)

(** The claim that an unknown flag letter leads to the usage text and a
    non-zero exit without the child process being launched or written to
    fails at [test.txt -x]: the usage text is printed and the status is 1,
    but the accessor has been launched, because [main] opens the channel
    before it looks at its arguments. *)
Lemma unknown_flag_launches_child :
  ~ (In (Print usage_line1) (trace (snd (run (test_env argv_x) [])))
     /\ exit_status (fst (run (test_env argv_x) [])) <> 0
     /\ existsb contacts_child (trace (snd (run (test_env argv_x) [])))
        = false).
Proof. vm_compute. intros (_ & _ & H). discriminate. Qed.

Example unknown_flag_run :
  run (test_env argv_x) []
  = (Raise (SystemExit 1),
     mkWorld [Popen _EXECUTABLE_PATH; Print debug_line;
              Print usage_line1; Print usage_line2; Close] []).
Proof. reflexivity. Qed.

Lemma main_body_usage_early (E : env) (w : world)
      (prog path flags : string) (rest : list string) :
  argv E = prog :: path :: flags :: rest ->
  isfile E path && startswith_dash flags = false ->
  main_body E w
  = (Raise (SystemExit 1),
     mkWorld (trace w ++ [Print usage_line1; Print usage_line2])%list
             (child_stdout w)).
Proof.
  intros Ha Hc. unfold main_body. rewrite Ha.
  cbn [List.length Nat.ltb Nat.leb when index nth_error].
  unfold bind at 1. cbn [ret]. unfold bind at 1. cbn [ret].
  destruct (isfile E path) eqn:Hf; cbn [negb when].
  - unfold bind at 1. cbn [ret]. unfold bind at 1. cbn [ret].
    cbn [andb] in Hc. rewrite Hc. cbn [negb when].
    unfold bind at 1. rewrite usage_run. reflexivity.
  - unfold bind at 1. rewrite usage_run. reflexivity.
Qed.

(** C3, amended.  When the flag token has a letter outside
    [p], [m], [a], [c], [b] and the accessor can be started, the program
    launches the accessor, prints the usage text (after the debug line
    when the path names a file and the token starts with a dash), closes
    the channel and ends with exit status 1; it writes no request to the
    accessor and reads none of its answers. *)
Theorem unknown_flag_usage (E : env) (answers : list string)
        (prog path flags : string) (rest : list string) (c : ascii) :
  argv E = prog :: path :: flags :: rest ->
  In c (tl (list_ascii_of_string flags)) ->
  char_in c valid_commands = false ->
  executable_found E = true ->
  exit_status (fst (run E answers)) = 1
  /\ (exists pre,
        (pre = [] \/ pre = [Print debug_line])
        /\ trace (snd (run E answers))
           = (Popen _EXECUTABLE_PATH :: pre
              ++ [Print usage_line1; Print usage_line2; Close])%list)
  /\ existsb is_write (trace (snd (run E answers))) = false
  /\ child_stdout (snd (run E answers)) = answers.
Proof.
  intros Ha Hin Hc Hx. unfold run, main.
  rewrite (with_accessor_run E _ _ Hx). cbn [trace child_stdout app].
  assert (Hb : exists pre,
             (pre = [] \/ pre = [Print debug_line])
             /\ main_body E (mkWorld [Popen _EXECUTABLE_PATH] answers)
                = (Raise (SystemExit 1),
                   mkWorld (Popen _EXECUTABLE_PATH :: pre
                            ++ [Print usage_line1; Print usage_line2])%list
                           answers)).
  { destruct (isfile E path && startswith_dash flags) eqn:Hfd.
    - apply andb_true_iff in Hfd. destruct Hfd as [Hf Hd].
      exists [Print debug_line]. split; [auto|].
      rewrite (main_body_checked E _ prog path flags rest Ha Hf Hd).
      cbv zeta. cbn [trace child_stdout app].
      apply bind_raise. rewrite (check_commands_bad _ _ c Hin Hc).
      reflexivity.
    - exists []. split; [auto|].
      rewrite (main_body_usage_early E _ prog path flags rest Ha Hfd).
      reflexivity. }
  destruct Hb as (pre & Hpre & Hb). rewrite Hb.
  cbn [trace child_stdout].
  assert (Hex : exit_status
                  (fst (if returncode E =? 0
                        then (@Raise unit (SystemExit 1),
                              mkWorld ((Popen _EXECUTABLE_PATH :: pre
                                        ++ [Print usage_line1;
                                            Print usage_line2])
                                       ++ [Close])%list answers)
                        else (Raise (CalledProcessError (returncode E)),
                              mkWorld ((Popen _EXECUTABLE_PATH :: pre
                                        ++ [Print usage_line1;
                                            Print usage_line2])
                                       ++ [Close])%list answers))) = 1).
  { destruct (returncode E =? 0); reflexivity. }
  split; [exact Hex|].
  destruct (returncode E =? 0); cbn [fst snd trace child_stdout];
    (split; [exists pre; split; [exact Hpre|];
             cbn [app]; rewrite <- app_assoc; reflexivity|]);
    (split; [|reflexivity]);
    destruct Hpre as [-> | ->]; reflexivity.
Qed.

Lemma unknown_flag_usage_witness :
  exit_status (fst (run (test_env argv_x) [])) = 1
  /\ (exists pre,
        (pre = [] \/ pre = [Print debug_line])
        /\ trace (snd (run (test_env argv_x) []))
           = (Popen _EXECUTABLE_PATH :: pre
              ++ [Print usage_line1; Print usage_line2; Close])%list)
  /\ existsb is_write (trace (snd (run (test_env argv_x) []))) = false
  /\ child_stdout (snd (run (test_env argv_x) [])) = [].
Proof.
  apply (unknown_flag_usage (test_env argv_x) [] "./timestomp.py" "test.txt"
           "-x" [] "x"%char); try reflexivity.
  left. reflexivity.
Defined.

(* ===================================================================== *)
(** * The tick/datetime round trip: where it fails *)
(* ===================================================================== *)

(** The round trip is not the identity on every multiple of 10.  At
    [t = 657384765018963980] (2084-03-02 23:55:01.896398) the decoder's
    float arithmetic yields the microsecond 896399, and the encoder
    returns [t + 10]. *)
Lemma round_trip_fails_2084 :
  657384765018963980 mod 10 = 0
  /\ ticks_to_datetime 657384765018963980
     = Ok (mkDatetime 2084 3 2 23 55 1 896399 None)
  /\ rbind (ticks_to_datetime 657384765018963980) datetime_to_ticks
     <> Ok 657384765018963980.
Proof.
  split; [reflexivity|]. split; [vm_compute; reflexivity|].
  vm_compute. discriminate.
Qed.

(** Nor is it on the side of the past, which bounds the window of C2
    from below.  At [t = 585327170981036020] (1855-10-31
    00:04:58.103602) the decoder's float arithmetic yields the
    microsecond 103601, and the encoder returns [t - 10]. *)
Lemma round_trip_fails_1855 :
  585327170981036020 mod 10 = 0
  /\ ticks_to_datetime 585327170981036020
     = Ok (mkDatetime 1855 10 31 0 4 58 103601 None)
  /\ rbind (ticks_to_datetime 585327170981036020) datetime_to_ticks
     <> Ok 585327170981036020.
Proof.
  split; [reflexivity|]. split; [vm_compute; reflexivity|].
  vm_compute. discriminate.
Qed.

(** Far from the epoch the decoder raises and there is no round trip at
    all. *)
Example round_trip_out_of_range :
  ticks_to_datetime (10 ^ 30) = Raise OverflowError
  /\ ticks_to_datetime 3155378976000000000
     = Raise (ValueError "year is out of range").
Proof. split; vm_compute; reflexivity. Qed.

(** At [2^63] seconds the range check of the float conversion lets the
    value through and [gmtime] refuses it. *)
Example round_trip_time_t_edge :
  ticks_to_datetime (2 ^ 63 * 10000000 + _EPOCH) = Raise OSError.
Proof. vm_compute. reflexivity. Qed.

(* ===================================================================== *)
(** * Binary64 arithmetic of the decoder *)
(* ===================================================================== *)

(** ** Binary digits *)

Lemma digits2_pos_bounds (p : positive) :
  2 ^ (Zpos (digits2_pos p) - 1) <= Zpos p < 2 ^ Zpos (digits2_pos p).
Proof.
  induction p as [p IH|p IH|]; cbn [digits2_pos].
  - rewrite Pos2Z.inj_succ, (Pos2Z.inj_xI p).
    replace (Z.succ (Zpos (digits2_pos p)) - 1)
      with (Z.succ (Zpos (digits2_pos p) - 1)) by lia.
    rewrite !Z.pow_succ_r by lia.
    generalize dependent (2 ^ (Zpos (digits2_pos p) - 1)).
    generalize dependent (2 ^ Zpos (digits2_pos p)). intros; lia.
  - rewrite Pos2Z.inj_succ, (Pos2Z.inj_xO p).
    replace (Z.succ (Zpos (digits2_pos p)) - 1)
      with (Z.succ (Zpos (digits2_pos p) - 1)) by lia.
    rewrite !Z.pow_succ_r by lia.
    generalize dependent (2 ^ (Zpos (digits2_pos p) - 1)).
    generalize dependent (2 ^ Zpos (digits2_pos p)). intros; lia.
  - cbn. lia.
Qed.

Lemma Zdigits2_bounds (m : Z) :
  0 < m -> 2 ^ (Zdigits2 m - 1) <= m < 2 ^ Zdigits2 m.
Proof.
  destruct m as [|p|p]; try lia. intros _. apply digits2_pos_bounds.
Qed.

Lemma Zdigits2_pos (m : Z) : 0 < m -> 0 < Zdigits2 m.
Proof. destruct m; cbn; lia. Qed.

Lemma Zdigits2_unique (m d : Z) :
  2 ^ (d - 1) <= m < 2 ^ d -> 0 < d -> Zdigits2 m = d.
Proof.
  intros [Hlo Hhi] Hd.
  assert (Hm : 0 < m).
  { pose proof (Z.pow_pos_nonneg 2 (d - 1) ltac:(lia) ltac:(lia)). lia. }
  destruct (Zdigits2_bounds m Hm) as [Hlo' Hhi'].
  pose proof (Zdigits2_pos m Hm) as Hp.
  destruct (Z.lt_trichotomy (Zdigits2 m) d) as [H|[H|H]]; [|exact H|].
  - exfalso.
    assert (2 ^ Zdigits2 m <= 2 ^ (d - 1)) by (apply Z.pow_le_mono_r; lia).
    lia.
  - exfalso.
    assert (2 ^ d <= 2 ^ (Zdigits2 m - 1)) by (apply Z.pow_le_mono_r; lia).
    lia.
Qed.

(** ** Shifting with a round bit and a sticky bit *)

Lemma shr_1_rep (mrs : shr_record) (N D : Z) :
  rec_rep mrs N D -> rec_rep (shr_1 mrs) N (2 * D).
Proof.
  unfold rec_rep. destruct mrs as [m r s]. cbn [shr_m shr_r shr_s].
  intros (HD & Hm & H).
  destruct m as [|[p|p|]|p]; try lia;
    destruct r, s; cbn [shr_1 orb shr_m shr_r shr_s];
    rewrite ?(Pos2Z.inj_xI p), ?(Pos2Z.inj_xO p) in *; cbv zeta in *;
    (split; [lia|]); (split; [lia|]); lia.
Qed.

Lemma iter_pos_shr_1_rep (p : positive) (mrs : shr_record) (N D : Z) :
  rec_rep mrs N D ->
  rec_rep (iter_pos shr_1 p mrs) N (2 ^ Zpos p * D).
Proof.
  revert mrs D. induction p as [p IH|p IH|]; intros mrs D H; cbn [iter_pos].
  - apply shr_1_rep in H. apply IH in H. apply IH in H.
    replace (2 ^ Zpos p~1 * D) with (2 ^ Zpos p * (2 ^ Zpos p * (2 * D))).
    + exact H.
    + rewrite (Pos2Z.inj_xI p).
      replace (2 * Zpos p + 1) with (Zpos p + Zpos p + 1) by lia.
      rewrite !Z.pow_add_r by lia. change (2 ^ 1) with 2. ring.
  - apply IH in H. apply IH in H.
    replace (2 ^ Zpos p~0 * D) with (2 ^ Zpos p * (2 ^ Zpos p * D)).
    + exact H.
    + rewrite (Pos2Z.inj_xO p).
      replace (2 * Zpos p) with (Zpos p + Zpos p) by lia.
      rewrite !Z.pow_add_r by lia. ring.
  - apply shr_1_rep in H. exact H.
Qed.

Lemma shr_rep (mrs : shr_record) (e n N D : Z) :
  0 <= n -> rec_rep mrs N D ->
  shr mrs e n = (fst (shr mrs e n), e + n)
  /\ rec_rep (fst (shr mrs e n)) N (2 ^ n * D).
Proof.
  intros Hn H. destruct n as [|p|p]; try lia; cbn [shr fst].
  - rewrite Z.add_0_r. split; [reflexivity|].
    change (2 ^ 0) with 1. rewrite Z.mul_1_l. exact H.
  - split; [reflexivity|]. apply iter_pos_shr_1_rep, H.
Qed.

Lemma rec_rep_of_loc_exact (m : Z) :
  0 <= m -> rec_rep (shr_record_of_loc m loc_Exact) m 1.
Proof. intros H. unfold rec_rep. cbn. lia. Qed.

(** Rounding to nearest, ties to even, moves by at most one half. *)
Lemma round_nearest_even_rep (mrs : shr_record) (N D : Z) :
  rec_rep mrs N D ->
  let m' := round_nearest_even (shr_m mrs) (loc_of_shr_record mrs) in
  shr_m mrs <= m' <= shr_m mrs + 1
  /\ 2 * Z.abs (m' * D - N) <= D.
Proof.
  unfold rec_rep. destruct mrs as [m r s]. cbn [shr_m shr_r shr_s].
  intros (HD & Hm & H).
  destruct r, s; cbn [loc_of_shr_record round_nearest_even]; cbv zeta in *.
  - split; lia.
  - destruct (Z.even m); split; lia.
  - split; lia.
  - split; lia.
Qed.

(** ** The rounding step *)

Lemma rec_rep_bounds (mrs : shr_record) (N D : Z) :
  rec_rep mrs N D ->
  0 < D /\ 0 <= shr_m mrs /\ shr_m mrs * D <= N < (shr_m mrs + 1) * D.
Proof.
  unfold rec_rep. destruct mrs as [m r s]. cbn [shr_m shr_r shr_s].
  intros (HD & Hm & H). destruct r, s; cbv zeta in H; repeat split; lia.
Qed.

Lemma fexp_normal (e : Z) :
  emin prec emax <= e - prec -> fexp prec emax e = e - prec.
Proof. intros H. unfold fexp. lia. Qed.

Lemma emin_value : emin prec emax = -1074.
Proof. reflexivity. Qed.

(** The rounding step of every operation, in the normal range: a
    mantissa [mx] of at least 53 digits, at exponent [ex], with the
    position of the exact value [N/D * 2^ex] recorded in [lx], is rounded
    to a 53-digit mantissa, and the result is within half a unit in the
    last place of the exact value. *)
Lemma binary_round_aux_spec (sx : bool) (mx ex : Z) (lx : location)
      (N D : Z) :
  0 < mx ->
  rec_rep (shr_record_of_loc mx lx) N D ->
  53 <= Zdigits2 mx ->
  -1074 <= Zdigits2 mx + ex - 53 ->
  Zdigits2 mx + ex <= 1023 ->
  exists m e,
    binary_round_aux prec emax sx mx ex lx = S754_finite sx m e
    /\ 2 ^ 52 <= Zpos m < 2 ^ 53
    /\ (e = Zdigits2 mx + ex - 53 \/ e = Zdigits2 mx + ex - 52)
    /\ 2 * Z.abs (Zpos m * 2 ^ (e - ex) * D - N)
       <= 2 ^ (Zdigits2 mx - 53) * D.
Proof.
  intros Hmx Hrep Hd Hlo Hhi.
  set (d := Zdigits2 mx) in *.
  unfold binary_round_aux, shr_fexp. fold d.
  rewrite (fexp_normal (d + ex)) by (rewrite emin_value; unfold prec; lia).
  replace (d + ex - prec - ex) with (d - 53) by (unfold prec; lia).
  destruct (shr_rep (shr_record_of_loc mx lx) ex (d - 53) N D
                    ltac:(lia) Hrep) as [Es Hrep1].
  rewrite Es. cbv beta iota.
  set (mrs1 := fst (shr (shr_record_of_loc mx lx) ex (d - 53))) in *.
  set (P := 2 ^ (d - 53)) in *.
  assert (HP : 0 < P) by (apply Z.pow_pos_nonneg; lia).
  destruct (rec_rep_bounds _ _ _ Hrep) as (HD & _ & Hb0).
  assert (Hsm : shr_m (shr_record_of_loc mx lx) = mx)
    by (destruct lx as [|[]]; reflexivity).
  rewrite Hsm in Hb0.
  destruct (rec_rep_bounds _ _ _ Hrep1) as (HD1 & Hm1 & Hb1).
  destruct (Zdigits2_bounds mx Hmx) as [Hdlo Hdhi]. fold d in Hdlo, Hdhi.
  assert (E1 : 2 ^ d = 2 ^ 53 * P).
  { unfold P. rewrite <- Z.pow_add_r by lia. f_equal. lia. }
  assert (E2 : 2 ^ (d - 1) = 2 ^ 52 * P).
  { unfold P. rewrite <- Z.pow_add_r by lia. f_equal. lia. }
  rewrite E1 in Hdhi. rewrite E2 in Hdlo.
  set (m1 := shr_m mrs1) in *.
  assert (Hm1b : 2 ^ 52 <= m1 < 2 ^ 53).
  { change (2 ^ 52) with 4503599627370496 in *.
    change (2 ^ 53) with 9007199254740992 in *. split; nia. }
  destruct (round_nearest_even_rep mrs1 N (P * D) Hrep1) as [Hm2 Herr].
  fold m1 in Hm2, Herr.
  set (m2 := round_nearest_even m1 (loc_of_shr_record mrs1)) in *.
  destruct (Z.eq_dec m2 (2 ^ 53)) as [Heq|Hne].
  - (* the rounding carried into a 54th digit *)
    rewrite Heq.
    replace (fexp prec emax (Zdigits2 (2 ^ 53) + (ex + (d - 53))) - (ex + (d - 53)))
      with 1.
    2:{ change (Zdigits2 (2 ^ 53)) with 54.
        rewrite fexp_normal by (rewrite emin_value; unfold prec; lia).
        unfold prec. lia. }
    cbn [shr_record_of_loc shr iter_pos]. change (2 ^ 53) with 9007199254740992.
    cbn [shr_1 shr_m].
    replace (ex + (d - 53) + 1 <=? emax - prec) with true
      by (symmetry; apply Z.leb_le; unfold emax, prec; lia).
    eexists _, _. split; [reflexivity|]. split; [cbn; lia|].
    split; [right; lia|].
    replace (ex + (d - 53) + 1 - ex) with (d - 53 + 1) by lia.
    rewrite Z.pow_add_r by lia. fold P. change (2 ^ 1) with 2.
    rewrite Heq in Herr. change (2 ^ 53) with 9007199254740992 in Herr.
    replace (4503599627370496 * (P * 2) * D - N)
      with (9007199254740992 * (P * D) - N) by ring.
    lia.
  - assert (Hm2b : 2 ^ 52 <= m2 < 2 ^ 53) by lia.
    assert (Hdig : Zdigits2 m2 = 53).
    { apply Zdigits2_unique; [|lia]. exact Hm2b. }
    rewrite Hdig.
    replace (fexp prec emax (53 + (ex + (d - 53))) - (ex + (d - 53)))
      with 0.
    2:{ rewrite fexp_normal by (rewrite emin_value; unfold prec; lia).
        unfold prec. lia. }
    cbn [shr_record_of_loc shr shr_m].
    destruct m2 as [|p|p] eqn:Em2;
      [change (2 ^ 52) with 4503599627370496 in Hm2b; lia| |lia].
    replace (ex + (d - 53) <=? emax - prec) with true
      by (symmetry; apply Z.leb_le; unfold emax, prec; lia).
    exists p, (ex + (d - 53)). split; [reflexivity|]. split; [exact Hm2b|].
    split; [left; lia|].
    replace (ex + (d - 53) - ex) with (d - 53) by lia. fold P.
    replace (Zpos p * P * D - N) with (Zpos p * (P * D) - N) by ring.
    lia.
Qed.

(** ** Powers of two as rational numbers *)

Local Open Scope Q_scope.

Lemma pow2_pos (e : Z) : 0 < pow2 e.
Proof. apply Qpower_0_lt. reflexivity. Qed.

Lemma pow2_add (a b : Z) : pow2 (a + b) == pow2 a * pow2 b.
Proof. apply Qpower_plus. discriminate. Qed.

Lemma pow2_Z (n : Z) : (0 <= n)%Z -> pow2 n == inject_Z (2 ^ n).
Proof. intros H. unfold pow2. rewrite Zpower_Qpower by exact H. reflexivity. Qed.

Lemma pow2_le (a b : Z) : (a <= b)%Z -> pow2 a <= pow2 b.
Proof. intros H. apply Qpower_le_compat_l; [exact H|]. discriminate. Qed.

Lemma pow2_lt_inv (a b : Z) : pow2 a < pow2 b -> (a < b)%Z.
Proof. intros H. apply (Qpower_lt_compat_l_inv 2); [exact H|reflexivity]. Qed.

Lemma pow2_half (a : Z) : pow2 (a - 1) == pow2 a * (1 # 2).
Proof.
  replace (a - 1)%Z with (a + -1)%Z by lia. rewrite pow2_add. reflexivity.
Qed.

Lemma inject_Z_sub (x y : Z) : inject_Z (x - y) = inject_Z x - inject_Z y.
Proof. unfold Z.sub. rewrite inject_Z_plus, inject_Z_opp. reflexivity. Qed.

Lemma inject_Z_pos (x : Z) : (0 < x)%Z -> 0 < inject_Z x.
Proof. intros H. change 0 with (inject_Z 0). rewrite <- Zlt_Qlt. exact H. Qed.

(** From the integer form of a rounding error to the rational form:
    [Y] is the exact quotient [N/D]. *)
Lemma rounding_error_Q (m e ex d N D : Z) (Y : Q) :
  (0 < D)%Z -> (0 <= e - ex)%Z -> (53 <= d)%Z ->
  Y * inject_Z D == inject_Z N ->
  (2 * Z.abs (m * 2 ^ (e - ex) * D - N) <= 2 ^ (d - 53) * D)%Z ->
  Y * pow2 ex - pow2 (d + ex - 54) <= inject_Z m * pow2 e
  /\ inject_Z m * pow2 e <= Y * pow2 ex + pow2 (d + ex - 54).
Proof.
  intros HD He Hd HY Herr.
  assert (H1 : (- (2 ^ (d - 53) * D) <= 2 * (m * 2 ^ (e - ex) * D - N))%Z)
    by lia.
  assert (H2 : (2 * (m * 2 ^ (e - ex) * D - N) <= 2 ^ (d - 53) * D)%Z)
    by lia.
  rewrite Zle_Qle in H1, H2.
  repeat (rewrite inject_Z_opp in H1 || rewrite inject_Z_mult in H1
          || rewrite inject_Z_sub in H1).
  repeat (rewrite inject_Z_opp in H2 || rewrite inject_Z_mult in H2
          || rewrite inject_Z_sub in H2).
  rewrite <- !pow2_Z in H1, H2 by lia.
  pose proof (inject_Z_pos D HD) as HDq.
  replace e with ((e - ex) + ex)%Z at 1 2 by lia.
  replace (d + ex - 54)%Z with ((d - 53) + ex - 1)%Z by lia.
  rewrite pow2_half, !pow2_add.
  pose proof (pow2_pos ex) as Hex.
  pose proof (pow2_pos (e - ex)) as Hee.
  pose proof (pow2_pos (d - 53)) as Hdd.
  change (inject_Z 2) with 2 in H1, H2.
  set (pe := pow2 ex) in *. set (pee := pow2 (e - ex)) in *.
  set (pd := pow2 (d - 53)) in *. set (dq := inject_Z D) in *.
  set (nq := inject_Z N) in *. set (mq := inject_Z m) in *.
  assert (A1 : Y - pd * (1 # 2) <= mq * pee).
  { apply (Qmult_lt_0_le_reg_r _ _ dq HDq). nra. }
  assert (A2 : mq * pee <= Y + pd * (1 # 2)).
  { apply (Qmult_lt_0_le_reg_r _ _ dq HDq). nra. }
  split; nra.
Qed.

Local Close Scope Q_scope.

Lemma shr_m_of_loc (m : Z) (l : location) : shr_m (shr_record_of_loc m l) = m.
Proof. destruct l as [|[]]; reflexivity. Qed.

(** The rounding step with the error stated on rational values: [Y] is
    the exact quotient [N/D] and [k] bounds the magnitude of the exact
    value [Y * 2^ex]. *)
Lemma binary_round_aux_Q (sx : bool) (mx ex : Z) (lx : location)
      (N D : Z) (Y : Q) (k : Z) :
  0 < mx ->
  rec_rep (shr_record_of_loc mx lx) N D ->
  53 <= Zdigits2 mx ->
  -1074 <= Zdigits2 mx + ex - 53 ->
  Zdigits2 mx + ex <= 1023 ->
  (Y * inject_Z D == inject_Z N)%Q ->
  (Y * pow2 ex < pow2 k)%Q ->
  exists m e,
    binary_round_aux prec emax sx mx ex lx = S754_finite sx m e
    /\ 2 ^ 52 <= Zpos m < 2 ^ 53
    /\ (e = Zdigits2 mx + ex - 53 \/ e = Zdigits2 mx + ex - 52)
    /\ (Y * pow2 ex - pow2 (k - 54) <= inject_Z (Zpos m) * pow2 e)%Q
    /\ (inject_Z (Zpos m) * pow2 e <= Y * pow2 ex + pow2 (k - 54))%Q.
Proof.
  intros Hmx Hrep Hd Hlo Hhi HY Hk.
  destruct (binary_round_aux_spec sx mx ex lx N D Hmx Hrep Hd Hlo Hhi)
    as (m & e & E & Hm & He & Herr).
  exists m, e. split; [exact E|]. split; [exact Hm|]. split; [exact He|].
  destruct (rec_rep_bounds _ _ _ Hrep) as (HD & _ & Hb).
  rewrite shr_m_of_loc in Hb.
  destruct (rounding_error_Q (Zpos m) e ex (Zdigits2 mx) N D Y HD
              ltac:(lia) Hd HY Herr) as [B1 B2].
  assert (Hdk : Zdigits2 mx + ex <= k).
  { destruct (Zdigits2_bounds mx Hmx) as [Hlo2 _].
    assert (Hq : (pow2 (Zdigits2 mx - 1 + ex) <= Y * pow2 ex)%Q).
    { rewrite pow2_add. apply Qmult_le_compat_r; [|apply Qlt_le_weak, pow2_pos].
      rewrite pow2_Z by lia.
      apply (Qmult_lt_0_le_reg_r _ _ (inject_Z D) (inject_Z_pos D HD)).
      rewrite HY, <- inject_Z_mult, <- Zle_Qle. nia. }
    assert (Hlt : (pow2 (Zdigits2 mx - 1 + ex) < pow2 k)%Q)
      by (eapply Qle_lt_trans; eassumption).
    apply pow2_lt_inv in Hlt. lia. }
  pose proof (pow2_le (Zdigits2 mx + ex - 54) (k - 54) ltac:(lia)) as Hp.
  split; lra.
Qed.

(** ** [binary_round]: aligning and rounding an integer mantissa *)

Lemma iter_xO_value (m k : positive) :
  Zpos (Pos.iter xO m k) = Zpos m * 2 ^ Zpos k.
Proof.
  induction k as [|k IH] using Pos.peano_ind.
  - cbn [Pos.iter]. rewrite (Pos2Z.inj_xO m). change (2 ^ 1) with 2. ring.
  - rewrite Pos.iter_succ, (Pos2Z.inj_xO (Pos.iter xO m k)), IH.
    rewrite Pos2Z.inj_succ, Z.pow_succ_r by lia. ring.
Qed.

Lemma Zdigits2_shift (m k : Z) :
  0 < m -> 0 <= k -> Zdigits2 (m * 2 ^ k) = Zdigits2 m + k.
Proof.
  intros Hm Hk. destruct (Zdigits2_bounds m Hm) as [Hlo Hhi].
  pose proof (Zdigits2_pos m Hm) as Hp.
  apply Zdigits2_unique; [|lia].
  replace (Zdigits2 m + k - 1) with ((Zdigits2 m - 1) + k) by lia.
  rewrite !Z.pow_add_r by lia.
  assert (0 < 2 ^ k) by (apply Z.pow_pos_nonneg; lia).
  split; nia.
Qed.

Lemma shl_align_spec (mx : positive) (ex : Z) :
  let d := Zpos (digits2_pos mx) in
  exists mz ez,
    shl_align mx ex (d + ex - 53) = (mz, ez)
    /\ ez <= ex
    /\ Zpos mz = Zpos mx * 2 ^ (ex - ez)
    /\ Zdigits2 (Zpos mz) + ez = d + ex
    /\ 53 <= Zdigits2 (Zpos mz)
    /\ (d <= 53 -> Zdigits2 (Zpos mz) = 53).
Proof.
  intros d. unfold shl_align.
  replace (d + ex - 53 - ex) with (d - 53) by lia.
  destruct (d - 53) as [|p|p] eqn:Ed.
  - exists mx, ex. split; [reflexivity|]. rewrite Z.sub_diag.
    change (2 ^ 0) with 1. cbn [Zdigits2]. fold d. repeat split; lia.
  - exists mx, ex. split; [reflexivity|]. rewrite Z.sub_diag.
    change (2 ^ 0) with 1. cbn [Zdigits2]. fold d. repeat split; lia.
  - exists (Pos.iter xO mx p), (d + ex - 53). split; [reflexivity|].
    rewrite iter_xO_value.
    replace (ex - (d + ex - 53)) with (Zpos p) by lia.
    rewrite Zdigits2_shift by lia. cbn [Zdigits2]. fold d.
    repeat split; lia.
Qed.

Lemma binary_round_spec (mx : positive) (ex : Z) :
  let d := Zpos (digits2_pos mx) in
  -1074 <= d + ex - 53 -> d + ex <= 1023 ->
  exists m e,
    binary_round prec emax false mx ex = S754_finite false m e
    /\ 2 ^ 52 <= Zpos m < 2 ^ 53
    /\ (e = d + ex - 53 \/ e = d + ex - 52)
    /\ (d <= 53 ->
        (inject_Z (Zpos m) * pow2 e == inject_Z (Zpos mx) * pow2 ex)%Q)
    /\ (inject_Z (Zpos mx) * pow2 ex - pow2 (d + ex - 54)
        <= inject_Z (Zpos m) * pow2 e)%Q
    /\ (inject_Z (Zpos m) * pow2 e
        <= inject_Z (Zpos mx) * pow2 ex + pow2 (d + ex - 54))%Q.
Proof.
  intros d Hlo Hhi. unfold binary_round.
  rewrite (fexp_normal (Zpos (digits2_pos mx) + ex))
    by (rewrite emin_value; unfold prec; fold d; lia).
  fold d. change prec with 53.
  destruct (shl_align_spec mx ex) as (mz & ez & Es & Hez & Hmz & Hdz & Hd53 & Hdeq).
  fold d in Es, Hdz, Hdeq. rewrite Es.
  assert (Hlo' : -1074 <= Zdigits2 (Zpos mz) + ez - 53) by (rewrite Hdz; exact Hlo).
  assert (Hhi' : Zdigits2 (Zpos mz) + ez <= 1023) by (rewrite Hdz; exact Hhi).
  destruct (binary_round_aux_spec false (Zpos mz) ez loc_Exact (Zpos mz) 1
              (Pos2Z.is_pos mz)
              (rec_rep_of_loc_exact _ (Pos2Z.is_nonneg mz)) Hd53 Hlo' Hhi')
    as (m & e & E & Hm & He & Herr).
  exists m, e. split; [exact E|]. split; [exact Hm|].
  split; [lia|].
  assert (Hval : (inject_Z (Zpos mz) * pow2 ez
                  == inject_Z (Zpos mx) * pow2 ex)%Q).
  { rewrite Hmz, inject_Z_mult, <- pow2_Z by lia.
    rewrite <- Qmult_assoc, <- pow2_add.
    replace (ex - ez + ez) with ex by lia. reflexivity. }
  destruct (rounding_error_Q (Zpos m) e ez (Zdigits2 (Zpos mz)) (Zpos mz) 1
              (inject_Z (Zpos mz)) ltac:(lia) ltac:(lia) Hd53
              ltac:(ring) Herr) as [B1 B2].
  rewrite Hval in B1, B2.
  replace (Zdigits2 (Zpos mz) + ez - 54) with (d + ex - 54) in B1, B2 by lia.
  split; [|split; assumption].
  intros Hd. specialize (Hdeq Hd). rewrite Hdeq in Herr.
  change (2 ^ (53 - 53) * 1) with 1 in Herr.
  assert (Hex : Zpos m * 2 ^ (e - ez) = Zpos mz) by lia.
  rewrite <- Hval, <- Hex, inject_Z_mult, <- pow2_Z by lia.
  rewrite <- Qmult_assoc, <- pow2_add.
  replace (e - ez + ez) with e by lia. reflexivity.
Qed.

Lemma Zdigits2_ge (m n : Z) : 0 <= n -> 2 ^ n <= m -> n + 1 <= Zdigits2 m.
Proof.
  intros Hn H.
  assert (Hm : 0 < m).
  { pose proof (Z.pow_pos_nonneg 2 n ltac:(lia) Hn). lia. }
  destruct (Zdigits2_bounds m Hm) as [_ Hhi].
  pose proof (Zdigits2_pos m Hm).
  destruct (Z_lt_le_dec n (Zdigits2 m)) as [Hlt|Hge]; [lia|].
  assert (2 ^ Zdigits2 m <= 2 ^ n) by (apply Z.pow_le_mono_r; lia). lia.
Qed.

Lemma Zdigits2_le (m n : Z) : 0 < m -> 0 <= n -> m < 2 ^ n -> Zdigits2 m <= n.
Proof.
  intros Hm Hn H.
  destruct (Zdigits2_bounds m Hm) as [Hlo _].
  pose proof (Zdigits2_pos m Hm).
  destruct (Z_lt_le_dec n (Zdigits2 m)) as [Hlt|Hge]; [|lia].
  assert (2 ^ n <= 2 ^ (Zdigits2 m - 1)) by (apply Z.pow_le_mono_r; lia). lia.
Qed.

(** ** Multiplication *)

Lemma SFmul_spec (m1 m2 : positive) (e1 e2 : Z) (k : Z) :
  2 ^ 52 <= Zpos m1 < 2 ^ 53 ->
  2 ^ 52 <= Zpos m2 < 2 ^ 53 ->
  -1126 <= e1 + e2 <= 917 ->
  (inject_Z (Zpos m1) * pow2 e1 * (inject_Z (Zpos m2) * pow2 e2) < pow2 k)%Q ->
  exists m e,
    SFmul prec emax (S754_finite false m1 e1) (S754_finite false m2 e2)
    = S754_finite false m e
    /\ 2 ^ 52 <= Zpos m < 2 ^ 53
    /\ e1 + e2 + 52 <= e <= e1 + e2 + 54
    /\ (inject_Z (Zpos m1) * pow2 e1 * (inject_Z (Zpos m2) * pow2 e2)
        - pow2 (k - 54) <= inject_Z (Zpos m) * pow2 e)%Q
    /\ (inject_Z (Zpos m) * pow2 e
        <= inject_Z (Zpos m1) * pow2 e1 * (inject_Z (Zpos m2) * pow2 e2)
           + pow2 (k - 54))%Q.
Proof.
  intros H1 H2 He Hk. cbn [SFmul xorb].
  change (2 ^ 52) with 4503599627370496 in *.
  change (2 ^ 53) with 9007199254740992 in *.
  assert (Hp : 2 ^ 104 <= Zpos (m1 * m2) < 2 ^ 106).
  { rewrite Pos2Z.inj_mul.
    change (2 ^ 104) with (4503599627370496 * 4503599627370496).
    change (2 ^ 106) with (9007199254740992 * 9007199254740992).
    split; nia. }
  pose proof (Zdigits2_ge (Zpos (m1 * m2)) 104 ltac:(lia) (proj1 Hp)) as Hd1.
  pose proof (Zdigits2_le (Zpos (m1 * m2)) 106 ltac:(lia) ltac:(lia) (proj2 Hp))
    as Hd2.
  assert (HY : (inject_Z (Zpos m1) * pow2 e1 * (inject_Z (Zpos m2) * pow2 e2)
                == inject_Z (Zpos (m1 * m2)) * pow2 (e1 + e2))%Q).
  { rewrite Pos2Z.inj_mul, inject_Z_mult, pow2_add. ring. }
  rewrite HY in Hk.
  assert (Hy1 : (inject_Z (Zpos (m1 * m2)) * inject_Z 1
                 == inject_Z (Zpos (m1 * m2)))%Q) by ring.
  assert (Ha : 53 <= Zdigits2 (Zpos (m1 * m2))) by lia.
  assert (Hb : -1074 <= Zdigits2 (Zpos (m1 * m2)) + (e1 + e2) - 53) by lia.
  assert (Hc : Zdigits2 (Zpos (m1 * m2)) + (e1 + e2) <= 1023) by lia.
  destruct (binary_round_aux_Q false (Zpos (m1 * m2)) (e1 + e2) loc_Exact
              (Zpos (m1 * m2)) 1 (inject_Z (Zpos (m1 * m2))) k
              (Pos2Z.is_pos _)
              (rec_rep_of_loc_exact _ (Pos2Z.is_nonneg _))
              Ha Hb Hc Hy1 Hk)
    as (m & e & E & Hm & Hee & B1 & B2).
  exists m, e. split; [exact E|]. split; [exact Hm|].
  split; [lia|]. rewrite HY. split; assumption.
Qed.

(** ** Division *)

Lemma new_location_rep (q r N D : Z) :
  0 < D -> 0 <= q -> 0 <= r < D -> N = q * D + r ->
  rec_rep (shr_record_of_loc q (new_location D r)) N D.
Proof.
  intros HD Hq Hr HN. unfold rec_rep.
  split; [exact HD|]. rewrite shr_m_of_loc. split; [exact Hq|].
  replace (N - q * D) with r by lia. cbv zeta.
  unfold new_location, new_location_even, new_location_odd.
  destruct (Z.even D) eqn:Hev.
  - destruct (Z.eqb_spec r 0) as [->|Hr0]; [reflexivity|].
    destruct (Z.compare_spec (2 * r) D);
      cbn [shr_record_of_loc shr_r shr_s]; lia.
  - destruct (Z.eqb_spec r 0) as [->|Hr0]; [reflexivity|].
    assert (Hodd : Z.odd D = true) by (rewrite <- Z.negb_even, Hev; reflexivity).
    apply Z.odd_spec in Hodd. destruct Hodd as (c & Hc).
    destruct (Z.compare_spec (2 * r + 1) D);
      cbn [shr_record_of_loc shr_r shr_s]; lia.
Qed.

Lemma SFdiv_spec (m1 m2 : positive) (e1 e2 : Z) (Y : Q) (k : Z) :
  2 ^ 52 <= Zpos m1 < 2 ^ 53 ->
  2 ^ 52 <= Zpos m2 < 2 ^ 53 ->
  -1021 <= e1 - e2 <= 1022 ->
  (Y * (inject_Z (Zpos m2) * pow2 e2) == inject_Z (Zpos m1) * pow2 e1)%Q ->
  (Y < pow2 k)%Q ->
  exists m e,
    SFdiv prec emax (S754_finite false m1 e1) (S754_finite false m2 e2)
    = S754_finite false m e
    /\ 2 ^ 52 <= Zpos m < 2 ^ 53
    /\ e1 - e2 - 53 <= e <= e1 - e2 - 51
    /\ (Y - pow2 (k - 54) <= inject_Z (Zpos m) * pow2 e)%Q
    /\ (inject_Z (Zpos m) * pow2 e <= Y + pow2 (k - 54))%Q.
Proof.
  intros H1 H2 He HY Hk. cbn [SFdiv xorb]. unfold SFdiv_core_binary.
  rewrite (Zdigits2_unique (Zpos m1) 53 H1 ltac:(lia)).
  rewrite (Zdigits2_unique (Zpos m2) 53 H2 ltac:(lia)).
  replace (53 + e1 - (53 + e2)) with (e1 - e2) by lia.
  rewrite (fexp_normal (e1 - e2))
    by (rewrite emin_value; unfold prec; lia).
  change prec with 53.
  rewrite (Z.min_l (e1 - e2 - 53) (e1 - e2)) by lia.
  replace (e1 - e2 - (e1 - e2 - 53)) with 53 by lia.
  cbv beta iota zeta.
  rewrite Z.shiftl_mul_pow2 by lia.
  set (N := Zpos m1 * 2 ^ 53).
  pose proof (Z_div_mod N (Zpos m2) ltac:(lia)) as Hdm.
  destruct (Z.div_eucl N (Zpos m2)) as [q r]. destruct Hdm as [HN Hr].
  change (2 ^ 52) with 4503599627370496 in *.
  change (2 ^ 53) with 9007199254740992 in *.
  assert (Hq : 2 ^ 52 <= q < 2 ^ 54).
  { change (2 ^ 52) with 4503599627370496.
    change (2 ^ 54) with 18014398509481984. unfold N in HN. split; nia. }
  pose proof (Zdigits2_ge q 52 ltac:(lia) (proj1 Hq)) as Hd1.
  pose proof (Zdigits2_le q 54 ltac:(change (2 ^ 52) with 4503599627370496 in Hq; lia)
                ltac:(lia) (proj2 Hq)) as Hd2.
  assert (Hq0 : 0 < q) by (change (2 ^ 52) with 4503599627370496 in Hq; lia).
  assert (HY0 : (Y * pow2 (53 - e1 + e2) * inject_Z (Zpos m2) == inject_Z N)%Q).
  { unfold N. rewrite inject_Z_mult.
    change (inject_Z 9007199254740992) with (pow2 53).
    replace 53 with ((53 - e1) + e1) at 2 by lia.
    rewrite !pow2_add.
    pose proof (pow2_pos e1). pose proof (pow2_pos e2).
    pose proof (pow2_pos (53 - e1)).
    set (a := pow2 e1) in *. set (b := pow2 e2) in *.
    set (c := pow2 (53 - e1)) in *.
    transitivity (Y * (inject_Z (Zpos m2) * b) * c)%Q; [ring|].
    rewrite HY. ring. }
  assert (HYk : (Y * pow2 (53 - e1 + e2) * pow2 (e1 - e2 - 53) < pow2 k)%Q).
  { rewrite <- Qmult_assoc, <- pow2_add.
    replace (53 - e1 + e2 + (e1 - e2 - 53)) with 0 by lia.
    change (pow2 0) with 1%Q. rewrite Qmult_1_r. exact Hk. }
  assert (Hrep : rec_rep (shr_record_of_loc q (new_location (Zpos m2) r))
                         N (Zpos m2)).
  { apply new_location_rep; lia. }
  assert (Ha : 53 <= Zdigits2 q) by lia.
  assert (Hb : -1074 <= Zdigits2 q + (e1 - e2 - 53) - 53) by lia.
  assert (Hc : Zdigits2 q + (e1 - e2 - 53) <= 1023) by lia.
  destruct (binary_round_aux_Q false q (e1 - e2 - 53) (new_location (Zpos m2) r)
              N (Zpos m2) (Y * pow2 (53 - e1 + e2)) k Hq0 Hrep
              Ha Hb Hc HY0 HYk)
    as (m & e & E & Hm & Hee & B1 & B2).
  exists m, e. split; [exact E|]. split; [exact Hm|]. split; [lia|].
  assert (HYe : (Y * pow2 (53 - e1 + e2) * pow2 (e1 - e2 - 53) == Y)%Q).
  { rewrite <- Qmult_assoc, <- pow2_add.
    replace (53 - e1 + e2 + (e1 - e2 - 53)) with 0 by lia.
    change (pow2 0) with 1%Q. ring. }
  rewrite HYe in B1, B2. split; assumption.
Qed.

(** ** [modf] and rounding to an integer *)

Lemma modf_finite (m : positive) (e : Z) :
  e < 0 ->
  modf (S754_finite false m e)
  = (Zpos m / 2 ^ (- e),
     binary_normalize prec emax (Zpos m mod 2 ^ (- e)) e false).
Proof.
  intros He. unfold modf.
  destruct (Z.leb_spec 0 e) as [H|_]; [lia|].
  cbn [cond_Zopp]. rewrite Z.shiftr_div_pow2, Z.shiftl_mul_pow2 by lia.
  rewrite (Z.mod_eq (Zpos m) (2 ^ (- e)))
    by (apply Z.pow_nonzero; lia).
  f_equal. f_equal. ring.
Qed.

Lemma pow2_neg_inv (e : Z) :
  (e <= 0)%Z -> (pow2 e * inject_Z (2 ^ (- e)) == 1)%Q.
Proof.
  intros He. rewrite <- pow2_Z by lia. rewrite <- pow2_add.
  replace (e + - e) with 0 by lia. reflexivity.
Qed.

(** The value of a positive float with a negative exponent, split at the
    binary point. *)
Lemma split_value (m e : Z) :
  e < 0 ->
  (inject_Z m * pow2 e
   == inject_Z (m / 2 ^ (- e)) + inject_Z (m mod 2 ^ (- e)) * pow2 e)%Q.
Proof.
  intros He.
  assert (HT : 0 < 2 ^ (- e)) by (apply Z.pow_pos_nonneg; lia).
  rewrite (Z.div_mod m (2 ^ (- e))) at 1 by lia.
  rewrite inject_Z_plus, inject_Z_mult.
  pose proof (pow2_neg_inv e ltac:(lia)) as Hinv.
  set (T := inject_Z (2 ^ (- e))) in *. set (p := pow2 e) in *.
  set (q := inject_Z (m / 2 ^ (- e))). set (r := inject_Z (m mod 2 ^ (- e))).
  transitivity (q * (p * T) + r * p)%Q; [ring|]. rewrite Hinv. ring.
Qed.

Lemma frac_value_bounds (m e : Z) :
  e < 0 ->
  (0 <= inject_Z (m mod 2 ^ (- e)) * pow2 e)%Q
  /\ (inject_Z (m mod 2 ^ (- e)) * pow2 e < 1)%Q.
Proof.
  intros He.
  assert (HT : 0 < 2 ^ (- e)) by (apply Z.pow_pos_nonneg; lia).
  pose proof (Z.mod_pos_bound m (2 ^ (- e)) HT) as [H0 H1].
  pose proof (pow2_neg_inv e ltac:(lia)) as Hinv.
  pose proof (pow2_pos e) as Hp.
  rewrite Zle_Qle in H0. rewrite Zlt_Qlt in H1.
  change (inject_Z 0) with 0%Q in H0.
  set (T := inject_Z (2 ^ (- e))) in *. set (p := pow2 e) in *.
  set (r := inject_Z (m mod 2 ^ (- e))) in *.
  split.
  - apply Qmult_le_0_compat; [exact H0|apply Qlt_le_weak, Hp].
  - rewrite <- Hinv. rewrite (Qmult_comm p T).
    apply Qmult_lt_compat_r; assumption.
Qed.

(** An integer within less than one half of a float's value is the
    result of rounding the float. *)
Lemma round_half_even_unique (m : positive) (e z : Z) :
  (inject_Z (Zpos m) * pow2 e - (1 # 2) < inject_Z z)%Q ->
  (inject_Z z < inject_Z (Zpos m) * pow2 e + (1 # 2))%Q ->
  round_half_even (S754_finite false m e) = z.
Proof.
  intros H1 H2. unfold round_half_even.
  destruct (Z.leb_spec 0 e) as [He|He]; cbn [cond_Zopp].
  - rewrite Z.shiftl_mul_pow2 by lia.
    rewrite pow2_Z in H1, H2 by lia. rewrite <- inject_Z_mult in H1, H2.
    set (M := Zpos m * 2 ^ e) in *.
    assert (A : (inject_Z (2 * M - 1) < inject_Z (2 * z))%Q).
    { rewrite inject_Z_sub, !inject_Z_mult.
      change (inject_Z 2) with 2%Q. change (inject_Z 1) with 1%Q. lra. }
    assert (B : (inject_Z (2 * z) < inject_Z (2 * M + 1))%Q).
    { rewrite inject_Z_plus, !inject_Z_mult.
      change (inject_Z 2) with 2%Q. change (inject_Z 1) with 1%Q. lra. }
    rewrite <- Zlt_Qlt in A, B. lia.
  - rewrite Z.shiftr_div_pow2, !Z.shiftl_mul_pow2 by lia.
    rewrite Z.mul_1_l.
    assert (HT : 0 < 2 ^ (- e)) by (apply Z.pow_pos_nonneg; lia).
    assert (Hh : 2 ^ (- e) = 2 * 2 ^ (- e - 1)).
    { rewrite <- Z.pow_succ_r by lia. f_equal. lia. }
    pose proof (Z.div_mod (Zpos m) (2 ^ (- e)) ltac:(lia)) as Hdm.
    pose proof (Z.mod_pos_bound (Zpos m) (2 ^ (- e)) HT) as Hr.
    pose proof (pow2_neg_inv e ltac:(lia)) as Hinv.
    pose proof (pow2_pos e) as Hp.
    assert (HTq : (0 < inject_Z (2 ^ (- e)))%Q) by (apply inject_Z_pos, HT).
    assert (A : (inject_Z (2 * Zpos m - 2 ^ (- e))
                 < inject_Z (2 * z * 2 ^ (- e)))%Q).
    { rewrite inject_Z_sub, !inject_Z_mult. change (inject_Z 2) with 2%Q.
      set (T := inject_Z (2 ^ (- e))) in *. set (p := pow2 e) in *.
      set (mq := inject_Z (Zpos m)) in *. set (zq := inject_Z z) in *.
      assert (E : (mq == mq * p * T)%Q).
      { rewrite <- Qmult_assoc, Hinv. ring. }
      rewrite E at 1.
      apply (Qmult_lt_compat_r _ _ T HTq) in H1. lra. }
    assert (B : (inject_Z (2 * z * 2 ^ (- e))
                 < inject_Z (2 * Zpos m + 2 ^ (- e)))%Q).
    { rewrite inject_Z_plus, !inject_Z_mult. change (inject_Z 2) with 2%Q.
      set (T := inject_Z (2 ^ (- e))) in *. set (p := pow2 e) in *.
      set (mq := inject_Z (Zpos m)) in *. set (zq := inject_Z z) in *.
      assert (E : (mq == mq * p * T)%Q).
      { rewrite <- Qmult_assoc, Hinv. ring. }
      rewrite E at 1.
      apply (Qmult_lt_compat_r _ _ T HTq) in H2. lra. }
    rewrite <- Zlt_Qlt in A, B.
    set (T := 2 ^ (- e)) in *. set (h := 2 ^ (- e - 1)) in *.
    set (q := Zpos m / T) in *. set (r := Zpos m mod T) in *.
    replace (Zpos m - q * T) with r by lia.
    assert (Hz : z = q \/ z = q + 1) by nia.
    destruct (Z.compare_spec r h) as [Hc|Hc|Hc].
    + exfalso. nia.
    + destruct Hz as [-> | ->]; [reflexivity|]. exfalso. nia.
    + destruct Hz as [-> | ->]; [|reflexivity]. exfalso. nia.
Qed.

(** ** The sign of a float operation *)

Lemma binary_round_aux_true (m e : Z) (l : location) :
  binary_round_aux prec emax true m e l
  = SFopp (binary_round_aux prec emax false m e l).
Proof.
  unfold binary_round_aux.
  destruct (shr_fexp prec emax m e l) as [mrs' e'].
  destruct (shr_fexp prec emax _ e' loc_Exact) as [mrs'' e''].
  destruct (shr_m mrs''); try reflexivity.
  destruct (e'' <=? emax - prec); reflexivity.
Qed.

Lemma binary_round_true (p : positive) (e : Z) :
  binary_round prec emax true p e = SFopp (binary_round prec emax false p e).
Proof.
  unfold binary_round.
  destruct (shl_align p e _) as [mz ez]. apply binary_round_aux_true.
Qed.

Lemma SFdiv_true (m1 m2 : positive) (e1 e2 : Z) :
  SFdiv prec emax (S754_finite true m1 e1) (S754_finite false m2 e2)
  = SFopp (SFdiv prec emax (S754_finite false m1 e1) (S754_finite false m2 e2)).
Proof.
  cbn [SFdiv xorb].
  destruct (SFdiv_core_binary prec emax (Zpos m1) e1 (Zpos m2) e2)
    as [[mz ez] lz].
  apply binary_round_aux_true.
Qed.

Lemma SFmul_opp (f : float) (m2 : positive) (e2 : Z) :
  SFmul prec emax (SFopp f) (S754_finite false m2 e2)
  = SFopp (SFmul prec emax f (S754_finite false m2 e2)).
Proof.
  destruct f as [s|s| |s m e]; try reflexivity.
  - destruct s; reflexivity.
  - destruct s; reflexivity.
  - destruct s; cbn [SFopp SFmul negb xorb].
    + rewrite binary_round_aux_true.
      destruct (binary_round_aux prec emax false _ _ _) as [[]|[]| |[] ? ?];
        reflexivity.
    + apply binary_round_aux_true.
Qed.

Lemma round_half_even_opp (f : float) :
  round_half_even (SFopp f) = - round_half_even f.
Proof.
  destruct f as [s|s| |s m e]; try reflexivity.
  cbn [SFopp round_half_even]. destruct (0 <=? e); destruct s; cbn [negb cond_Zopp]; lia.
Qed.

Lemma modf_true (m : positive) (e : Z) :
  e < 0 ->
  modf (S754_finite true m e)
  = (- (Zpos m / 2 ^ (- e)),
     SFopp (binary_normalize prec emax (Zpos m mod 2 ^ (- e)) e false)).
Proof.
  intros He. unfold modf.
  destruct (Z.leb_spec 0 e) as [H|_]; [lia|].
  cbn [cond_Zopp]. rewrite Z.shiftr_div_pow2, Z.shiftl_mul_pow2 by lia.
  replace (Zpos m - Zpos m / 2 ^ (- e) * 2 ^ (- e))
    with (Zpos m mod 2 ^ (- e))
    by (rewrite (Z.mod_eq (Zpos m) (2 ^ (- e)))
          by (apply Z.pow_nonzero; lia); ring).
  f_equal.
  destruct (Zpos m mod 2 ^ (- e)) as [|r|r]; cbn [Z.opp binary_normalize].
  - reflexivity.
  - apply binary_round_true.
  - rewrite binary_round_true.
    destruct (binary_round prec emax false r e) as [[]|[]| |[] ? ?];
      reflexivity.
Qed.

(** ** Whole seconds that fit a [time_t] *)

Lemma time_t_of_double_exact (n : Z) :
  - 2 ^ 63 <= n < 2 ^ 63 -> time_t_of_double n = Ok n.
Proof.
  intros Hn. unfold time_t_of_double.
  replace (n <? - 2 ^ 63) with false by (symmetry; apply Z.ltb_ge; lia).
  replace (2 ^ 63 <? n) with false by (symmetry; apply Z.ltb_ge; lia).
  replace (n =? 2 ^ 63) with false by (symmetry; apply Z.eqb_neq; lia).
  reflexivity.
Qed.

(** ** The decoder's float arithmetic, from 1855 to 2084 *)

Lemma f_1e7_value : f_1e7 = S754_finite false 5368709120000000 (-29).
Proof. reflexivity. Qed.

Lemma f_1e6_value : f_1e6 = S754_finite false 8589934592000000 (-33).
Proof. reflexivity. Qed.

Lemma f_1e7_Q : (inject_Z 5368709120000000 * pow2 (-29) == 10000000)%Q.
Proof. reflexivity. Qed.

Lemma f_1e6_Q : (inject_Z 8589934592000000 * pow2 (-33) == 1000000)%Q.
Proof. reflexivity. Qed.

Lemma seconds_and_microseconds (u sec us : Z) :
  u = 1000000 * sec + us -> 0 <= us < 1000000 ->
  sec = 10 * u / 10000000 /\ us = 10 * u / 10 mod 1000000.
Proof.
  intros Hu Hus.
  replace (10 * u / 10) with u by (rewrite Z.mul_comm, Z.div_mul; lia).
  split.
  - apply (Z.div_unique _ _ _ (10 * us)); lia.
  - apply (Z.mod_unique _ _ sec); lia.
Qed.

(** For a positive multiple of 10 below [2^55], the float quotient by
    [1e7] splits into the whole seconds and a fraction which, times
    [1e6] and rounded, is the rest of the microsecond count: the
    conversion of [x] is off by at most 2, the division by at most
    [2^-22], and the product with [1e6] by at most [2^-34], which leaves
    the microsecond count within less than one half. *)
Lemma decode_parts (px : positive) :
  Zpos px < 2 ^ 55 -> Zpos px mod 10 = 0 ->
  exists mF eF ms es z,
    binary_round prec emax false px 0 = S754_finite false mF eF
    /\ SFdiv prec emax (S754_finite false mF eF) f_1e7
       = S754_finite false ms es
    /\ es < 0
    /\ round_half_even
         (SFmul prec emax
            (binary_normalize prec emax (Zpos ms mod 2 ^ (- es)) es false)
            f_1e6) = z
    /\ Zpos px / 10 = 1000000 * (Zpos ms / 2 ^ (- es)) + z
    /\ 0 <= z <= 1000000.
Proof.
  intros Hx Hmod.
  assert (Hu : Zpos px = 10 * (Zpos px / 10)).
  { pose proof (Z.div_mod (Zpos px) 10 ltac:(lia)). lia. }
  set (u := Zpos px / 10) in *.
  (* float(x) *)
  pose proof (Zdigits2_pos (Zpos px) ltac:(lia)) as Hd0.
  pose proof (Zdigits2_le (Zpos px) 55 ltac:(lia) ltac:(lia) Hx) as Hd1.
  cbn [Zdigits2] in Hd0, Hd1.
  destruct (binary_round_spec px 0 ltac:(lia) ltac:(lia))
    as (mF & eF & EF & HmF & HeF & _ & BF1 & BF2).
  exists mF, eF.
  set (d := Zpos (digits2_pos px)) in *.
  pose proof (pow2_le (d + 0 - 54) 1 ltac:(lia)) as Hp1.
  change (pow2 1) with 2%Q in Hp1. change (pow2 0) with 1%Q in BF1, BF2.
  set (vF := (inject_Z (Zpos mF) * pow2 eF)%Q) in *.
  assert (HxQ : (inject_Z (Zpos px) < 36028797018963968)%Q).
  { change 36028797018963968%Q with (inject_Z (2 ^ 55)).
    rewrite <- Zlt_Qlt. exact Hx. }
  assert (HxQ0 : (10 <= inject_Z (Zpos px))%Q).
  { change 10%Q with (inject_Z 10). rewrite <- Zle_Qle. lia. }
  (* the division by 1e7 *)
  rewrite f_1e7_value.
  destruct (SFdiv_spec mF 5368709120000000 eF (-29)
              (vF * (1 # 10000000)) 32 HmF)
    as (ms & es & Es & Hms & Hes & BS1 & BS2).
  { cbn. lia. }
  { lia. }
  { rewrite f_1e7_Q. fold vF. ring. }
  { change (pow2 32) with 4294967296%Q. lra. }
  exists ms, es.
  change (pow2 (32 - 54)) with (1 # 4194304)%Q in BS1, BS2.
  set (vs := (inject_Z (Zpos ms) * pow2 es)%Q) in *.
  (* the integral and the fractional part *)
  pose proof (split_value (Zpos ms) es ltac:(lia)) as Hsplit.
  pose proof (frac_value_bounds (Zpos ms) es ltac:(lia)) as [Hfr0 Hfr1].
  fold vs in Hsplit.
  assert (HT : 0 < 2 ^ (- es)) by (apply Z.pow_pos_nonneg; lia).
  pose proof (Z.mod_pos_bound (Zpos ms) (2 ^ (- es)) HT) as Hr.
  pose proof (Z.mod_le (Zpos ms) (2 ^ (- es)) ltac:(lia) HT) as Hrm.
  set (ip := Zpos ms / 2 ^ (- es)) in *.
  set (r := Zpos ms mod 2 ^ (- es)) in *.
  set (fr := (inject_Z r * pow2 es)%Q) in *.
  assert (HuQ : (inject_Z (Zpos px) == 10 * inject_Z u)%Q).
  { rewrite Hu at 1. rewrite inject_Z_mult. reflexivity. }
  (* seconds times 1e6 is within 0.4385 of the microsecond count *)
  assert (Hdelta : (inject_Z u - (4385 # 10000) <= 1000000 * vs)%Q
                   /\ (1000000 * vs <= inject_Z u + (4385 # 10000))%Q).
  { split; lra. }
  destruct Hdelta as [Hdl Hdh].
  destruct (Z.eq_dec r 0) as [Hr0|Hr0].
  - (* a whole number of seconds *)
    exists 0. rewrite Hr0. cbn [binary_normalize]. rewrite f_1e6_value.
    cbn [SFmul xorb round_half_even].
    assert (Hfr : (fr == 0)%Q) by (unfold fr; rewrite Hr0; ring).
    assert (A : (inject_Z (2 * u - 1) < inject_Z (2 * (1000000 * ip)))%Q).
    { rewrite inject_Z_sub, !inject_Z_mult.
      change (inject_Z 2) with 2%Q. change (inject_Z 1) with 1%Q.
      change (inject_Z 1000000) with 1000000%Q. lra. }
    assert (B : (inject_Z (2 * (1000000 * ip)) < inject_Z (2 * u + 1))%Q).
    { rewrite inject_Z_plus, !inject_Z_mult.
      change (inject_Z 2) with 2%Q. change (inject_Z 1) with 1%Q.
      change (inject_Z 1000000) with 1000000%Q. lra. }
    rewrite <- Zlt_Qlt in A, B.
    split; [exact EF|]. split; [exact Es|]. split; [lia|].
    split; [reflexivity|]. lia.
  - (* a fraction of a second *)
    exists (u - 1000000 * ip).
    destruct r as [|pr|pr] eqn:Er; try lia. cbn [binary_normalize].
    assert (Hpr : Zpos pr < 2 ^ 53) by lia.
    pose proof (Zdigits2_pos (Zpos pr) ltac:(lia)) as Hdr0.
    pose proof (Zdigits2_le (Zpos pr) 53 ltac:(lia) ltac:(lia) Hpr) as Hdr1.
    cbn [Zdigits2] in Hdr0, Hdr1.
    destruct (binary_round_spec pr es ltac:(lia) ltac:(lia))
      as (mf & ef & Ef & Hmf & Hef & Hfexact & _ & _).
    specialize (Hfexact Hdr1). fold fr in Hfexact.
    rewrite Ef, f_1e6_value.
    destruct (SFmul_spec mf 8589934592000000 ef (-33) 20 Hmf)
      as (mp & ep & Ep & Hmp & Hep & BP1 & BP2).
    { cbn. lia. }
    { lia. }
    { rewrite f_1e6_Q, Hfexact. change (pow2 20) with 1048576%Q. lra. }
    rewrite Ep. rewrite f_1e6_Q, Hfexact in BP1, BP2.
    change (pow2 (20 - 54)) with (1 # 17179869184)%Q in BP1, BP2.
    set (vp := (inject_Z (Zpos mp) * pow2 ep)%Q) in *.
    set (z := u - 1000000 * ip).
    assert (Hz : (inject_Z z == inject_Z u - 1000000 * inject_Z ip)%Q).
    { unfold z. rewrite inject_Z_sub, inject_Z_mult. reflexivity. }
    rewrite (round_half_even_unique mp ep z).
    2:{ fold vp. lra. }
    2:{ fold vp. lra. }
    assert (A : (inject_Z (-1) < inject_Z z)%Q).
    { change (inject_Z (-1)) with (-1)%Q. lra. }
    assert (B : (inject_Z z < inject_Z 1000001)%Q).
    { change (inject_Z 1000001) with 1000001%Q. lra. }
    rewrite <- Zlt_Qlt in A, B.
    split; [exact EF|]. split; [exact Es|]. split; [lia|].
    split; [reflexivity|]. unfold z. lia.
Qed.

(** After the epoch the two parts are the seconds and the microseconds
    of [x], a carry out of the microseconds included. *)
Lemma decode_seconds (x : Z) :
  0 < x < 2 ^ 55 -> x mod 10 = 0 ->
  exists f,
    int_truediv_float x f_1e7 = Ok f
    /\ utcfromtimestamp (TsFloat f)
       = datetime_from_timet_and_us (x / 10000000) (x / 10 mod 1000000).
Proof.
  intros Hx Hmod.
  destruct x as [|px|px]; try lia.
  destruct (decode_parts px (proj2 Hx) Hmod)
    as (mF & eF & ms & es & z & EF & Es & Hes & Ez & Eu & Hz).
  assert (Hu : Zpos px = 10 * (Zpos px / 10)).
  { pose proof (Z.div_mod (Zpos px) 10 ltac:(lia)). lia. }
  unfold int_truediv_float, float_of_int. cbn [binary_normalize].
  rewrite EF. cbn [rbind]. rewrite Es. eexists. split; [reflexivity|].
  unfold utcfromtimestamp. rewrite modf_finite by exact Hes.
  rewrite Ez. set (ip := Zpos ms / 2 ^ (- es)) in *.
  set (u := Zpos px / 10) in *.
  assert (Hip : 0 <= ip < 2 ^ 62).
  { change (2 ^ 55) with 36028797018963968 in Hx.
    change (2 ^ 62) with 4611686018427387904. lia. }
  change (2 ^ 62) with 4611686018427387904 in Hip.
  destruct (Z.leb_spec 1000000 z) as [Hz1|Hz1].
  - destruct (seconds_and_microseconds u (ip + 1) (z - 1000000)
                ltac:(lia) ltac:(lia)) as [E1 E2].
    rewrite <- Hu in E1, E2. fold u in E2. rewrite <- E1. rewrite <- E2.
    rewrite time_t_of_double_exact; [reflexivity|].
    change (2 ^ 63) with 9223372036854775808. lia.
  - destruct (Z.ltb_spec z 0) as [Hz0|Hz0]; [lia|].
    destruct (seconds_and_microseconds u ip z ltac:(lia) ltac:(lia))
      as [E1 E2].
    rewrite <- Hu in E1, E2. fold u in E2. rewrite <- E1. rewrite <- E2.
    rewrite time_t_of_double_exact; [reflexivity|].
    change (2 ^ 63) with 9223372036854775808. lia.
Qed.

(** Before the epoch every operation gives the opposite of what it gives
    for [- x], and the decoder borrows one second when the fraction is
    not zero. *)
Lemma decode_seconds_neg (x : Z) :
  - 2 ^ 55 < x < 0 -> x mod 10 = 0 ->
  exists f,
    int_truediv_float x f_1e7 = Ok f
    /\ utcfromtimestamp (TsFloat f)
       = datetime_from_timet_and_us (x / 10000000) (x / 10 mod 1000000).
Proof.
  intros Hx Hmod.
  destruct x as [|px|px]; try lia.
  assert (Hpos : Zpos px < 2 ^ 55) by lia.
  assert (Hmodp : Zpos px mod 10 = 0).
  { apply Z.mod_divide; [lia|]. apply Z.mod_divide in Hmod; [|lia].
    destruct Hmod as [k Hk]. exists (- k). lia. }
  destruct (decode_parts px Hpos Hmodp)
    as (mF & eF & ms & es & z & EF & Es & Hes & Ez & Eu & Hz).
  assert (Hu : Zpos px = 10 * (Zpos px / 10)).
  { pose proof (Z.div_mod (Zpos px) 10 ltac:(lia)). lia. }
  unfold int_truediv_float, float_of_int. cbn [binary_normalize].
  rewrite binary_round_true, EF. cbn [SFopp negb rbind].
  rewrite f_1e7_value, SFdiv_true. rewrite f_1e7_value in Es. rewrite Es.
  cbn [SFopp negb]. eexists. split; [reflexivity|].
  unfold utcfromtimestamp. rewrite modf_true by exact Hes.
  rewrite f_1e6_value, SFmul_opp, round_half_even_opp.
  rewrite f_1e6_value in Ez. rewrite Ez.
  set (ip := Zpos ms / 2 ^ (- es)) in *.
  set (u := Zpos px / 10) in *.
  assert (Hneg : Zneg px = 10 * (- u)) by lia.
  assert (Hip : 0 <= ip < 2 ^ 62).
  { change (2 ^ 55) with 36028797018963968 in Hpos.
    change (2 ^ 62) with 4611686018427387904. lia. }
  change (2 ^ 62) with 4611686018427387904 in Hip.
  destruct (Z.leb_spec 1000000 (- z)) as [Hz1|Hz1]; [lia|].
  destruct (Z.ltb_spec (- z) 0) as [Hz0|Hz0].
  - destruct (seconds_and_microseconds (- u) (- ip - 1) (- z + 1000000)
                ltac:(lia) ltac:(lia)) as [E1 E2].
    rewrite <- Hneg in E1, E2. rewrite <- E1. rewrite <- E2.
    rewrite time_t_of_double_exact; [reflexivity|].
    change (2 ^ 63) with 9223372036854775808. lia.
  - assert (Hz00 : z = 0) by lia. rewrite Hz00. change (- 0) with 0.
    destruct (seconds_and_microseconds (- u) (- ip) 0
                ltac:(lia) ltac:(lia)) as [E1 E2].
    rewrite <- Hneg in E1, E2. rewrite <- E1. rewrite <- E2.
    rewrite time_t_of_double_exact; [reflexivity|].
    change (2 ^ 63) with 9223372036854775808. lia.
Qed.

(** Both sides of the epoch, and the epoch itself. *)
Lemma decode_seconds_signed (x : Z) :
  - 2 ^ 55 < x < 2 ^ 55 -> x mod 10 = 0 ->
  exists f,
    int_truediv_float x f_1e7 = Ok f
    /\ utcfromtimestamp (TsFloat f)
       = datetime_from_timet_and_us (x / 10000000) (x / 10 mod 1000000).
Proof.
  intros Hx Hmod.
  destruct (Z.lt_trichotomy x 0) as [Hn|[->|Hp]].
  - apply decode_seconds_neg; [lia|exact Hmod].
  - eexists. split; reflexivity.
  - apply decode_seconds; [lia|exact Hmod].
Qed.

(** ** The calendar between 1855 and 2084 *)

Lemma days_ok_sound (k : nat) (n0 : Z) :
  days_ok k n0 = true ->
  forall n, n0 <= n < n0 + Z.of_nat k -> day_ok n = true.
Proof.
  revert n0. induction k as [|k IH]; intros n0 H n Hn; [lia|].
  cbn [days_ok] in H. destruct (day_ok n0) eqn:Hk; [|discriminate].
  destruct (Z.eq_dec n n0) as [->|Hne]; [exact Hk|].
  apply (IH (n0 + 1)); [exact H|lia].
Qed.

Lemma days_ok_41700 : days_ok (Z.to_nat 41700) 0 = true.
Proof. vm_compute. reflexivity. Qed.

Lemma days_ok_before_1970 : days_ok (Z.to_nat 41700) (- 41700) = true.
Proof. vm_compute. reflexivity. Qed.

Lemma day_ok_1855_2084 (n : Z) : - 41700 <= n < 41700 -> day_ok n = true.
Proof.
  intros Hn. destruct (Z.lt_ge_cases n 0) as [H|H].
  - apply (days_ok_sound (Z.to_nat 41700) (- 41700) days_ok_before_1970).
    rewrite Z2Nat.id by lia. lia.
  - apply (days_ok_sound (Z.to_nat 41700) 0 days_ok_41700).
    rewrite Z2Nat.id by lia. lia.
Qed.

(** In that window the calendar fields the decoder builds encode back to
    the same instant. *)
Lemma encode_after_decode (sec us : Z) :
  - 41700 * 86400 <= sec < 41700 * 86400 -> 0 <= us < 1000000 ->
  exists dt,
    datetime_from_timet_and_us sec us = Ok dt
    /\ datetime_to_ticks dt = Ok ((sec * 1000000 + us) * 10 + _EPOCH).
Proof.
  intros Hsec Hus. unfold datetime_from_timet_and_us.
  assert (Hn : - 41700 <= sec / 86400 < 41700).
  { split; [apply Z.div_le_lower_bound; lia|apply Z.div_lt_upper_bound; lia]. }
  pose proof (day_ok_1855_2084 _ Hn) as Hday. unfold day_ok in Hday.
  destruct (_ord2ymd (EPOCH_ORDINAL + sec / 86400)) as [[y m] d].
  apply andb_true_iff in Hday. destruct Hday as [Hy Hord].
  apply andb_true_iff in Hy. destruct Hy as [Hy1 Hy2].
  apply Z.leb_le in Hy1, Hy2. apply Z.eqb_eq in Hord.
  unfold MINYEAR, MAXYEAR in *.
  replace ((sec <? - 2 ^ 63) || (2 ^ 63 <=? sec)) with false.
  2:{ symmetry. apply orb_false_iff. split.
      - apply Z.ltb_ge. change (2 ^ 63) with 9223372036854775808. lia.
      - apply Z.leb_gt. change (2 ^ 63) with 9223372036854775808. lia. }
  replace ((y - 1900 <? - 2 ^ 31) || (2 ^ 31 <=? y - 1900)) with false.
  2:{ symmetry. apply orb_false_iff. split.
      - apply Z.ltb_ge. change (2 ^ 31) with 2147483648. lia.
      - apply Z.leb_gt. change (2 ^ 31) with 2147483648. lia. }
  replace ((y <? 1) || (9999 <? y)) with false.
  2:{ symmetry. apply orb_false_iff. split.
      - apply Z.ltb_ge. lia.
      - apply Z.ltb_ge. lia. }
  eexists. split; [reflexivity|].
  unfold datetime_to_ticks. cbn [tzinfo].
  rewrite utcfromtimestamp_0. cbn [rbind].
  match goal with
  | |- context [datetime_sub ?a unix_epoch] =>
      destruct (datetime_sub_naive a unix_epoch eq_refl eq_refl)
        as (td & Etd & _ & _ & Htot)
  end.
  rewrite Etd. cbn [rbind]. f_equal. rewrite Htot.
  unfold total_microseconds, toordinal.
  cbn [year month day hour minute second microsecond unix_epoch].
  rewrite Hord.
  change (_ymd2ord 1970 1 1) with 719163. unfold EPOCH_ORDINAL.
  pose proof (Z.div_mod sec 86400 ltac:(lia)) as E1.
  pose proof (Z.div_mod (sec mod 86400) 3600 ltac:(lia)) as E2.
  pose proof (Z.div_mod (sec mod 86400 mod 3600) 60 ltac:(lia)) as E3.
  pose proof (Z.mod_mod_divide (sec mod 86400) 3600 60
                ltac:(exists 60; reflexivity)) as E4.
  rewrite E4 in E3. lia.
Qed.

(** The decoder maps [_EPOCH] to the Unix epoch. *)
Lemma ticks_to_datetime_epoch : ticks_to_datetime _EPOCH = Ok unix_epoch.
Proof. vm_compute. reflexivity. Qed.

(* ===================================================================== *)
(** * The tick/datetime round trip: where it holds *)
(* ===================================================================== *)

(** The two multiples of 10 beyond [2^55] ticks from the epoch that
    still make the round trip. *)
Lemma round_trip_at_the_edges :
  (ticks_to_datetime 657384765018963970
   = Ok (mkDatetime 2084 3 2 23 55 1 896397 None)
   /\ datetime_to_ticks (mkDatetime 2084 3 2 23 55 1 896397 None)
      = Ok 657384765018963970)
  /\ (ticks_to_datetime 585327170981036030
      = Ok (mkDatetime 1855 10 31 0 4 58 103603 None)
      /\ datetime_to_ticks (mkDatetime 1855 10 31 0 4 58 103603 None)
         = Ok 585327170981036030).
Proof. repeat split; vm_compute; reflexivity. Qed.

(** C2, amended.  For every multiple of 10 strictly between the two
    nearest tick values at which the round trip fails,
    [_EPOCH - 2^55 - 12] and [_EPOCH + 2^55 + 12] (so from 1855-10-31
    00:04:58.103603 to 2084-03-02 23:55:01.896397, before and after the
    Unix epoch alike), decoding the tick value and encoding the result
    gives the tick value back. *)
Theorem round_trip_1855_2084 (t : Z) :
  t mod 10 = 0 ->
  621355968000000000 - 2 ^ 55 - 12 < t < 621355968000000000 + 2 ^ 55 + 12 ->
  exists dt, ticks_to_datetime t = Ok dt /\ datetime_to_ticks dt = Ok t.
Proof.
  intros Hmod Ht. fold _EPOCH in Ht.
  set (x := t - _EPOCH).
  assert (Hxm : x mod 10 = 0).
  { unfold x, _EPOCH.
    replace (t - 621355968000000000)
      with (t + (-62135596800000000) * 10) by lia.
    rewrite Z.mod_add by lia. exact Hmod. }
  assert (Hxu : x = 10 * (x / 10)).
  { pose proof (Z.div_mod x 10 ltac:(lia)). lia. }
  change (2 ^ 55) with 36028797018963968 in Ht.
  destruct (Z.le_gt_cases 36028797018963968 x) as [Hhi|Hhi].
  { assert (t = 657384765018963970) as -> by (unfold x, _EPOCH in *; lia).
    destruct round_trip_at_the_edges as [[E1 E2] _]. eauto. }
  destruct (Z.le_gt_cases x (- 36028797018963968)) as [Hlo|Hlo].
  { assert (t = 585327170981036030) as -> by (unfold x, _EPOCH in *; lia).
    destruct round_trip_at_the_edges as [_ [E1 E2]]. eauto. }
  assert (Hx : - 2 ^ 55 < x < 2 ^ 55).
  { change (2 ^ 55) with 36028797018963968. lia. }
  destruct (decode_seconds_signed x Hx Hxm) as (f & Ef & Eu).
  unfold ticks_to_datetime. fold x. rewrite Ef. cbn [rbind]. rewrite Eu.
  assert (Hdd : x / 10000000 = x / 10 / 1000000).
  { rewrite Z.div_div by lia. reflexivity. }
  pose proof (Z.div_mod (x / 10) 1000000 ltac:(lia)) as Edm.
  pose proof (Z.mod_pos_bound (x / 10) 1000000 ltac:(lia)) as Hus.
  assert (Hsec : - 41700 * 86400 <= x / 10000000 < 41700 * 86400).
  { split; [apply Z.div_le_lower_bound; lia|apply Z.div_lt_upper_bound; lia]. }
  destruct (encode_after_decode (x / 10000000) (x / 10 mod 1000000)
              Hsec Hus) as (dt & Ed & Et).
  exists dt. split; [exact Ed|]. rewrite Et. f_equal. unfold x in *. lia.
Qed.

Lemma round_trip_1855_2084_witness :
  exists dt, ticks_to_datetime 599266080012345670 = Ok dt
             /\ datetime_to_ticks dt = Ok 599266080012345670.
Proof.
  apply (round_trip_1855_2084 599266080012345670).
  - reflexivity.
  - split; vm_compute; reflexivity.
Defined.

(* ===================================================================== *)
(** * Line terminators *)
(* ===================================================================== *)

Lemma rstrip_crlf_terminators (term : string) :
  string_forallb is_crlf term = true -> rstrip_crlf term = "".
Proof.
  induction term as [|c r IH]; intros H; [reflexivity|].
  cbn [string_forallb] in H. apply andb_true_iff in H. destruct H as [Hc Hr].
  cbn [rstrip_crlf]. rewrite (IH Hr). unfold is_crlf in Hc. rewrite Hc.
  reflexivity.
Qed.

Lemma rstrip_crlf_app (s term : string) :
  string_forallb is_crlf term = true ->
  rstrip_crlf (s ++ term) = rstrip_crlf s.
Proof.
  intros H. induction s as [|c r IH].
  - cbn [append]. rewrite (rstrip_crlf_terminators term H). reflexivity.
  - cbn [append rstrip_crlf]. rewrite IH. reflexivity.
Qed.

(** What [rstrip] removes is a run of carriage returns and line feeds. *)
Lemma rstrip_crlf_decompose (l : string) :
  exists term,
    l = rstrip_crlf l ++ term /\ string_forallb is_crlf term = true.
Proof.
  induction l as [|c r IH].
  - exists "". split; reflexivity.
  - destruct IH as (term & E & Ht). cbn [rstrip_crlf].
    destruct (rstrip_crlf r) as [|c' r'] eqn:Er.
    + cbn [append] in E. subst r.
      destruct (Ascii.eqb c CR || Ascii.eqb c LF) eqn:Hc.
      * exists (String c term). split; [reflexivity|].
        cbn [string_forallb]. rewrite Ht. unfold is_crlf. rewrite Hc.
        reflexivity.
      * exists term. split; [reflexivity|exact Ht].
    + exists term. split; [|exact Ht]. rewrite E at 1. reflexivity.
Qed.

(** X1.  Set succeeds exactly when the answer is [ok] followed by nothing
    but carriage returns and line feeds; on any other answer, and at end
    of file, it raises [Exception("Invalid data")].  Either way it has
    written its one request and consumed one answer. *)
Theorem set_result_by_answer (E : env) (type path : string) (v : pyobj)
        (w : world) :
  (fst (_set_some_time E type path v w) = Ok tt
   <-> exists term, next_line w = "ok" ++ term
                    /\ string_forallb is_crlf term = true)
  /\ (fst (_set_some_time E type path v w) = Ok tt
      \/ fst (_set_some_time E type path v w)
         = Raise (Exception_ "Invalid data"))
  /\ snd (_set_some_time E type path v w)
     = mkWorld (trace w ++ [Write (set_request E type path v)])%list
               (tl (child_stdout w)).
Proof.
  rewrite _set_some_time_unfold. cbv zeta.
  destruct (String.eqb_spec (rstrip_crlf (next_line w)) "ok") as [Heq|Hne];
    cbn [fst snd].
  - split; [|split; [left; reflexivity|reflexivity]].
    split; [intros _|reflexivity].
    destruct (rstrip_crlf_decompose (next_line w)) as (term & E1 & Ht).
    exists term. rewrite Heq in E1. auto.
  - split; [|split; [right; reflexivity|reflexivity]].
    split; [discriminate|]. intros (term & E1 & Ht). exfalso. apply Hne.
    rewrite E1. rewrite (rstrip_crlf_app "ok" term Ht). reflexivity.
Qed.

Lemma split_no_tab (s : string) :
  string_forallb (fun c => negb (Ascii.eqb c TAB)) s = true ->
  split TAB s = [s].
Proof.
  induction s as [|c r IH]; intros H; [reflexivity|].
  cbn [string_forallb] in H. apply andb_true_iff in H. destruct H as [Hc Hr].
  cbn [split]. apply negb_true_iff in Hc. rewrite Hc, (IH Hr). reflexivity.
Qed.

Lemma rstrip_crlf_keeps (p s : string) :
  rstrip_crlf p = p -> rstrip_crlf s = s -> rstrip_crlf (p ++ s) = p ++ s.
Proof.
  intros Hp Hs. induction p as [|a p IH]; [exact Hs|].
  cbn [rstrip_crlf] in Hp. cbn [append rstrip_crlf].
  destruct (rstrip_crlf p) as [|b q] eqn:Ep.
  - destruct (Ascii.eqb a CR || Ascii.eqb a LF) eqn:Ha; [discriminate|].
    injection Hp as <-. cbn [append]. rewrite Hs.
    destruct s; reflexivity.
  - injection Hp as Hq. rewrite (IH Hq). rewrite <- Hq. reflexivity.
Qed.

(** X2.  Get does not care how the answer line is terminated: on [ok], a
    tab, a token [s] free of tabs that does not end in a carriage return
    or line feed, and then any run of carriage returns and line feeds
    (none, LF, CR LF, ...), it returns what [int] makes of [s]. *)
Theorem get_ignores_line_terminator (E : env) (type path : string)
        (w : world) (s term : string) (rest : list string) :
  child_stdout w = ("ok" ++ tab ++ s ++ term) :: rest ->
  string_forallb (fun c => negb (Ascii.eqb c TAB)) s = true ->
  rstrip_crlf s = s ->
  string_forallb is_crlf term = true ->
  fst (_get_some_time E type path w)
  = match py_int E s with
    | Some n => Ok n
    | None => Raise (ValueError "invalid literal for int()")
    end.
Proof.
  intros Hw Htab Hs Hterm. rewrite _get_some_time_unfold.
  unfold next_line. rewrite Hw.
  replace ("ok" ++ tab ++ s ++ term) with (("ok" ++ tab ++ s) ++ term)
    by reflexivity.
  rewrite (rstrip_crlf_app _ term Hterm).
  replace ("ok" ++ tab ++ s) with (("ok" ++ tab) ++ s) by reflexivity.
  rewrite (rstrip_crlf_keeps ("ok" ++ tab) s eq_refl Hs).
  assert (Hsp : split TAB (("ok" ++ tab) ++ s) = ["ok"; s]).
  { change (("ok" ++ tab) ++ s) with (String "o" (String "k" (String TAB s))).
    cbn [split]. change (Ascii.eqb "o" TAB) with false.
    change (Ascii.eqb "k" TAB) with false.
    change (Ascii.eqb TAB TAB) with true. cbv iota.
    rewrite (split_no_tab s Htab). reflexivity. }
  rewrite Hsp. cbn. destruct (py_int E s); reflexivity.
Qed.

Lemma get_ignores_line_terminator_witness :
  fst (_get_some_time (test_env []) "Access" "test.txt"
         (mkWorld [] [("ok" ++ tab ++ "637134336000000000"
                       ++ String CR (String LF ""))]))
  = match py_int (test_env []) "637134336000000000" with
    | Some n => Ok n
    | None => Raise (ValueError "invalid literal for int()")
    end.
Proof.
  apply (get_ignores_line_terminator (test_env []) "Access" "test.txt"
           _ "637134336000000000" (String CR (String LF "")) []);
    reflexivity.
Defined.

(* ===================================================================== *)
(** * The discipline of the channel *)
(* ===================================================================== *)





















(* ===================================================================== *)
(** * When the usage text is printed *)
(* ===================================================================== *)

Lemma benign_set (E : env) (type path : string) (v : pyobj) :
  benign (_set_some_time E type path v).
Proof.
  unfold _set_some_time.
  apply benign_bind; [apply benign_emit; split; discriminate|intros _].
  apply benign_bind; [apply benign_readline|intros line].
  destruct (negb _); [apply benign_raise; reflexivity|apply benign_ret].
Qed.

Lemma benign_for_each {A} (l : list A) (body : A -> M unit) :
  (forall a, benign (body a)) -> benign (for_each l body).
Proof.
  intros H. induction l as [|x l IH]; cbn [for_each].
  - apply benign_ret.
  - apply benign_bind; [apply H|intros _; exact IH].
Qed.

Lemma benign_apply_command (E : env) (path : string) (date : datetime)
      (c : ascii) :
  benign (apply_command E path date c).
Proof.
  unfold apply_command, set_modification_time, set_access_time,
    set_creation_time.
  repeat match goal with
         | |- benign (if ?b then _ else _) => destruct b
         end;
    try apply benign_set; try apply benign_ret.
  apply benign_emit. split; discriminate.
Qed.

(** Once the flags are accepted nothing leads to the usage text any
    more: the test [if not date] after the parse can never fire. *)
Lemma benign_main_mutate (E : env) (path : string) (commands : list ascii) :
  benign (main_mutate E path commands).
Proof.
  unfold main_mutate.
  apply benign_bind.
  { unfold index. destruct (nth_error _ _);
      [apply benign_ret|apply benign_raise; reflexivity]. }
  intros arg. apply benign_bind.
  { destruct (strptime E arg);
      [apply benign_ret|apply benign_raise; reflexivity]. }
  intros date. cbn [datetime_bool negb when].
  apply benign_bind; [apply benign_ret|intros _].
  apply benign_bind;
    [apply benign_for_each; intros c; apply benign_apply_command|intros _].
  destruct (char_in "p" commands); cbn [when]; [|apply benign_ret].
  apply benign_bind; [|intros _; apply benign_show_times].
  apply benign_emit. split; discriminate.
Qed.

Lemma forallb_false_inv {A} (f : A -> bool) (l : list A) :
  forallb f l = false -> exists x, In x l /\ f x = false.
Proof.
  induction l as [|a l IH]; [discriminate|]. cbn [forallb].
  destruct (f a) eqn:Ha; cbn [andb].
  - intros H. destruct (IH H) as (x & Hin & Hx). exists x. split; [right|]; auto.
  - intros _. exists a. split; [left|]; auto.
Qed.

Lemma main_body_too_few (E : env) (w : world) :
  (List.length (argv E) <? 3)%nat = true ->
  main_body E w
  = (Raise (SystemExit 1),
     mkWorld (trace w ++ [Print usage_line1; Print usage_line2])%list
             (child_stdout w)).
Proof.
  intros H. unfold main_body. rewrite H. cbn [when].
  apply bind_raise. apply usage_run.
Qed.

(** What the body of [main] does on a command line it rejects. *)
Lemma main_body_rejects (E : env) (answers : list string) :
  command_line_ok E = false ->
  exists pre,
    (pre = [] \/ pre = [Print debug_line])
    /\ main_body E (mkWorld [Popen _EXECUTABLE_PATH] answers)
       = (Raise (SystemExit 1),
          mkWorld (Popen _EXECUTABLE_PATH :: pre
                   ++ [Print usage_line1; Print usage_line2])%list
                  answers).
Proof.
  unfold command_line_ok. intros Hok.
  destruct (argv E) as [|prog [|path [|flags rest]]] eqn:Ha.
  1-3: exists []; split; [auto|];
       rewrite main_body_too_few by (rewrite Ha; reflexivity); reflexivity.
  destruct (isfile E path && startswith_dash flags) eqn:Hfd.
  - cbn [andb] in Hok. apply forallb_false_inv in Hok.
    destruct Hok as (c & Hin & Hc).
    apply andb_true_iff in Hfd. destruct Hfd as [Hf Hd].
    exists [Print debug_line]. split; [auto|].
    rewrite (main_body_checked E _ prog path flags rest Ha Hf Hd).
    cbv zeta. cbn [trace child_stdout app].
    apply bind_raise. rewrite (check_commands_bad _ _ c Hin Hc).
    reflexivity.
  - exists []. split; [auto|].
    rewrite (main_body_usage_early E _ prog path flags rest Ha Hfd).
    reflexivity.
Qed.

(** What it does on one it accepts: it goes past the flag check and
    never comes back to the usage text. *)
Lemma main_body_accepts (E : env) (answers : list string) :
  command_line_ok E = true ->
  exists evs,
    trace (snd (main_body E (mkWorld [Popen _EXECUTABLE_PATH] answers)))
    = (Popen _EXECUTABLE_PATH :: Print debug_line :: evs)%list
    /\ Forall not_usage evs
    /\ forall c, fst (main_body E (mkWorld [Popen _EXECUTABLE_PATH] answers))
                 <> Raise (SystemExit c).
Proof.
  unfold command_line_ok. intros Hok.
  destruct (argv E) as [|prog [|path [|flags rest]]] eqn:Ha;
    try discriminate.
  apply andb_true_iff in Hok. destruct Hok as [Hfd Hv].
  apply andb_true_iff in Hfd. destruct Hfd as [Hf Hd].
  rewrite (main_body_checked E _ prog path flags rest Ha Hf Hd).
  cbv zeta. cbn [trace child_stdout app].
  erewrite bind_ok; [|apply check_commands_ok; exact Hv].
  set (commands := tl (list_ascii_of_string flags)).
  set (w0 := mkWorld [Popen _EXECUTABLE_PATH; Print debug_line] answers).
  assert (Hb : benign
                 (if char_in "p" commands then
                    (show_times E path ;;
                     if (List.length commands =? 1)%nat then ret tt
                     else main_mutate E path commands)
                  else main_mutate E path commands)).
  { destruct (char_in "p" commands); [|apply benign_main_mutate].
    apply benign_bind; [apply benign_show_times|intros _].
    destruct (_ =? _)%nat; [apply benign_ret|apply benign_main_mutate]. }
  destruct (Hb w0) as (Hr & evs & Ht & Hev).
  exists evs. rewrite Ht. repeat split; auto.
Qed.

(** X4.  Exactly the rejected command lines lead to the usage text.
    With an accessor that starts: if there are fewer than three
    arguments, or the path is not a file, or the flag token does not
    start with a dash or has a letter outside [pmacb], the program prints
    the usage text as its last output, sends no request and ends with
    status 1; otherwise it prints its debug line, never prints the usage
    text and never leaves through [sys.exit]. *)
Theorem usage_iff_rejected (E : env) (answers : list string) :
  executable_found E = true ->
  (command_line_ok E = false ->
   exit_status (fst (run E answers)) = 1
   /\ (exists pre,
         (pre = [] \/ pre = [Print debug_line])
         /\ trace (snd (run E answers))
            = (Popen _EXECUTABLE_PATH :: pre
               ++ [Print usage_line1; Print usage_line2; Close])%list)
   /\ child_stdout (snd (run E answers)) = answers)
  /\ (command_line_ok E = true ->
      (exists evs,
         trace (snd (run E answers))
         = (Popen _EXECUTABLE_PATH :: Print debug_line :: evs ++ [Close])%list
         /\ Forall not_usage evs)
      /\ forall c, fst (run E answers) <> Raise (SystemExit c)).
Proof.
  intros Hx. unfold run, main. rewrite (with_accessor_run E _ _ Hx).
  cbn [trace child_stdout app]. split; intros Hok.
  - destruct (main_body_rejects E answers Hok) as (pre & Hpre & Hb).
    rewrite Hb. cbn [trace child_stdout].
    destruct (returncode E =? 0); cbn [fst snd trace child_stdout];
      (split; [reflexivity|]); (split; [|reflexivity]);
      exists pre; (split; [exact Hpre|]);
      cbn [app]; rewrite <- app_assoc; reflexivity.
  - destruct (main_body_accepts E answers Hok) as (evs & Ht & Hev & Hr).
    destruct (main_body E _) as [r w1]. cbn [fst snd] in *.
    destruct (returncode E =? 0); cbn [fst snd trace child_stdout];
      rewrite Ht; (split; [exists evs; split; [reflexivity|exact Hev]|]).
    + exact Hr.
    + discriminate.
Qed.

Lemma usage_iff_rejected_witness :
  exit_status (fst (run (test_env ["./timestomp.py"; "missing.txt"; "-p"]) []))
  = 1
  /\ (exists pre,
        (pre = [] \/ pre = [Print debug_line])
        /\ trace (snd (run (test_env ["./timestomp.py"; "missing.txt"; "-p"])
                           []))
           = (Popen _EXECUTABLE_PATH :: pre
              ++ [Print usage_line1; Print usage_line2; Close])%list)
  /\ child_stdout (snd (run (test_env ["./timestomp.py"; "missing.txt"; "-p"])
                            [])) = [].
Proof.
  apply (proj1 (usage_iff_rejected
                  (test_env ["./timestomp.py"; "missing.txt"; "-p"]) []
                  eq_refl)).
  reflexivity.
Defined.

(* ===================================================================== *)
(** * The loop that applies the flags *)
(* ===================================================================== *)


Lemma count_sets_cons (c : ascii) (l : list ascii) :
  count_sets (c :: l)
  = ((if is_set_command c then 1 else 0) + count_sets l)%nat.
Proof.
  unfold count_sets. cbn [filter]. destruct (is_set_command c); reflexivity.
Qed.

(** One letter whose request, if it sends one, is answered with [ok]. *)
Lemma apply_command_ok (E : env) (path : string) (date : datetime)
      (c : ascii) (w : world) (l : string) (rest : list string) :
  (is_set_command c = true -> child_stdout w = l :: rest /\ answers_ok l) ->
  apply_command E path date c w
  = (Ok tt,
     mkWorld (trace w ++ command_events E path date c)%list
             (if is_set_command c then rest else child_stdout w)).
Proof.
  unfold apply_command, command_events, is_set_command,
    set_modification_time, set_access_time, set_creation_time, answers_ok.
  intros H. destruct w as [tr out]. cbn [trace child_stdout] in *.
  destruct (Ascii.eqb c "m") eqn:Hm.
  { cbn [orb] in *. destruct (H eq_refl) as [Hw Hl].
    erewrite set_ok; [reflexivity|exact Hw|exact Hl]. }
  destruct (Ascii.eqb c "a") eqn:Ha.
  { cbn [orb] in *. destruct (H eq_refl) as [Hw Hl].
    erewrite set_ok; [reflexivity|exact Hw|exact Hl]. }
  destruct (Ascii.eqb c "c") eqn:Hc.
  { apply Ascii.eqb_eq in Hc. subst c. reflexivity. }
  destruct (Ascii.eqb c "b") eqn:Hb.
  { cbn [orb] in *. destruct (H eq_refl) as [Hw Hl].
    erewrite set_ok; [reflexivity|exact Hw|exact Hl]. }
  cbn [orb]. unfold ret. rewrite app_nil_r. reflexivity.
Qed.

(** The whole loop when every request is answered with [ok]: the
    requests go out in the order of the letters. *)
Lemma apply_commands_ok (E : env) (path : string) (date : datetime)
      (commands : list ascii) (w : world) (oks rest : list string) :
  child_stdout w = (oks ++ rest)%list ->
  List.length oks = count_sets commands ->
  Forall answers_ok oks ->
  for_each commands (apply_command E path date) w
  = (Ok tt,
     mkWorld (trace w ++ flat_map (command_events E path date) commands)%list
             rest).
Proof.
  revert w oks. induction commands as [|c cs IH]; intros w oks Hw Hlen Hok.
  - destruct oks; [|discriminate]. cbn [for_each flat_map].
    unfold ret. rewrite app_nil_r. destruct w. cbn in *. subst. reflexivity.
  - cbn [for_each flat_map]. rewrite count_sets_cons in Hlen.
    destruct (is_set_command c) eqn:Hc.
    + destruct oks as [|l oks]; [discriminate|].
      inversion Hok as [|? ? Hl Hoks]; subst.
      erewrite bind_ok.
      2:{ apply (apply_command_ok E path date c w l (oks ++ rest)).
          intros _. split; [exact Hw|exact Hl]. }
      rewrite Hc. erewrite IH; [|reflexivity| |exact Hoks].
      * cbn [trace]. rewrite app_assoc. reflexivity.
      * cbn in Hlen. lia.
    + erewrite bind_ok.
      2:{ apply (apply_command_ok E path date c w "" []).
          rewrite Hc. discriminate. }
      rewrite Hc. erewrite IH; [|exact Hw|exact Hlen|exact Hok].
      cbn [trace]. rewrite app_assoc. reflexivity.
Qed.





Lemma show_times_answered (E : env) (path : string) (w : world)
      (l1 l2 l3 : string) (rest : list string) (d1 d2 d3 : datetime) :
  child_stdout w = l1 :: l2 :: l3 :: rest ->
  answers_time E l1 d1 -> answers_time E l2 d2 -> answers_time E l3 d3 ->
  show_times E path w
  = (Ok tt, mkWorld (trace w ++ show_events E path d1 d2 d3)%list rest).
Proof.
  intros Hw (s1 & t1 & H1 & N1 & D1) (s2 & t2 & H2 & N2 & D2)
         (s3 & t3 & H3 & N3 & D3).
  exact (show_times_ok E path w l1 l2 l3 rest s1 s2 s3 t1 t2 t3 d1 d2 d3
           Hw H1 N1 H2 N2 H3 N3 D1 D2 D3).
Qed.

(** X6.  With [p] and at least one more letter among the flags, a date
    that parses and an accessor that answers every request: the driver
    first reads and prints the three times, then sends the Set requests
    in the order of the flag token, then prints the heading and reads
    and prints the three times again.  It sends six Get requests in all
    and consumes exactly one answer per request. *)
Theorem print_set_print (E : env) (prog path flags arg : string)
        (more : list string) (date : datetime)
        (l1 l2 l3 l4 l5 l6 : string) (oks rest : list string)
        (d1 d2 d3 d4 d5 d6 : datetime) :
  argv E = prog :: path :: flags :: arg :: more ->
  isfile E path = true ->
  startswith_dash flags = true ->
  forallb (fun c => char_in c valid_commands)
          (tl (list_ascii_of_string flags)) = true ->
  char_in "p" (tl (list_ascii_of_string flags)) = true ->
  List.length (tl (list_ascii_of_string flags)) <> 1%nat ->
  strptime E arg = Some date ->
  executable_found E = true ->
  returncode E = 0 ->
  answers_time E l1 d1 -> answers_time E l2 d2 -> answers_time E l3 d3 ->
  List.length oks = count_sets (tl (list_ascii_of_string flags)) ->
  Forall answers_ok oks ->
  answers_time E l4 d4 -> answers_time E l5 d5 -> answers_time E l6 d6 ->
  run E (l1 :: l2 :: l3 :: oks ++ l4 :: l5 :: l6 :: rest)
  = (Ok tt,
     mkWorld ([Popen _EXECUTABLE_PATH; Print debug_line]
              ++ show_events E path d1 d2 d3
              ++ flat_map (command_events E path date)
                          (tl (list_ascii_of_string flags))
              ++ [Print ("times for " ++ path ++ " changed to: ")]
              ++ show_events E path d4 d5 d6
              ++ [Close])%list
             rest).
Proof.
  intros Ha Hf Hd Hv Hp Hn Hs Hx Hrc A1 A2 A3 Hlen Hok A4 A5 A6.
  unfold run, main.
  rewrite (with_accessor_run E _ _ Hx). cbn [trace child_stdout app].
  rewrite (main_body_checked E _ prog path flags _ Ha Hf Hd).
  cbv zeta. erewrite bind_ok; [|apply check_commands_ok; exact Hv].
  rewrite Hp.
  erewrite bind_ok;
    [|apply (show_times_answered E path _ l1 l2 l3
               (oks ++ l4 :: l5 :: l6 :: rest) d1 d2 d3);
      [reflexivity|exact A1|exact A2|exact A3]].
  apply Nat.eqb_neq in Hn. rewrite Hn.
  unfold main_mutate.
  rewrite Ha. cbn [index nth_error]. unfold bind at 1. cbn [ret].
  rewrite Hs. unfold bind at 1. cbn [ret].
  unfold bind at 1. cbn [datetime_bool negb when ret].
  erewrite bind_ok;
    [|apply (apply_commands_ok E path date _ _ oks (l4 :: l5 :: l6 :: rest));
      [reflexivity|exact Hlen|exact Hok]].
  rewrite Hp. cbn [when]. unfold print at 1, emit at 1.
  unfold bind at 1. cbn [trace child_stdout].
  erewrite (show_times_answered E path _ l4 l5 l6 rest d4 d5 d6);
    [|reflexivity|exact A4|exact A5|exact A6].
  cbn [trace child_stdout]. rewrite Hrc. cbn [Z.eqb].
  f_equal. f_equal. cbn [app]. rewrite <- !app_assoc. reflexivity.
Qed.

Lemma print_set_print_witness :
  run (test_env ["./timestomp.py"; "test.txt"; "-pm";
                 "2000/02/28 13:03:30 +0000"])
      (("ok" ++ tab ++ "637134336000000000" ++ newline)%string
       :: ("ok" ++ tab ++ "637134336012345670" ++ newline)%string
       :: ("ok" ++ tab ++ "630873398100000000" ++ newline)%string
       :: [ok_line]
       ++ ("ok" ++ tab ++ "637134336000000000" ++ newline)%string
       :: ("ok" ++ tab ++ "630873398100000000" ++ newline)%string
       :: ("ok" ++ tab ++ "630873398100000000" ++ newline)%string
       :: [])%list
  = (Ok tt,
     mkWorld ([Popen _EXECUTABLE_PATH; Print debug_line]
              ++ show_events
                   (test_env ["./timestomp.py"; "test.txt"; "-pm";
                              "2000/02/28 13:03:30 +0000"])
                   "test.txt"
                   (mkDatetime 2020 1 1 0 0 0 0 None)
                   (mkDatetime 2020 1 1 0 0 1 234567 None)
                   (mkDatetime 2000 2 28 13 3 30 0 None)
              ++ flat_map
                   (command_events
                      (test_env ["./timestomp.py"; "test.txt"; "-pm";
                                 "2000/02/28 13:03:30 +0000"])
                      "test.txt"
                      (mkDatetime 2000 2 28 13 3 30 0 (Some 0)))
                   (tl (list_ascii_of_string "-pm"))
              ++ [Print ("times for " ++ "test.txt" ++ " changed to: ")]
              ++ show_events
                   (test_env ["./timestomp.py"; "test.txt"; "-pm";
                              "2000/02/28 13:03:30 +0000"])
                   "test.txt"
                   (mkDatetime 2020 1 1 0 0 0 0 None)
                   (mkDatetime 2000 2 28 13 3 30 0 None)
                   (mkDatetime 2000 2 28 13 3 30 0 None)
              ++ [Close])%list
             []).
Proof.
  apply (print_set_print
           (test_env ["./timestomp.py"; "test.txt"; "-pm";
                      "2000/02/28 13:03:30 +0000"])
           "./timestomp.py" "test.txt" "-pm" "2000/02/28 13:03:30 +0000" []);
    try reflexivity.
  - discriminate.
  - exists "637134336000000000", 637134336000000000.
    repeat split; vm_compute; reflexivity.
  - exists "637134336012345670", 637134336012345670.
    repeat split; vm_compute; reflexivity.
  - exists "630873398100000000", 630873398100000000.
    repeat split; vm_compute; reflexivity.
  - repeat constructor.
  - exists "637134336000000000", 637134336000000000.
    repeat split; vm_compute; reflexivity.
  - exists "630873398100000000", 630873398100000000.
    repeat split; vm_compute; reflexivity.
  - exists "630873398100000000", 630873398100000000.
    repeat split; vm_compute; reflexivity.
Defined.

(* ===================================================================== *)
(** * Decoding what the encoder returns *)
(* ===================================================================== *)

Lemma forall_range_sound (p : Z -> bool) (k : nat) (n0 : Z) :
  forall_range p k n0 = true ->
  forall n, n0 <= n < n0 + Z.of_nat k -> p n = true.
Proof.
  revert n0. induction k as [|k IH]; intros n0 H n Hn; [lia|].
  cbn [forall_range] in H. destruct (p n0) eqn:Hk; [|discriminate].
  destruct (Z.eq_dec n n0) as [->|Hne]; [exact Hk|].
  apply (IH (n0 + 1)); [exact H|lia].
Qed.

Lemma _days_in_month_nonneg (y m : Z) : 0 <= _days_in_month y m.
Proof.
  unfold _days_in_month. destruct ((m =? 2) && _is_leap y); [lia|].
  unfold _DAYS_IN_MONTH.
  destruct m as [|p|p]; try lia.
  do 4 (try destruct p as [p|p|]; try lia).
Qed.

Lemma dates_ok_sound (y0 : Z) (years : nat) :
  dates_ok y0 years = true ->
  forall y m d,
    y0 <= y < y0 + Z.of_nat years -> 1 <= m <= 12 ->
    1 <= d <= _days_in_month y m ->
    date_ok y m d = true.
Proof.
  unfold dates_ok. intros H y m d Hy Hm Hd.
  pose proof (forall_range_sound _ _ _ H y Hy) as H1. cbv beta in H1.
  pose proof (forall_range_sound _ _ _ H1 m ltac:(lia)) as H2. cbv beta in H2.
  apply (forall_range_sound _ _ _ H2 d).
  rewrite Z2Nat.id by apply _days_in_month_nonneg. lia.
Qed.

Lemma dates_ok_1970_2083 : dates_ok 1970 (Z.to_nat 114) = true.
Proof. vm_compute. reflexivity. Qed.

Lemma date_ok_1970_2083 (y m d : Z) :
  1970 <= y <= 2083 -> _check_date_fields y m d = true ->
  date_ok y m d = true.
Proof.
  intros Hy Hc. unfold _check_date_fields in Hc.
  repeat (apply andb_true_iff in Hc; destruct Hc as [Hc ?]).
  repeat match goal with H : (_ <=? _) = true |- _ => apply Z.leb_le in H end.
  apply (dates_ok_sound 1970 (Z.to_nat 114) dates_ok_1970_2083);
    [rewrite Z2Nat.id by lia; lia|lia|lia].
Qed.

Lemma time_of_day (h mi s : Z) :
  0 <= h <= 23 -> 0 <= mi <= 59 -> 0 <= s <= 59 ->
  let r := s + mi * 60 + h * 3600 in
  0 <= r < 86400 /\ r / 3600 = h /\ r mod 3600 / 60 = mi /\ r mod 60 = s.
Proof.
  intros Hh Hmi Hs r. unfold r.
  assert (E1 : (s + mi * 60 + h * 3600) / 3600 = h).
  { symmetry. apply (Z.div_unique _ _ _ (s + mi * 60)); lia. }
  assert (E2 : (s + mi * 60 + h * 3600) mod 3600 = s + mi * 60).
  { symmetry. apply (Z.mod_unique _ _ h); lia. }
  assert (E3 : (s + mi * 60 + h * 3600) mod 60 = s).
  { symmetry. apply (Z.mod_unique _ _ (mi + h * 60)); lia. }
  repeat split; try lia.
  rewrite E2. symmetry. apply (Z.div_unique _ _ _ s); lia.
Qed.

(** X8.  Decoding undoes encoding: for a naive timestamp of the years
    1970 to 2083 whose fields are in the ranges of the [datetime]
    constructor, the encoder returns a tick count and the decoder, given
    that tick count, returns the same timestamp, microseconds
    included. *)
Theorem decode_after_encode (dt : datetime) :
  constructible dt = true ->
  tzinfo dt = None ->
  1970 <= year dt <= 2083 ->
  exists t, datetime_to_ticks dt = Ok t /\ ticks_to_datetime t = Ok dt.
Proof.
  intros Hc Hn Hy. unfold constructible in Hc.
  apply andb_true_iff in Hc. destruct Hc as [Hdate Htime].
  pose proof (date_ok_1970_2083 _ _ _ Hy Hdate) as Hok.
  unfold _check_time_fields in Htime.
  repeat (apply andb_true_iff in Htime; destruct Htime as [Htime ?]).
  repeat match goal with H : (_ <=? _) = true |- _ => apply Z.leb_le in H end.
  destruct dt as [y m d h mi s us tz]. cbn [year month day hour minute second
    microsecond tzinfo] in *. subst tz.
  unfold date_ok in Hok.
  destruct (_ord2ymd (_ymd2ord y m d)) as [[y' m'] d'] eqn:Hord.
  apply andb_true_iff in Hok. destruct Hok as [Hwin Hsame].
  apply andb_true_iff in Hwin. destruct Hwin as [Hlo Hhi].
  apply andb_true_iff in Hsame. destruct Hsame as [Hsame Ed'].
  apply andb_true_iff in Hsame. destruct Hsame as [Ey' Em'].
  apply Z.eqb_eq in Ey', Em', Ed'. apply Z.leb_le in Hlo.
  apply Z.ltb_lt in Hhi. subst y' m' d'.
  set (n := _ymd2ord y m d - EPOCH_ORDINAL).
  assert (Hnr : 0 <= n < 41638) by (unfold n; lia).
  destruct (time_of_day h mi s ltac:(lia) ltac:(lia) ltac:(lia))
    as (Hr & Eh & Emi & Es).
  set (r := s + mi * 60 + h * 3600) in *.
  set (dt := mkDatetime y m d h mi s us None).
  destruct (datetime_to_ticks_naive dt eq_refl) as (delta & Ed & Et).
  destruct (datetime_sub_naive dt unix_epoch eq_refl eq_refl)
    as (delta' & Ed' & _ & _ & Etot).
  rewrite Ed in Ed'. injection Ed' as <-.
  assert (Eu : total_microseconds dt - total_microseconds unix_epoch
               = 1000000 * (n * 86400 + r) + us).
  { unfold total_microseconds, toordinal, dt, unix_epoch, n, r.
    cbn [year month day hour minute second microsecond].
    change (_ymd2ord 1970 1 1) with EPOCH_ORDINAL. lia. }
  rewrite Eu in Etot. rewrite Etot in Et.
  set (u := 1000000 * (n * 86400 + r) + us) in *.
  exists (u * 10 + _EPOCH). split; [exact Et|].
  set (sec := n * 86400 + r) in *.
  assert (Hsec : 0 <= sec < 41638 * 86400) by (unfold sec; lia).
  assert (Edecode :
    datetime_from_timet_and_us sec us = Ok dt).
  { unfold datetime_from_timet_and_us.
    assert (Eq : sec / 86400 = n).
    { symmetry. apply (Z.div_unique _ _ _ r); unfold sec; lia. }
    assert (Er : sec mod 86400 = r).
    { symmetry. apply (Z.mod_unique _ _ n); unfold sec; lia. }
    rewrite Eq, Er.
    replace (EPOCH_ORDINAL + n) with (_ymd2ord y m d) by (unfold n; lia).
    rewrite Hord.
    replace ((sec <? - 2 ^ 63) || (2 ^ 63 <=? sec)) with false.
    2:{ symmetry. apply orb_false_iff. split.
        - apply Z.ltb_ge. change (2 ^ 63) with 9223372036854775808. lia.
        - apply Z.leb_gt. change (2 ^ 63) with 9223372036854775808. lia. }
    replace ((y - 1900 <? - 2 ^ 31) || (2 ^ 31 <=? y - 1900)) with false.
    2:{ symmetry. apply orb_false_iff. split.
        - apply Z.ltb_ge. change (2 ^ 31) with 2147483648. lia.
        - apply Z.leb_gt. change (2 ^ 31) with 2147483648. lia. }
    replace ((y <? MINYEAR) || (MAXYEAR <? y)) with false.
    2:{ symmetry. unfold MINYEAR, MAXYEAR. apply orb_false_iff. split.
        - apply Z.ltb_ge. lia.
        - apply Z.ltb_ge. lia. }
    rewrite Eh, Emi, Es. reflexivity. }
  destruct (Z.eq_dec u 0) as [Hu0|Hu0].
  - assert (sec = 0 /\ us = 0) as [Hs0 Hus0] by (unfold u in Hu0; lia).
    rewrite Hu0. change (0 * 10 + _EPOCH) with _EPOCH.
    rewrite ticks_to_datetime_epoch. rewrite <- Edecode, Hs0, Hus0.
    reflexivity.
  - set (x := 10 * u).
    assert (Hx : 0 < x < 2 ^ 55).
    { change (2 ^ 55) with 36028797018963968. unfold x, u. lia. }
    assert (Hxm : x mod 10 = 0).
    { unfold x. rewrite Z.mul_comm. apply Z.mod_mul. lia. }
    destruct (decode_seconds x Hx Hxm) as (f & Ef & Eutc).
    destruct (seconds_and_microseconds u sec us eq_refl ltac:(lia))
      as (Esec & Eus).
    fold x in Esec, Eus.
    unfold ticks_to_datetime.
    replace (u * 10 + _EPOCH - _EPOCH) with x by (unfold x; lia).
    rewrite Ef. cbn [rbind]. rewrite Eutc, <- Esec, <- Eus. exact Edecode.
Qed.

Lemma decode_after_encode_witness :
  exists t, datetime_to_ticks (mkDatetime 2000 2 29 23 59 59 999999 None) = Ok t
            /\ ticks_to_datetime t
               = Ok (mkDatetime 2000 2 29 23 59 59 999999 None).
Proof.
  apply (decode_after_encode (mkDatetime 2000 2 29 23 59 59 999999 None)).
  - reflexivity.
  - reflexivity.
  - cbn [year]. lia.
Defined.

(* ===================================================================== *)
(** * Runs without a date argument *)
(* ===================================================================== *)

Lemma only_p (flags : string) :
  startswith_dash flags = true ->
  tl (list_ascii_of_string flags) = ["p"%char] ->
  flags = "-p".
Proof.
  destruct flags as [|c [|c' [|c'' s]]]; cbn; try discriminate.
  intros Hc H. apply Ascii.eqb_eq in Hc. injection H as ->. subst c.
  reflexivity.
Qed.

Lemma char_in_singleton (c : ascii) (l : list ascii) :
  char_in c l = true -> List.length l = 1%nat -> l = [c].
Proof.
  destruct l as [|a [|b l]]; try discriminate. unfold char_in. cbn.
  rewrite orb_false_r. intros H _. apply Ascii.eqb_eq in H. subst a.
  reflexivity.
Qed.

(** X9.  Without a date argument, [-p] is the only flag token on which
    the run returns normally: with three words on the command line and
    any other flag token ([-pp] and the bare [-] included), the run ends
    with an exception, whatever the accessor answers. *)
Theorem without_date_only_p_returns (E : env) (answers : list string)
        (prog path flags : string) :
  argv E = [prog; path; flags] ->
  flags <> "-p" ->
  exists e, fst (run E answers) = Raise e.
Proof.
  intros Ha Hne. unfold run, main.
  destruct (executable_found E) eqn:Hx.
  2:{ rewrite (with_accessor_not_found E _ _ Hx). eexists. reflexivity. }
  rewrite (with_accessor_run E _ _ Hx). cbn [trace child_stdout app].
  destruct (returncode E =? 0).
  2:{ destruct (main_body E _). eexists. reflexivity. }
  destruct (command_line_ok E) eqn:Hok.
  2:{ destruct (main_body_rejects E answers Hok) as (pre & _ & ->).
      eexists. reflexivity. }
  unfold command_line_ok in Hok. rewrite Ha in Hok.
  apply andb_true_iff in Hok. destruct Hok as [Hfd Hv].
  apply andb_true_iff in Hfd. destruct Hfd as [Hf Hd].
  rewrite (main_body_checked E _ prog path flags [] Ha Hf Hd).
  cbv zeta. erewrite bind_ok; [|apply check_commands_ok; exact Hv].
  assert (Hm : forall w,
             exists w', main_mutate E path (tl (list_ascii_of_string flags)) w
                        = (Raise IndexError, w')).
  { intros w. unfold main_mutate. rewrite Ha. cbn [index nth_error].
    eexists. reflexivity. }
  destruct (char_in "p" (tl (list_ascii_of_string flags))) eqn:Hp.
  - unfold bind at 1. destruct (show_times E path _) as [[[]|e] w1].
    2:{ eexists. reflexivity. }
    destruct (List.length (tl (list_ascii_of_string flags)) =? 1)%nat eqn:Hl.
    + apply Nat.eqb_eq in Hl. exfalso. apply Hne.
      apply (only_p flags Hd). apply char_in_singleton; assumption.
    + destruct (Hm w1) as (w' & ->). eexists. reflexivity.
  - match goal with |- context [main_mutate E path _ ?w] =>
      destruct (Hm w) as (w' & ->) end.
    eexists. reflexivity.
Qed.

Lemma without_date_only_p_returns_witness :
  exists e,
    fst (run (test_env ["./timestomp.py"; "test.txt"; "-pp"]) answers_print)
    = Raise e.
Proof.
  apply (without_date_only_p_returns
           (test_env ["./timestomp.py"; "test.txt"; "-pp"]) answers_print
           "./timestomp.py" "test.txt" "-pp").
  - reflexivity.
  - discriminate.
Defined.

(* ===================================================================== *)
(** * What the decoder returns *)
(* ===================================================================== *)

Lemma datetime_from_timet_and_us_naive (t us : Z) (dt : datetime) :
  datetime_from_timet_and_us t us = Ok dt ->
  tzinfo dt = None /\ microsecond dt = us.
Proof.
  unfold datetime_from_timet_and_us.
  destruct ((t <? - 2 ^ 63) || (2 ^ 63 <=? t)); [discriminate|].
  destruct (_ord2ymd (EPOCH_ORDINAL + t / 86400)) as [[y m] d].
  destruct ((y - 1900 <? - 2 ^ 31) || (2 ^ 31 <=? y - 1900)); [discriminate|].
  destruct ((y <? MINYEAR) || (MAXYEAR <? y)); [discriminate|].
  intros H. injection H as <-. split; reflexivity.
Qed.

Lemma utcfromtimestamp_naive (ts : timestamp) (dt : datetime) :
  utcfromtimestamp ts = Ok dt -> tzinfo dt = None.
Proof.
  unfold utcfromtimestamp. destruct ts as [n|f].
  - intros H. apply (datetime_from_timet_and_us_naive _ _ _ H).
  - destruct f; try discriminate;
      match goal with |- context [modf ?x] => destruct (modf x) as [ip fr] end;
      repeat match goal with
             | |- context [if ?b then _ else _] => destruct b
             end;
      match goal with
      | |- context [time_t_of_double ?n] =>
          destruct (time_t_of_double n) as [tt' | err]
      end;
      cbn [rbind]; try discriminate;
      intros H; apply (datetime_from_timet_and_us_naive _ _ _ H).
Qed.

(** X10.  Whatever the decoder returns is a naive timestamp, so the
    encoder accepts it: it answers with a tick count and never with
    [ValueError("Naive datetime expected")] or a [TypeError]. *)
Theorem decoded_is_encodable (t : Z) (dt : datetime) :
  ticks_to_datetime t = Ok dt ->
  tzinfo dt = None /\ exists t', datetime_to_ticks dt = Ok t'.
Proof.
  unfold ticks_to_datetime.
  destruct (int_truediv_float (t - _EPOCH) f_1e7) as [f|e]; [|discriminate].
  cbn [rbind]. intros H. apply utcfromtimestamp_naive in H.
  split; [exact H|].
  destruct (datetime_to_ticks_naive dt H) as (delta & _ & Et).
  eexists. exact Et.
Qed.

Lemma decoded_is_encodable_witness :
  tzinfo unix_epoch = None /\ exists t', datetime_to_ticks unix_epoch = Ok t'.
Proof.
  apply (decoded_is_encodable _EPOCH unix_epoch).
  vm_compute. reflexivity.
Defined.
